(** * RabPDF (src/main.py): a shallow embedding and its verified properties

    The program converts office documents to PDF and tiles a text
    watermark over every page.  This development embeds the parts of
    [src/main.py] that carry the algorithmic and failure-handling logic:

    - [DependencyManager.get_libreoffice_download_url]
    - [WatermarkManager.add_watermark]
    - [OfficeToPDFConverter.convert_with_libreoffice] / [convert_with_comtypes]
    - [SettingsManager.load_settings] / [save_settings]
    - [OfficeToPDFGUI._save_current_settings] / [_perform_processing]

    Conventions.  Python [int] is [Z]; Python [float] is idealised as an
    exact rational [Q] (the only rounding the program performs itself is
    [int(...)], which is modelled exactly as truncation toward zero);
    [str] is [string]; a [dict] is a [gmap]; the file system is a [gmap]
    from path strings to files.  Stateful code lives in a state-and-exception
    monad [M S]; [try/except/finally] are combinators with Python's
    semantics.  Whatever the program obtains from outside itself (the
    platform, the office applications, the subprocess, the font metrics) is
    read from an environment record [Env]. *)

From Stdlib Require Import ZArith QArith String Ascii List Lia Bool.
From stdpp Require Import base option gmap strings list.
Import ListNotations.
Open Scope string_scope.
Open Scope list_scope.
Open Scope Z_scope.

(** ** Python primitives *)

Module Py.

(** [int(x)] on a float: truncation toward zero. *)
Definition int (x : Q) : Z := Z.quot (Qnum x) (Z.pos (Qden x)).

(** Number of elements of [range(start, stop, step)] for [step <> 0]. *)
Definition range_len (start stop step : Z) : Z :=
  if 0 <? step then
    if start <? stop then (stop - start + step - 1) / step else 0
  else
    if stop <? start then (start - stop - step - 1) / (- step) else 0.

(** [start, start+step, ...] with [n] elements. *)
Fixpoint range_from (n : nat) (start step : Z) : list Z :=
  match n with
  | O => []
  | S n' => start :: range_from n' (start + step) step
  end.

(** [range(start, stop, step)]; [None] stands for the [ValueError] that
    Python raises when [step] is zero. *)
Definition range (start stop step : Z) : option (list Z) :=
  if step =? 0 then None
  else Some (range_from (Z.to_nat (range_len start stop step)) start step).

(** [s.endswith(suf)] *)
Fixpoint endswith (s suf : string) : bool :=
  if String.eqb s suf then true
  else match s with
       | EmptyString => false
       | String _ s' => endswith s' suf
       end.

(** [s.startswith(pre)] *)
Definition startswith (s pre : string) : bool := String.prefix pre s.

Definition lower_ascii (c : ascii) : ascii :=
  let n := nat_of_ascii c in
  if (Nat.leb 65 n && Nat.leb n 90)%bool then ascii_of_nat (n + 32) else c.

(** [s.lower()] (on the ASCII letters). *)
Fixpoint lower (s : string) : string :=
  match s with
  | EmptyString => EmptyString
  | String c s' => String (lower_ascii c) (lower s')
  end.

(** The ASCII characters for which [str.isspace] holds:
    TAB, LF, VT, FF, CR, FS, GS, RS, US and SPACE.  Strings are byte
    strings here, so the white space beyond ASCII that Python also strips
    (such as U+3000) is not recognised; no property below depends on which
    characters count as white space. *)
Definition isspace (c : ascii) : bool :=
  let n := nat_of_ascii c in
  ((Nat.leb 9 n && Nat.leb n 13) || (Nat.leb 28 n && Nat.leb n 32))%bool.

Fixpoint lstrip (s : string) : string :=
  match s with
  | EmptyString => EmptyString
  | String c s' => if isspace c then lstrip s' else s
  end.

Fixpoint rev_string (acc s : string) : string :=
  match s with
  | EmptyString => acc
  | String c s' => rev_string (String c acc) s'
  end.

Definition rstrip (s : string) : string :=
  rev_string EmptyString (lstrip (rev_string EmptyString s)).

(** [s.strip()] *)
Definition strip (s : string) : string := rstrip (lstrip s).

(** [x in l] for a list of strings. *)
Definition contains (x : string) (l : list string) : bool :=
  existsb (String.eqb x) l.

(** [l.remove(x)]: deletes the first occurrence (the caller guards against
    the [ValueError] of an absent element with [x in l]). *)
Fixpoint remove (x : string) (l : list string) : list string :=
  match l with
  | [] => []
  | y :: l' => if String.eqb x y then l' else y :: remove x l'
  end.

End Py.

(** ** Exceptions, and the state-and-exception monad *)

Inductive exn : Type :=
| ValueError          (* range() arg 3 must not be zero *)
| IndexError          (* pages[0] of a document without pages *)
| FileNotFoundError   (* open() of a missing file *)
| PermissionError     (* open(..., 'w') refused *)
| PdfReadError        (* PyPDF2 on something that is not a PDF *)
| JSONDecodeError     (* json.load on something that is not JSON *)
| COMError            (* any failure reported by the automation layer *)
| OSError             (* any other failure of the operating system *)
| UnicodeDecodeError  (* reading as UTF-8 text bytes that are not *)
| AttributeError.     (* [.get] on a value that is not a dictionary *)

Inductive Res (A : Type) : Type :=
| Ok (a : A)
| Raise (e : exn).
Arguments Ok {A} a.
Arguments Raise {A} e.

Definition M (S A : Type) : Type := S -> Res A * S.

#[export] Instance M_ret {S} : MRet (M S) := fun A a s => (Ok a, s).

#[export] Instance M_bind {S} : MBind (M S) := fun A B f m s =>
  match m s with
  | (Ok a, s') => f a s'
  | (Raise e, s') => (Raise e, s')
  end.

Definition raise {S A} (e : exn) : M S A := fun s => (Raise e, s).

Definition modify {S} (f : S -> S) : M S unit := fun s => (Ok tt, f s).

(** [try: m  except Exception as e: h e] *)
Definition try_except {S A} (m : M S A) (h : exn -> M S A) : M S A := fun s =>
  match m s with
  | (Ok a, s') => (Ok a, s')
  | (Raise e, s') => h e s'
  end.

(** [try: m  finally: fin].  The [finally] block runs on every exit;
    when it raises, its exception replaces the pending result. *)
Definition try_finally {S A} (m : M S A) (fin : M S unit) : M S A := fun s =>
  let (r, s') := m s in
  match fin s' with
  | (Ok _, s'') => (r, s'')
  | (Raise e, s'') => (Raise e, s'')
  end.

(** [for x in l: f x] *)
Fixpoint for_each {S A} (l : list A) (f : A -> M S unit) : M S unit :=
  match l with
  | [] => mret tt
  | x :: l' => f x ;; for_each l' f
  end.

(** A Python [range] used as a loop header. *)
Definition py_range {S} (start stop step : Z) : M S (list Z) :=
  match Py.range start stop step with
  | Some l => mret l
  | None => raise ValueError
  end.

(** Python 3 makes [IOError] an alias of [OSError]; these are its
    subclasses among the exceptions above. *)
Definition is_OSError (e : exn) : bool :=
  match e with
  | FileNotFoundError | PermissionError | OSError => true
  | _ => false
  end.

(** [try: m  except (E1, E2, ...) as e: h e], the classes given by [catches]. *)
Definition try_except_if {S A} (catches : exn -> bool) (m : M S A)
    (h : exn -> M S A) : M S A := fun s =>
  match m s with
  | (Ok a, s') => (Ok a, s')
  | (Raise e, s') => if catches e then h e s' else (Raise e, s')
  end.

(** ** Data model *)

(** A [pathlib.Path], kept split the way the program reads it:
    [p.parent], [p.stem], [p.suffix]; [p.name] is [stem + suffix]. *)
Record Path : Type := { parent : string; stem : string; suffix : string }.

Definition name (p : Path) : string := stem p +:+ suffix p.

Definition str (p : Path) : string := parent p +:+ "/" +:+ name p.

(** [dir / f"{stem}{suffix}"] *)
Definition joinpath (dir : string) (stem suffix : string) : Path :=
  {| parent := dir; stem := stem; suffix := suffix |}.

(** The operators of a page content stream, as far as the program emits
    them through ReportLab's canvas. *)
Inductive Operator : Type :=
| SetFillColor (alpha : Q)
| SetFont (font : string) (size : Q)
| Translate (dx dy : Q)
| Rotate (theta : Q)
| DrawString (x y : Z) (text : string).

(** [page.mediabox] is [llx, lly, urx, ury]. *)
Record RectangleObject : Type := { llx : Q; lly : Q; urx : Q; ury : Q }.

(** A PDF page: its media box and its content streams, bottom layer first. *)
Record Page : Type :=
  { mediabox : RectangleObject; contents : list (list Operator) }.

Definition width (p : Page) : Q := (urx (mediabox p) - llx (mediabox p))%Q.
Definition height (p : Page) : Q := (ury (mediabox p) - lly (mediabox p))%Q.

(** The JSON values the settings file holds. *)
Inductive pyval : Type :=
| VInt (z : Z)
| VFloat (q : Q)
| VStr (s : string)
| VList (l : list string).

(** What [json.load] returns: a dictionary for a JSON object, the value
    itself for any other JSON text. *)
Inductive Json : Type :=
| JObject (d : gmap string pyval)
| JValue (v : pyval).

(** The contents of a file, by what the program's readers make of it:
    - [FPdf]: a PDF document (binary contents, not UTF-8 text);
    - [FJson]: UTF-8 text holding a JSON object;
    - [FJsonValue]: UTF-8 text holding JSON that is not an object;
    - [FText]: UTF-8 text that is not JSON (the empty file included);
    - [FOther]: other binary contents, not UTF-8 text (an office document,
      a broken-off PDF). *)
Inductive File : Type :=
| FPdf (pages : list Page)
| FJson (d : gmap string pyval)
| FJsonValue (v : pyval)
| FText
| FOther.

(** The text lines the program sends to its log sink, one constructor per
    message of the source (the line of [src/main.py] in the comment). *)
Inductive LogMsg : Type :=
| MsgLoadSettingsFailed (e : exn)              (* 69 *)
| MsgSaveSettingsFailed (e : exn)              (* 77 *)
| MsgUnsupportedPlatform (system machine : string) (* 149-150 *)
| MsgMissingPdfLibs                            (* 282 *)
| MsgFontNotRegistered                         (* 285 *)
| MsgPdfEmpty (name : string)                  (* 294 *)
| MsgWatermarkAdded (name : string)            (* 325 *)
| MsgWatermarkError (e : exn)                  (* 328 *)
| MsgLibreOfficeConverting (name : string)     (* 359 *)
| MsgConverted (name : string)                 (* 364, 394, 414 *)
| MsgLibreOfficeFailed (output : string)       (* 366 *)
| MsgLibreOfficeError (e : exn)                (* 369 *)
| MsgComtypesWindowsOnly                       (* 374 *)
| MsgComtypesMissing                           (* 379 *)
| MsgWordConverting (name : string)            (* 386 *)
| MsgWordError (e : exn)                       (* 397 *)
| MsgPowerPointConverting (name : string)      (* 407 *)
| MsgPowerPointError (e : exn)                 (* 417 *)
| MsgProcessing (i total : nat) (basename : string) (* 839-840 *)
| MsgTryingLibreOffice                         (* 853-854 *)
| MsgConversionFailed (name : string)          (* 864 *)
| MsgPdfSkipConversion                         (* 867 *)
| MsgWatermarkFailed (name : string)           (* 877-878 *)
| MsgDoneWithoutWatermark                      (* 883 *)
| MsgAllDone (success_count total : nat)       (* 885 *)
| MsgFatal (e : exn).                          (* 892 *)

(** What [subprocess.run] is given: one shell string or an argument list. *)
Inductive Cmd : Type :=
| CmdStr (s : string)
| CmdArgs (args : list string).

Record CompletedProcess : Type :=
  { returncode : Z; stdout : string; stderr : string }.

(** Calls that leave the process, recorded in the order they happen.  The
    trace is ghost state: the program never reads it. *)
Inductive Event : Type :=
| EvConvertWithComtypes (input : string)
| EvConvertWithLibreOffice (input : string)
| EvAddWatermark (input : string)
| EvCreateObject (progid : string)
| EvOpen (file : string)
| EvSaveAs (file : string) (format : Z)
| EvClose (file : string)
| EvQuit (progid : string)
| EvSubprocess (cmd : Cmd)
| EvCopy (src dst : string)
| EvAfter.            (* root.after(0, self._save_current_settings) *)

Record World : Type :=
  { fs : gmap string File; log : list LogMsg; trace : list Event }.

Definition set_fs (f : gmap string File -> gmap string File) (w : World) : World :=
  {| fs := f (fs w); log := log w; trace := trace w |}.

Definition add_log (m : LogMsg) (w : World) : World :=
  {| fs := fs w; log := log w ++ [m]; trace := trace w |}.

Definition add_event (e : Event) (w : World) : World :=
  {| fs := fs w; log := log w; trace := trace w ++ [e] |}.

(** Everything the program is told by its surroundings. *)
Record Env : Type :=
  { platform_system : string;
    platform_machine : string;
    (* whether [import reportlab, PyPDF2] and [import comtypes.client] work *)
    import_pdf_libs : bool;
    import_comtypes : bool;
    (* [canvas.stringWidth(text, font, size)] *)
    stringWidth : string -> string -> Q -> Q;
    (* the name [tempfile.NamedTemporaryFile] picks *)
    mkstemp : World -> string;
    (* whether [open(path, 'w')] / [open(path, 'wb')] is granted *)
    may_write : string -> World -> bool;
    (* a PDF writer that raises after its file was opened: the exception
       and what the broken write leaves in the file *)
    write_fault : string -> World -> option (exn * File);
    (* [subprocess.run(cmd, shell=True, ...)]: raises, or completes and
       leaves the file system as returned *)
    subprocess_run : Cmd -> World -> Res (CompletedProcess * gmap string File);
    (* the automation layer: [false] means the call raises *)
    com_CreateObject : string -> World -> bool;
    com_Open : string -> World -> bool;
    (* [SaveAs]: raises, or returns having written [Some file] or nothing *)
    com_SaveAs : string -> Z -> World -> Res (option File);
    com_Close : string -> World -> bool;
    com_Quit : string -> World -> bool;
    (* [shutil.copy2(src, dst)] succeeds *)
    copy2_ok : string -> string -> World -> bool }.

(** ** Operations on the world *)

Section Primitives.
Context {L : Type}.

(** The state of a running method: the world and the method's local
    variables that a handler or a [finally] block reads. *)
Definition liftW {A} (m : M World A) : M (World * L) A := fun s =>
  let (r, w') := m (fst s) in (r, (w', snd s)).

Definition get_locals : M (World * L) L := fun s => (Ok (snd s), s).

Definition set_locals (f : L -> L) : M (World * L) unit := fun s =>
  (Ok tt, (fst s, f (snd s))).

End Primitives.

(** Calls a method body with fresh locals, which are dropped on return. *)
Definition with_locals {L A} (init : L) (m : M (World * L) A) : M World A :=
  fun w => let (r, s') := m (w, init) in (r, fst s').

Definition log_message (m : LogMsg) : M World unit := modify (add_log m).

Definition record (e : Event) : M World unit := modify (add_event e).

(** [os.path.exists(path)] / [Path.exists()] *)
Definition path_exists (path : string) : M World bool := fun w =>
  (Ok (bool_decide (is_Some (fs w !! path))), w).

(** [open(path, 'r')] / [open(path, 'rb')], then reading the file. *)
Definition open_read (path : string) : M World File := fun w =>
  match fs w !! path with
  | Some f => (Ok f, w)
  | None => (Raise FileNotFoundError, w)
  end.

(** [open(path, 'w')], then writing the short text [f] (the settings
    dictionary): the open may be refused, which touches nothing; once the
    file is open the text is taken to be written. *)
Definition open_write (env : Env) (path : string) (f : File) : M World unit :=
  fun w =>
    if may_write env path w then (Ok tt, set_fs (insert path f) w)
    else (Raise PermissionError, w).

(** [open(path, 'wb')], then a PDF writer filling the file with [f]
    ([pdf_writer.write], [c.save()]).  The open may be refused, which touches
    nothing.  Once granted it creates or truncates the file; the writer then
    either completes or raises, leaving what it had written so far. *)
Definition write_pdf (env : Env) (path : string) (f : File) : M World unit :=
  fun w =>
    if may_write env path w then
      match write_fault env path w with
      | None => (Ok tt, set_fs (insert path f) w)
      | Some (e, remains) => (Raise e, set_fs (insert path remains) w)
      end
    else (Raise PermissionError, w).

(** [os.unlink(path)] *)
Definition unlink (path : string) : M World unit :=
  modify (set_fs (delete path)).

(** [PyPDF2.PdfReader(file)], giving the page list. *)
Definition PdfReader {S} (f : File) : M S (list Page) :=
  match f with
  | FPdf pages => mret pages
  | _ => raise PdfReadError
  end.

(** ** [class DependencyManager] (lines 80-223) *)

Module DependencyManager.

Record t : Type := { system : string; machine : string }.

(** [__init__]: [platform.system()] and [platform.machine()] *)
Definition init (env : Env) : t :=
  {| system := platform_system env; machine := platform_machine env |}.

Definition windows_paths : list string :=
  [ "C:\Program Files\LibreOffice\program\soffice.exe";
    "C:\Program Files (x86)\LibreOffice\program\soffice.exe" ].

Definition quoted (s : string) : string :=
  String (ascii_of_nat 34) s +:+ String (ascii_of_nat 34) EmptyString.

(** [find_libreoffice_path] (lines 120-131) *)
Definition find_libreoffice_path (self : t) : M World string :=
  if String.eqb (system self) "Darwin" then
    let macos_path := "/Applications/LibreOffice.app/Contents/MacOS/soffice" in
    ex ← path_exists macos_path;
    if ex : bool then mret (quoted macos_path) else mret "libreoffice"
  else if String.eqb (system self) "Windows" then
    (fix scan (paths : list string) : M World string :=
       match paths with
       | [] => mret "libreoffice"
       | path :: paths' =>
           ex ← path_exists path;
           if ex : bool then mret (quoted path) else scan paths'
       end) windows_paths
  else mret "libreoffice".

(** [get_libreoffice_download_url] (lines 133-151) *)
Definition get_libreoffice_download_url (self : t) : M World (option string) :=
  let unsupported : M World (option string) :=
    log_message (MsgUnsupportedPlatform (system self) (machine self));;
    mret None in
  if String.eqb (system self) "Windows" then
    if Py.endswith (machine self) "64" then
      mret (Some "https://pan.yeslu.cn/f/wEH3/LibreOffice_25.2.5_Win_x86-64.msi")
    else unsupported
  else if String.eqb (system self) "Darwin" then
    if String.eqb (machine self) "arm64" then
      mret (Some "https://pan.yeslu.cn/f/EnS3/LibreOffice_25.2.5_MacOS_aarch64.dmg")
    else if String.eqb (machine self) "x86_64" then
      mret (Some "https://pan.yeslu.cn/f/qMh4/LibreOffice_25.2.5_MacOS_x86-64.dmg")
    else unsupported
  else unsupported.

End DependencyManager.

(** ** [class WatermarkManager] (lines 226-332) *)

Module WatermarkManager.

(** The attributes [add_watermark] reads; [font_registered] is what
    [__init__] leaves after trying to register the typeface. *)
Record t : Type := { font_name : string; font_registered : bool }.

(** ReportLab's [canvas.Canvas(filename, pagesize=...)]: the operators
    emitted so far are in [code]. *)
Record Canvas : Type :=
  { filename : string; pagesize : Q * Q; code : list Operator }.

(** A drawing call on the canvas object appends one operator. *)
Definition emit (op : Operator) : M Canvas unit := fun cv =>
  (Ok tt,
   {| filename := filename cv; pagesize := pagesize cv; code := code cv ++ [op] |}).

(** The single page [c.save()] writes. *)
Definition saved_page (cv : Canvas) : Page :=
  {| mediabox := {| llx := 0; lly := 0;
                    urx := fst (pagesize cv); ury := snd (pagesize cv) |};
     contents := [code cv] |}.

(** PyPDF2's [page.merge_page(page2)]: the content of [page2] is drawn on
    top of the content of [page]; the media box of [page] stays. *)
Definition merge_page (page page2 : Page) : Page :=
  {| mediabox := mediabox page; contents := contents page ++ contents page2 |}.

(** The local of [add_watermark] that its [finally] block reads. *)
Record Locals : Type := { watermark_canvas_path : option string }.

Definition locals0 : Locals := {| watermark_canvas_path := None |}.

(** [tempfile.NamedTemporaryFile(delete=False, suffix=".pdf")]: an empty
    file is created under the name the system picks. *)
Definition NamedTemporaryFile (env : Env) : M World string := fun w =>
  let path := mkstemp env w in (Ok path, set_fs (insert path FText) w).

(** Lines 311-313: the two nested [for ... in range(...)] loops. *)
Definition tile (page_width page_height text_width font_size : Q)
    (watermark_text : string) : M Canvas unit :=
  xs ← py_range (- Py.int (page_width * 2)) (Py.int (page_width * 2))
                (Py.int (text_width * 1.5));
  for_each xs (fun x =>
    ys ← py_range (- Py.int (page_height * 2)) (Py.int (page_height * 2))
                  (Py.int (font_size * 5));
    for_each ys (fun y => emit (DrawString x y watermark_text))).

(** Lines 304-313: everything drawn on the canvas [c]. *)
Definition draw (env : Env) (self : t) (page_width page_height : Q)
    (watermark_text : string) (opacity font_size rotation : Q) : M Canvas unit :=
  emit (SetFillColor opacity);;
  emit (SetFont (font_name self) font_size);;
  emit (Translate (page_width / 2) (page_height / 2));;
  emit (Rotate rotation);;
  let text_width := stringWidth env watermark_text (font_name self) font_size in
  tile page_width page_height text_width font_size watermark_text.

(** Runs method calls on a freshly created object and hands the object
    back; an exception they raise propagates. *)
Definition on_object {S O} (o : O) (m : M O unit) : M S O := fun s =>
  match m o with
  | (Ok _, o') => (Ok o', s)
  | (Raise e, _) => (Raise e, s)
  end.

(** [c.save()] *)
Definition save (env : Env) (cv : Canvas) : M World unit :=
  write_pdf env (filename cv) (FPdf [saved_page cv]).

(** Lines 291-326: the body of the [try] block. *)
Definition add_watermark_body (env : Env) (self : t) (pdf_path : Path)
    (watermark_text : string) (output_path : Path)
    (opacity font_size rotation : Q) : M (World * Locals) bool :=
  file ← liftW (open_read (str pdf_path));
  pages ← PdfReader file;
  match pages with
  | [] => liftW (log_message (MsgPdfEmpty (name pdf_path)));; mret false
  | page0 :: _ =>
      tmp ← liftW (NamedTemporaryFile env);
      set_locals (fun _ => {| watermark_canvas_path := Some tmp |});;
      let page_width := urx (mediabox page0) in
      let page_height := ury (mediabox page0) in
      cv ← on_object {| filename := tmp;
                        pagesize := (page_width, page_height);
                        code := [] |}
             (draw env self page_width page_height watermark_text
                opacity font_size rotation);
      liftW (save env cv);;
      watermark_file ← liftW (open_read tmp);
      overlay ← PdfReader watermark_file;
      match overlay with
      | [] => raise IndexError
      | watermark_page :: _ =>
          let merged := map (fun page => merge_page page watermark_page) pages in
          liftW (write_pdf env (str output_path) (FPdf merged));;
          liftW (log_message (MsgWatermarkAdded (name output_path)));;
          mret true
      end
  end.

(** Lines 330-332: the [finally] block. *)
Definition add_watermark_finally : M (World * Locals) unit :=
  l ← get_locals;
  match watermark_canvas_path l with
  | Some path =>
      ex ← liftW (path_exists path);
      if ex : bool then liftW (unlink path) else mret tt
  | None => mret tt
  end.

(** [add_watermark] (lines 276-332) *)
Definition add_watermark (env : Env) (self : t) (pdf_path : Path)
    (watermark_text : string) (output_path : Path)
    (opacity font_size rotation : Q) : M World bool :=
  record (EvAddWatermark (str pdf_path));;
  if negb (import_pdf_libs env) then
    log_message MsgMissingPdfLibs;; mret false
  else if negb (font_registered self) then
    log_message MsgFontNotRegistered;; mret false
  else
    with_locals locals0
      (try_finally
         (try_except
            (add_watermark_body env self pdf_path watermark_text output_path
               opacity font_size rotation)
            (fun e => liftW (log_message (MsgWatermarkError e));; mret false))
         add_watermark_finally).

End WatermarkManager.

(** ** [class OfficeToPDFConverter] (lines 335-423) *)

Module OfficeToPDFConverter.

Record t : Type :=
  { system : string; dependency_manager : DependencyManager.t }.

Definition init (env : Env) : t :=
  {| system := platform_system env;
     dependency_manager := DependencyManager.init env |}.

(** [x or y] on strings: [x] unless it is empty. *)
Definition str_or (x y : string) : string :=
  if String.eqb x "" then y else x.

(** [subprocess.run(cmd, shell=True, capture_output=True, ...)] *)
Definition run (env : Env) (cmd : Cmd) : M World CompletedProcess := fun w =>
  let w1 := add_event (EvSubprocess cmd) w in
  match subprocess_run env cmd w1 with
  | Ok (result, fs') => (Ok result, set_fs (fun _ => fs') w1)
  | Raise e => (Raise e, w1)
  end.

(** Lines 353-357: the command handed to [subprocess.run]. *)
Definition command_line (self : t) (soffice_cmd : string) (input_path : Path)
    (output_dir : string) : Cmd :=
  if ((String.eqb (system self) "Windows" || String.eqb (system self) "Darwin")
      && Py.startswith soffice_cmd (String (ascii_of_nat 34) EmptyString))%bool
  then CmdStr (soffice_cmd +:+ " --headless --convert-to pdf --outdir "
               +:+ DependencyManager.quoted output_dir +:+ " "
               +:+ DependencyManager.quoted (str input_path))
  else CmdArgs [soffice_cmd; "--headless"; "--convert-to"; "pdf";
                "--outdir"; output_dir; str input_path].

(** [convert_with_libreoffice] (lines 350-370) *)
Definition convert_with_libreoffice (env : Env) (self : t)
    (input_path : Path) (output_dir : string) : M World bool :=
  record (EvConvertWithLibreOffice (str input_path));;
  soffice_cmd ← DependencyManager.find_libreoffice_path (dependency_manager self);
  try_except
    (let cmd_str := command_line self soffice_cmd input_path output_dir in
     log_message (MsgLibreOfficeConverting (name input_path));;
     result ← run env cmd_str;
     let output_file := joinpath output_dir (stem input_path) ".pdf" in
     ex ← path_exists (str output_file);
     if ((returncode result =? 0) && ex)%bool then
       log_message (MsgConverted (name output_file));; mret true
     else
       log_message (MsgLibreOfficeFailed (str_or (stdout result) (stderr result)));;
       mret false)
    (fun e => log_message (MsgLibreOfficeError e);; mret false).

(** Locals of [convert_with_comtypes] read by its [finally] blocks:
    the application object and the opened document, [None] until assigned. *)
Record Locals : Type := { app : option string; doc : option string }.

Definition locals0 : Locals := {| app := None; doc := None |}.

Definition set_app (progid : string) (l : Locals) : Locals :=
  {| app := Some progid; doc := doc l |}.

Definition set_doc (file : string) (l : Locals) : Locals :=
  {| app := app l; doc := Some file |}.

(** One call into the automation layer: it is recorded, and raises when the
    environment says so. *)
Definition com_call (e : Event) (ok : World -> bool) : M World unit := fun w =>
  let w1 := add_event e w in
  if ok w1 then (Ok tt, w1) else (Raise COMError, w1).

Definition CreateObject (env : Env) (progid : string) : M World unit :=
  com_call (EvCreateObject progid) (com_CreateObject env progid).

Definition Open (env : Env) (file : string) : M World unit :=
  com_call (EvOpen file) (com_Open env file).

Definition SaveAs (env : Env) (file : string) (format : Z) : M World unit :=
  fun w =>
    let w1 := add_event (EvSaveAs file format) w in
    match com_SaveAs env file format w1 with
    | Ok (Some f) => (Ok tt, set_fs (insert file f) w1)
    | Ok None => (Ok tt, w1)
    | Raise e => (Raise e, w1)
    end.

Definition Close (env : Env) (file : string) : M World unit :=
  com_call (EvClose file) (com_Close env file).

Definition Quit (env : Env) (progid : string) : M World unit :=
  com_call (EvQuit progid) (com_Quit env progid).

(** The [try ... except ... finally] statement both branches of
    [convert_with_comtypes] share up to the application name, the export
    format and the messages (lines 385-403 and 406-423).  Assigning the
    [Visible] property is taken not to raise, and [Path.resolve()] to be the
    identity (paths are absolute). *)
Definition automate (env : Env) (progid : string) (format : Z)
    (converting : LogMsg) (failed : exn -> LogMsg)
    (input_path output_path : Path) : M World bool :=
  with_locals locals0
    (try_finally
       (try_except
          (liftW (log_message converting);;
           liftW (CreateObject env progid);;
           set_locals (set_app progid);;
           liftW (Open env (str input_path));;
           set_locals (set_doc (str input_path));;
           liftW (SaveAs env (str output_path) format);;
           liftW (log_message (MsgConverted (name output_path)));;
           mret true)
          (fun e => liftW (log_message (failed e));; mret false))
       (l ← get_locals;
        match doc l with
        | Some d => liftW (Close env d)
        | None => mret tt
        end;;
        match app l with
        | Some a => liftW (Quit env a)
        | None => mret tt
        end)).

(** [convert_with_comtypes] (lines 372-423) *)
Definition convert_with_comtypes (env : Env) (self : t)
    (input_path output_path : Path) : M World bool :=
  record (EvConvertWithComtypes (str input_path));;
  if negb (String.eqb (system self) "Windows") then
    log_message MsgComtypesWindowsOnly;; mret false
  else if negb (import_comtypes env) then
    log_message MsgComtypesMissing;; mret false
  else
    let file_extension := Py.lower (suffix input_path) in
    if Py.contains file_extension [".doc"; ".docx"] then
      automate env "Word.Application" 17
        (MsgWordConverting (name input_path)) MsgWordError
        input_path output_path
    else
      automate env "Powerpoint.Application" 32
        (MsgPowerPointConverting (name input_path)) MsgPowerPointError
        input_path output_path.

End OfficeToPDFConverter.

(** ** [class SettingsManager] (lines 43-77) *)

Module SettingsManager.

Record t : Type := { config_file : string }.

(** [json.load(f)] on a file opened with [encoding='utf-8']: bytes that are
    not UTF-8 text raise [UnicodeDecodeError] when they are read, text that
    is not JSON raises [JSONDecodeError], and JSON is returned as the value
    it denotes, an object or not. *)
Definition json_load {S} (f : File) : M S Json :=
  match f with
  | FJson d => mret (JObject d)
  | FJsonValue v => mret (JValue v)
  | FText => raise JSONDecodeError
  | FPdf _ | FOther => raise UnicodeDecodeError
  end.

(** [load_settings] (lines 62-70) *)
Definition load_settings (self : t) : M World Json :=
  ex ← path_exists (config_file self);
  if ex : bool then
    try_except_if (fun e => match e with JSONDecodeError => true | _ => is_OSError e end)
      (f ← open_read (config_file self);
       settings ← json_load f;
       mret settings)
      (fun e => log_message (MsgLoadSettingsFailed e);; mret (JObject ∅))
  else mret (JObject ∅).

(** [save_settings] (lines 72-77) *)
Definition save_settings (env : Env) (self : t) (settings : gmap string pyval)
    : M World unit :=
  try_except_if is_OSError
    (open_write env (config_file self) (FJson settings))
    (fun e => log_message (MsgSaveSettingsFailed e)).

End SettingsManager.

(** ** [class OfficeToPDFGUI] (lines 426-945) *)

Module OfficeToPDFGUI.

(** The attributes of the window object that the two methods below read
    or assign; the Tk variables are held by their values. *)
Record t : Type :=
  { watermark_manager : WatermarkManager.t;
    converter : OfficeToPDFConverter.t;
    settings_manager : SettingsManager.t;
    input_files : list Path;
    output_directory : string;
    conversion_method : string;
    add_watermark : bool;
    watermark_history : list string;
    watermark_text : string;
    watermark_opacity : Q;
    watermark_size : Z;
    watermark_rotation : Z }.

Definition set_watermark_history (h : list string) (self : t) : t :=
  {| watermark_manager := watermark_manager self;
     converter := converter self;
     settings_manager := settings_manager self;
     input_files := input_files self;
     output_directory := output_directory self;
     conversion_method := conversion_method self;
     add_watermark := add_watermark self;
     watermark_history := h;
     watermark_text := watermark_text self;
     watermark_opacity := watermark_opacity self;
     watermark_size := watermark_size self;
     watermark_rotation := watermark_rotation self |}.

(** Lines 815-818: the history update. *)
Definition update_history (current_text : string) (history : list string)
    : list string :=
  let history1 :=
    if Py.contains current_text history then Py.remove current_text history
    else history in
  let history2 := current_text :: history1 in
  take 5 history2.

(** Lines 820-826: the dictionary that is persisted. *)
Definition settings_dict (current_text : string) (self : t) : gmap string pyval :=
  <["last_watermark_text" := VStr current_text]>
  (<["opacity" := VFloat (watermark_opacity self)]>
  (<["size" := VInt (watermark_size self)]>
  (<["rotation" := VInt (watermark_rotation self)]>
  (<["watermark_history" := VList (watermark_history self)]> ∅)))).

(** [_save_current_settings] (lines 809-830); [self] is the state the
    method mutates. *)
Definition _save_current_settings (env : Env) : M (World * t) unit :=
  self ← get_locals;
  let current_text := Py.strip (watermark_text self) in
  if String.eqb current_text "" then mret tt
  else
    set_locals (set_watermark_history
                  (update_history current_text (watermark_history self)));;
    self ← get_locals;
    liftW (SettingsManager.save_settings env (settings_manager self)
             (settings_dict current_text self)).

(** Lines 843-859: one conversion job, under the configured method. *)
Definition convert (env : Env) (self : t) (input_path : Path)
    (output_dir : string) (output_pdf_path : Path) : M World bool :=
  let method := conversion_method self in
  let use_comtypes :=
    (String.eqb method "comtypes"
     || (String.eqb method "auto" && String.eqb (platform_system env) "Windows"))%bool in
  if use_comtypes then
    conversion_success ←
      OfficeToPDFConverter.convert_with_comtypes env (converter self)
        input_path output_pdf_path;
    if (negb conversion_success && String.eqb method "auto")%bool then
      log_message MsgTryingLibreOffice;;
      OfficeToPDFConverter.convert_with_libreoffice env (converter self)
        input_path output_dir
    else mret conversion_success
  else
    OfficeToPDFConverter.convert_with_libreoffice env (converter self)
      input_path output_dir.

(** [shutil.copy2(src, dst)] *)
Definition copy2 (env : Env) (src dst : string) : M World unit := fun w =>
  let w1 := add_event (EvCopy src dst) w in
  match fs w1 !! src with
  | Some f =>
      if copy2_ok env src dst w1 then (Ok tt, set_fs (insert dst f) w1)
      else (Raise OSError, w1)
  | None => (Raise FileNotFoundError, w1)
  end.

(** The only local of [_perform_processing] that the loop updates. *)
Record Locals : Type := { success_count : nat }.

Definition incr (l : Locals) : Locals := {| success_count := S (success_count l) |}.

(** Lines 870-884: watermark or copy the PDF obtained for one file. *)
Definition finish_file (env : Env) (self : t) (output_dir : string)
    (processed_pdf_path : Path) : M (World * Locals) unit :=
  ex ← liftW (path_exists (str processed_pdf_path));
  if ex : bool then
    if add_watermark self then
      let watermarked_output_path :=
        joinpath output_dir (stem processed_pdf_path +:+ "_watermarked") ".pdf" in
      ok ← liftW (WatermarkManager.add_watermark env (watermark_manager self)
                    processed_pdf_path (watermark_text self)
                    watermarked_output_path (watermark_opacity self)
                    (inject_Z (watermark_size self))
                    (inject_Z (watermark_rotation self)));
      if ok : bool then set_locals incr
      else liftW (log_message (MsgWatermarkFailed (name processed_pdf_path)))
    else
      let final_path :=
        joinpath output_dir (stem processed_pdf_path) (suffix processed_pdf_path) in
      ex' ← liftW (path_exists (str final_path));
      (if (negb ex' || negb (String.eqb (str final_path) (str processed_pdf_path)))%bool
       then liftW (copy2 env (str processed_pdf_path) (str final_path))
       else mret tt);;
      liftW (log_message MsgDoneWithoutWatermark);;
      set_locals incr
  else mret tt.

(** Lines 839-884: the body of the loop over [self.input_files]. *)
Definition process_file (env : Env) (self : t) (output_dir : string)
    (total_files : nat) (job : nat * Path) : M (World * Locals) unit :=
  let (i, input_path) := job in
  liftW (log_message (MsgProcessing i total_files (name input_path)));;
  let ext := Py.lower (suffix input_path) in
  if Py.contains ext [".pptx"; ".ppt"; ".docx"; ".doc"] then
    let output_pdf_path := joinpath output_dir (stem input_path) ".pdf" in
    conversion_success ←
      liftW (convert env self input_path output_dir output_pdf_path);
    if conversion_success : bool then
      finish_file env self output_dir output_pdf_path
    else
      liftW (log_message (MsgConversionFailed (name input_path)))
  else if String.eqb ext ".pdf" then
    liftW (log_message MsgPdfSkipConversion);;
    finish_file env self output_dir input_path
  else mret tt.

(** [enumerate(l, start)] *)
Fixpoint enumerate {A} (start : nat) (l : list A) : list (nat * A) :=
  match l with
  | [] => []
  | x :: l' => (start, x) :: enumerate (S start) l'
  end.

(** [_perform_processing] (lines 832-896).  Directories are implicit in
    the file-system model, so [output_dir.mkdir] has nothing to do; the
    [finally] block only re-enables the window's controls. *)
Definition _perform_processing (env : Env) (self : t) : M World unit :=
  with_locals {| success_count := 0 |}
    (try_except
       (let should_save_settings := add_watermark self in
        let output_dir := output_directory self in
        let total_files := length (input_files self) in
        for_each (enumerate 1 (input_files self))
          (process_file env self output_dir total_files);;
        l ← get_locals;
        liftW (log_message (MsgAllDone (success_count l) total_files));;
        if (should_save_settings && Nat.ltb 0 (success_count l))%bool
        then liftW (record EvAfter)
        else mret tt)
       (fun e => liftW (log_message (MsgFatal e)))).

End OfficeToPDFGUI.

(** * Vocabulary of the properties *)

(** The pairs the specification lists as having an installer: Windows with a
    machine string ending in 64, macOS on arm64, macOS on x86_64. *)
Definition mapped_pair (system machine : string) : Prop :=
  (system = "Windows" /\ exists p, machine = p +:+ "64")
  \/ (system = "Darwin" /\ (machine = "arm64" \/ machine = "x86_64")).

(** The anchors of the outer loop (line 311) and of the inner loop (line 312);
    [None] when the stride is zero. *)
Definition x_anchors (page_width text_width : Q) : option (list Z) :=
  Py.range (- Py.int (page_width * 2)) (Py.int (page_width * 2))
           (Py.int (text_width * 1.5)).

Definition y_anchors (page_height font_size : Q) : option (list Z) :=
  Py.range (- Py.int (page_height * 2)) (Py.int (page_height * 2))
           (Py.int (font_size * 5)).

(** The text drawn once at each of the given anchor points, in order. *)
Definition draw_at (text : string) (pts : list (Z * Z)) : list Operator :=
  map (fun p => DrawString (fst p) (snd p) text) pts.

(** A canvas with further operators appended. *)
Definition add_code (ops : list Operator) (cv : WatermarkManager.Canvas)
    : WatermarkManager.Canvas :=
  {| WatermarkManager.filename := WatermarkManager.filename cv;
     WatermarkManager.pagesize := WatermarkManager.pagesize cv;
     WatermarkManager.code := WatermarkManager.code cv ++ ops |}.

(** The number of tile columns and of tile rows: the lengths of the two
    loop ranges. *)
Definition tile_columns (page_width text_width : Q) : nat :=
  match x_anchors page_width text_width with
  | Some xs => length xs
  | None => O
  end.

Definition tile_rows (page_height font_size : Q) : nat :=
  match y_anchors page_height font_size with
  | Some ys => length ys
  | None => O
  end.

(** The anchor points of the two nested loops, in drawing order; [None] when
    a [range] with a zero stride is reached. *)
Definition tile_points (page_width page_height text_width font_size : Q)
    : option (list (Z * Z)) :=
  match x_anchors page_width text_width with
  | None => None
  | Some [] => Some []
  | Some xs =>
      match y_anchors page_height font_size with
      | None => None
      | Some ys => Some (list_prod xs ys)
      end
  end.

(** Lines 304-307: the graphics state set up before the loops. *)
Definition overlay_header (self : WatermarkManager.t)
    (page_width page_height opacity font_size rotation : Q) : list Operator :=
  [ SetFillColor opacity;
    SetFont (WatermarkManager.font_name self) font_size;
    Translate (page_width / 2) (page_height / 2);
    Rotate rotation ].

(** The overlay page that lines 302-314 produce for a page size, when the
    loops complete. *)
Definition overlay_page (env : Env) (self : WatermarkManager.t)
    (page_width page_height : Q) (watermark_text : string)
    (opacity font_size rotation : Q) : option Page :=
  match tile_points page_width page_height
          (stringWidth env watermark_text (WatermarkManager.font_name self) font_size)
          font_size with
  | Some pts =>
      Some {| mediabox := {| llx := 0; lly := 0;
                             urx := page_width; ury := page_height |};
              contents := [overlay_header self page_width page_height
                             opacity font_size rotation
                           ++ draw_at watermark_text pts] |}
  | None => None
  end.

(** ** Concrete surroundings used to run the model *)

Definition blank_page (w h : Q) : Page :=
  {| mediabox := {| llx := 0; lly := 0; urx := w; ury := h |}; contents := [[]] |}.

(** A Windows machine with both libraries, where every file may be written
    and the headless engine writes nothing and exits with status 1.  The
    parameters say which files the office application can open, what its
    export call does, whether closing a document works and which files can
    be copied. *)
Definition windows_env (can_open : string -> bool)
    (export : Res (option File)) (can_close : bool)
    (can_copy : string -> bool) : Env :=
  {| platform_system := "Windows";
     platform_machine := "AMD64";
     import_pdf_libs := true;
     import_comtypes := true;
     stringWidth := fun text _ size =>
       (inject_Z (Z.of_nat (String.length text)) * size * (1 # 2))%Q;
     mkstemp := fun _ => "/tmp/tmpk3v9.pdf";
     may_write := fun _ _ => true;
     write_fault := fun _ _ => None;
     subprocess_run := fun _ w =>
       Ok ({| returncode := 1; stdout := "";
              stderr := "Error: source file could not be loaded" |},
           fs w);
     com_CreateObject := fun _ _ => true;
     com_Open := fun file _ => can_open file;
     com_SaveAs := fun _ _ _ => export;
     com_Close := fun _ _ => can_close;
     com_Quit := fun _ _ => true;
     copy2_ok := fun src _ _ => can_copy src |}.

(** Every external call succeeds; the export writes a one-page PDF. *)
Definition example_env : Env :=
  windows_env (fun _ => true) (Ok (Some (FPdf [blank_page 612 792]))) true
    (fun _ => true).

Definition example_wm : WatermarkManager.t :=
  {| WatermarkManager.font_name := "Source Han Serif CN";
     WatermarkManager.font_registered := true |}.

Definition world_with (files : list (string * File)) : World :=
  {| fs := list_to_map files; log := []; trace := [] |}.

(** A two-page document whose pages have different sizes. *)
Definition mixed_pages : list Page := [blank_page 100 100; blank_page 1000 1000].

Definition mixed_pdf : Path := {| parent := "in"; stem := "mixed"; suffix := ".pdf" |}.

Definition mixed_out : Path :=
  {| parent := "out"; stem := "mixed_watermarked"; suffix := ".pdf" |}.

Definition mixed_world : World := world_with [(str mixed_pdf, FPdf mixed_pages)].

(** A one-page document whose media box has its upper-right corner at the
    origin: [/MediaBox [-612 -792 0 0]]. *)
Definition corner_page : Page :=
  {| mediabox := {| llx := -612; lly := -792; urx := 0; ury := 0 |};
     contents := [[]] |}.

Definition corner_pdf : Path := {| parent := "in"; stem := "corner"; suffix := ".pdf" |}.

Definition corner_out : Path :=
  {| parent := "out"; stem := "corner_watermarked"; suffix := ".pdf" |}.

Definition corner_world : World := world_with [(str corner_pdf, FPdf [corner_page])].

(** A one-page document whose media box does not start at the origin:
    [/MediaBox [10 10 622 802]], a page 612 wide and 792 high. *)
Definition offset_page : Page :=
  {| mediabox := {| llx := 10; lly := 10; urx := 622; ury := 802 |};
     contents := [[]] |}.

Definition offset_pdf : Path := {| parent := "in"; stem := "offset"; suffix := ".pdf" |}.

Definition offset_out : Path :=
  {| parent := "out"; stem := "offset_watermarked"; suffix := ".pdf" |}.

Definition offset_world : World := world_with [(str offset_pdf, FPdf [offset_page])].

(** ** Backend invocations *)

Definition is_backend_call (e : Event) : bool :=
  match e with
  | EvConvertWithComtypes _ | EvConvertWithLibreOffice _ => true
  | _ => false
  end.

(** The backend invocations among the recorded events, in order. *)
Definition backend_calls (tr : list Event) : list Event :=
  List.filter is_backend_call tr.

Definition is_quit (e : Event) : bool :=
  match e with
  | EvQuit _ => true
  | _ => false
  end.

(** The export call returns normally but writes no file. *)
Definition silent_export_env : Env :=
  windows_env (fun _ => true) (Ok None) true (fun _ => true).

(** Closing a document raises. *)
Definition close_raises_env : Env :=
  windows_env (fun _ => true) (Ok (Some (FPdf [blank_page 612 792]))) false
    (fun _ => true).

Definition example_converter : OfficeToPDFConverter.t :=
  OfficeToPDFConverter.init example_env.

Definition report_docx : Path := {| parent := "in"; stem := "report"; suffix := ".docx" |}.

Definition report_pdf : Path := {| parent := "out"; stem := "report"; suffix := ".pdf" |}.

Definition report_world : World := world_with [(str report_docx, FOther)].

(** ** A batch of three files *)

(** One file that the word processor cannot open. *)
Definition batch_env : Env :=
  windows_env (fun file => negb (String.eqb file "in/broken.docx"))
    (Ok (Some (FPdf [blank_page 612 792]))) true (fun _ => true).

Definition first_docx : Path := {| parent := "in"; stem := "first"; suffix := ".docx" |}.
Definition broken_docx : Path := {| parent := "in"; stem := "broken"; suffix := ".docx" |}.
Definition third_docx : Path := {| parent := "in"; stem := "third"; suffix := ".docx" |}.

Definition example_gui : OfficeToPDFGUI.t :=
  {| OfficeToPDFGUI.watermark_manager := example_wm;
     OfficeToPDFGUI.converter := example_converter;
     OfficeToPDFGUI.settings_manager :=
       {| SettingsManager.config_file := "config/settings.json" |};
     OfficeToPDFGUI.input_files := [first_docx; broken_docx; third_docx];
     OfficeToPDFGUI.output_directory := "out";
     OfficeToPDFGUI.conversion_method := "auto";
     OfficeToPDFGUI.add_watermark := true;
     OfficeToPDFGUI.watermark_history := [];
     OfficeToPDFGUI.watermark_text := "CONFIDENTIAL";
     OfficeToPDFGUI.watermark_opacity := 1 # 5;
     OfficeToPDFGUI.watermark_size := 25;
     OfficeToPDFGUI.watermark_rotation := 30 |}.

Definition batch_world : World :=
  world_with [(str first_docx, FOther); (str broken_docx, FOther);
              (str third_docx, FOther)].

(** The same three files, where the second one is corrupt: the word
    processor opens it, cannot export it and cannot close it either. *)
Definition corrupt_env : Env :=
  {| platform_system := "Windows";
     platform_machine := "AMD64";
     import_pdf_libs := true;
     import_comtypes := true;
     stringWidth := stringWidth example_env;
     mkstemp := mkstemp example_env;
     may_write := fun _ _ => true;
     write_fault := fun _ _ => None;
     subprocess_run := subprocess_run example_env;
     com_CreateObject := fun _ _ => true;
     com_Open := fun _ _ => true;
     com_SaveAs := fun file _ _ =>
       if String.eqb file "out/broken.pdf" then Raise COMError
       else Ok (Some (FPdf [blank_page 612 792]));
     com_Close := fun file _ => negb (String.eqb file "in/broken.docx");
     com_Quit := fun _ _ => true;
     copy2_ok := fun _ _ _ => true |}.

(** The window of [example_gui] with another list of input files. *)
Definition gui_with_files (files : list Path) : OfficeToPDFGUI.t :=
  {| OfficeToPDFGUI.watermark_manager := example_wm;
     OfficeToPDFGUI.converter := example_converter;
     OfficeToPDFGUI.settings_manager :=
       {| SettingsManager.config_file := "config/settings.json" |};
     OfficeToPDFGUI.input_files := files;
     OfficeToPDFGUI.output_directory := "out";
     OfficeToPDFGUI.conversion_method := "auto";
     OfficeToPDFGUI.add_watermark := true;
     OfficeToPDFGUI.watermark_history := [];
     OfficeToPDFGUI.watermark_text := "CONFIDENTIAL";
     OfficeToPDFGUI.watermark_opacity := 1 # 5;
     OfficeToPDFGUI.watermark_size := 25;
     OfficeToPDFGUI.watermark_rotation := 30 |}.

(** Two PDF files to be copied without a watermark, where copying the
    first one fails (for instance the target cannot be written). *)
Definition copy_fails_env : Env :=
  windows_env (fun _ => true) (Ok (Some (FPdf [blank_page 612 792]))) true
    (fun src => negb (String.eqb src "in/locked.pdf")).

Definition locked_pdf : Path := {| parent := "in"; stem := "locked"; suffix := ".pdf" |}.
Definition plain_pdf : Path := {| parent := "in"; stem := "plain"; suffix := ".pdf" |}.

Definition copy_gui (files : list Path) : OfficeToPDFGUI.t :=
  {| OfficeToPDFGUI.watermark_manager := example_wm;
     OfficeToPDFGUI.converter := example_converter;
     OfficeToPDFGUI.settings_manager :=
       {| SettingsManager.config_file := "config/settings.json" |};
     OfficeToPDFGUI.input_files := files;
     OfficeToPDFGUI.output_directory := "out";
     OfficeToPDFGUI.conversion_method := "auto";
     OfficeToPDFGUI.add_watermark := false;
     OfficeToPDFGUI.watermark_history := [];
     OfficeToPDFGUI.watermark_text := "CONFIDENTIAL";
     OfficeToPDFGUI.watermark_opacity := 1 # 5;
     OfficeToPDFGUI.watermark_size := 25;
     OfficeToPDFGUI.watermark_rotation := 30 |}.

Definition copy_world : World :=
  world_with [(str locked_pdf, FPdf [blank_page 612 792]);
              (str plain_pdf, FPdf [blank_page 612 792])].

(** The last message of a log. *)
Definition last_message (l : list LogMsg) : option LogMsg := List.last (map Some l) None.

(** ** The history of watermark texts *)

(** A list of texts, most recent first, reduced to the first occurrence of
    each text. *)
Fixpoint most_recent_first (l : list string) : list string :=
  match l with
  | [] => []
  | x :: l' =>
      x :: List.filter (fun y => negb (String.eqb x y)) (most_recent_first l')
  end.

(** The history after saving the texts [ts] one after the other. *)
Definition history_after (ts : list string) (history : list string) : list string :=
  fold_left (fun h t => OfficeToPDFGUI.update_history t h) ts history.

(** * Further parts of the program

    The parts of [src/main.py] around the ones above: the provisioning of
    LibreOffice ([check_libreoffice], [download_file], the two installers
    and the thread that drives them), the list of input files, the watermark
    font and the settings a new window starts with. *)

From Stdlib Require Import Sorted.

(** * The dependency provisioning service (lines 105-118, 153-223, 709-744)

    The functions below raise and catch exceptions, log messages and make
    external calls for which the model above has no names.  They get types
    of their own: [Err], [Note] and [Call].  The host keeps the notes and the
    calls in the order they happen, next to the world of the model above. *)

Module PyStr.

(** [s.split(sep)] for a one-character separator. *)
Fixpoint split (sep : ascii) (s : string) : list string :=
  match s with
  | EmptyString => [EmptyString]
  | String ch s' =>
      if Ascii.eqb ch sep then EmptyString :: split sep s'
      else match split sep s' with
           | [] => [String ch EmptyString]
           | hd :: tl => String ch hd :: tl
           end
  end.

(** [needle in s] *)
Fixpoint contains (needle s : string) : bool :=
  if String.prefix needle s then true
  else match s with
       | EmptyString => false
       | String _ s' => contains needle s'
       end.

(** [l[-1]] of a list that [split] returned. *)
Definition last (l : list string) : string := List.last l EmptyString.

(** [os.path.join(a, b)] (POSIX) *)
Definition join (a b : string) : string :=
  if Py.startswith b "/" then b
  else if (String.eqb a "" || Py.endswith a "/")%bool then a +:+ b
  else a +:+ "/" +:+ b.

End PyStr.

Module Provisioning.

Inductive MountProblem : Type :=
| MountPointNotFound      (* 199 *)
| AppNotFound.            (* 205 *)

Inductive Err : Type :=
| Builtin (e : exn)
| CalledProcessError (result : CompletedProcess)  (* [check=True], status not 0 *)
| RuntimeError (problem : MountProblem)
| AttributeError          (* [e.stderr] on an exception that has none *)
| TTFError.               (* ReportLab rejects the font file *)

Inductive Outcome (A : Type) : Type :=
| Done (a : A)
| Thrown (e : Err).
Arguments Done {A} a.
Arguments Thrown {A} e.

Definition P (S A : Type) : Type := S -> Outcome A * S.

#[global] Instance P_ret {S} : MRet (P S) := fun A a s => (Done a, s).

#[global] Instance P_bind {S} : MBind (P S) := fun A B f m s =>
  match m s with
  | (Done a, s') => f a s'
  | (Thrown e, s') => (Thrown e, s')
  end.

Definition throw {S A} (e : Err) : P S A := fun s => (Thrown e, s).

(** [try: m  except (E1, ...) as e: h e] *)
Definition attempt {S A} (catches : Err -> bool) (m : P S A) (h : Err -> P S A)
    : P S A := fun s =>
  match m s with
  | (Done a, s') => (Done a, s')
  | (Thrown e, s') => if catches e then h e s' else (Thrown e, s')
  end.

(** [try: m  finally: fin] *)
Definition ensuring {S A} (m : P S A) (fin : P S unit) : P S A := fun s =>
  let (r, s') := m s in
  match fin s' with
  | (Done _, s'') => (r, s'')
  | (Thrown e, s'') => (Thrown e, s'')
  end.

(** [for x in l: f x] *)
Fixpoint each {S A} (l : list A) (f : A -> P S unit) : P S unit :=
  match l with
  | [] => mret tt
  | x :: l' => f x ;; each l' f
  end.

(** The messages of the code modelled below (line of [src/main.py]). *)
Inductive Note : Type :=
| NoteDownloading                               (* 155 *)
| NoteProgress (percent : Z)                    (* 164 *)
| NoteDownloaded (basename : string)            (* 168 *)
| NoteDownloadFailed (e : Err)                  (* 171 *)
| NoteSilentInstall                             (* 176 *)
| NoteInstalled                                 (* 179, 214 *)
| NoteSilentInstallFailed (detail : string + Z) (* 182: stderr, or the status *)
| NoteOpeningInstaller                          (* 183 *)
| NoteMounting (basename : string)              (* 190 *)
| NoteMounted (mount_point : string)            (* 200 *)
| NoteInstallingApp (app_file : string)         (* 208 *)
| NotePasswordPrompt                            (* 209 *)
| NoteMacInstallFailed (e : Err)                (* 217 *)
| NoteDetaching                                 (* 221 *)
| NoteUnexpected (e : Err)                      (* 728 *)
| NoteFontUnavailable                           (* 236 *)
| NoteFontMissing (path : string)               (* 248 *)
| NoteFontError (e : Err)                       (* 259 *)
| NoteNoReportLab                               (* 267 *)
| NoteRegisterFailed (e : Err).                 (* 274 *)

(** External calls other than subprocesses (those are [EvSubprocess]). *)
Inductive Call : Type :=
| CallUrlretrieve (url dest : string)           (* 166 *)
| CallStartfile (path : string)                 (* 184 *)
| CallListdir (path : string)                   (* 202 *)
| CallStatusThread                              (* 744 *)
| CallShowStatus (installed : bool).            (* 735-743 *)

Record Host : Type :=
  { world : World; notes : list Note; calls : list Call }.

Definition on_world (f : World -> World) (h : Host) : Host :=
  {| world := f (world h); notes := notes h; calls := calls h |}.

Definition add_note (n : Note) (h : Host) : Host :=
  {| world := world h; notes := notes h ++ [n]; calls := calls h |}.

Definition add_call (c : Call) (h : Host) : Host :=
  {| world := world h; notes := notes h; calls := calls h ++ [c] |}.

(** What the provisioning code is told by its surroundings. *)
Record Surroundings : Type :=
  { (* [urlretrieve]: the calls of the report hook, as
       [(block_num, block_size, total_size)], then the downloaded file, or the
       exception together with what the broken transfer left at the
       destination *)
    urlretrieve : string -> string -> World
                  -> list (Z * Z * Z) * (File + exn * option File);
    (* [os.startfile(path)] succeeds *)
    startfile_ok : string -> World -> bool;
    (* [os.listdir(path)] *)
    listdir : string -> World -> Res (list string);
    (* [tempfile.TemporaryDirectory()]: the name it picks *)
    mkdtemp : World -> Res string;
    (* removing the temporary directory: the exception it raises, if any *)
    rmtree : string -> World -> option exn }.

(** An operation of the model above, run on the world of the host. *)
Definition liftM {A} (m : M World A) : P Host A := fun h =>
  match m (world h) with
  | (Ok a, w') => (Done a, on_world (fun _ => w') h)
  | (Raise e, w') => (Thrown (Builtin e), on_world (fun _ => w') h)
  end.

Section Locals.
Context {L : Type}.

Definition liftH {A} (m : P Host A) : P (Host * L) A := fun s =>
  let (r, h') := m (fst s) in (r, (h', snd s)).

Definition get_local : P (Host * L) L := fun s => (Done (snd s), s).

Definition set_local (l : L) : P (Host * L) unit := fun s => (Done tt, (fst s, l)).

End Locals.

Definition with_local {L A} (init : L) (m : P (Host * L) A) : P Host A :=
  fun h => let (r, s') := m (h, init) in (r, fst s').

Definition note (n : Note) : P Host unit := fun h => (Done tt, add_note n h).

Definition call (c : Call) : P Host unit := fun h => (Done tt, add_call c h).

(** [subprocess.run(args, ...)] without [check]. *)
Definition run (env : Env) (args : list string) : P Host CompletedProcess :=
  liftM (OfficeToPDFConverter.run env (CmdArgs args)).

(** [subprocess.run(args, check=True, ...)] *)
Definition run_checked (env : Env) (args : list string) : P Host CompletedProcess :=
  result ← run env args;
  if returncode result =? 0 then mret result
  else throw (CalledProcessError result).

Definition is_CalledProcessError (e : Err) : bool :=
  match e with CalledProcessError _ => true | _ => false end.

Definition is_FileNotFoundError (e : Err) : bool :=
  match e with Builtin FileNotFoundError => true | _ => false end.

Definition is_RuntimeError (e : Err) : bool :=
  match e with RuntimeError _ => true | _ => false end.

(** [check_libreoffice] (lines 105-118) *)
Definition check_libreoffice (env : Env) (self : DependencyManager.t) : P Host bool :=
  if String.eqb (DependencyManager.system self) "Darwin" then
    liftM (path_exists "/Applications/LibreOffice.app")
  else if String.eqb (DependencyManager.system self) "Windows" then
    liftM ((fix any (paths : list string) : M World bool :=
              match paths with
              | [] => mret false
              | path :: paths' =>
                  ex ← path_exists path;
                  if ex : bool then mret true else any paths'
              end) DependencyManager.windows_paths)
  else
    attempt (fun e => (is_CalledProcessError e || is_FileNotFoundError e)%bool)
      (run_checked env ["libreoffice"; "--version"];; mret true)
      (fun _ => mret false).

(** The report hook of [download_file] (lines 159-165); the local is
    [last_percent]. *)
Definition progress_hook (call_args : Z * Z * Z) : P (Host * Z) unit :=
  let '(block_num, block_size, total_size) := call_args in
  if 0 <? total_size then
    let percent :=
      Py.int (inject_Z (block_num * block_size * 100) / inject_Z total_size) in
    last_percent ← get_local;
    if ((last_percent <? percent) && (percent mod 5 =? 0))%bool then
      liftH (note (NoteProgress percent));;
      set_local percent
    else mret tt
  else mret tt.

(** [download_file] (lines 153-172) *)
Definition download_file (sur : Surroundings) (url : string) (dest_path : Path)
    : P Host bool :=
  with_local (-1)
    (attempt (fun _ => true)
       (liftH (note NoteDownloading);;
        set_local (-1);;
        liftH (call (CallUrlretrieve url (str dest_path)));;
        h ← (fun s => (Done (fst s), s));
        let (hooks, outcome) := urlretrieve sur url (str dest_path) (world h) in
        each hooks progress_hook;;
        match outcome with
        | inl file =>
            liftH (liftM (modify (set_fs (insert (str dest_path) file))));;
            liftH (note (NoteDownloaded (name dest_path)));;
            mret true
        | inr (e, partial) =>
            match partial with
            | Some file =>
                liftH (liftM (modify (set_fs (insert (str dest_path) file))))
            | None => mret tt
            end;;
            throw (Builtin e)
        end)
       (fun e => liftH (note (NoteDownloadFailed e));; mret false)).

(** [os.startfile(path)] *)
Definition startfile (sur : Surroundings) (path : string) : P Host unit := fun h =>
  let h1 := add_call (CallStartfile path) h in
  if startfile_ok sur path (world h1) then (Done tt, h1)
  else (Thrown (Builtin OSError), h1).

(** [install_libreoffice_windows] (lines 174-185) *)
Definition install_libreoffice_windows (env : Env) (sur : Surroundings)
    (msi_path : string) : P Host bool :=
  attempt (fun e => (is_CalledProcessError e || is_FileNotFoundError e)%bool)
    (note NoteSilentInstall;;
     run_checked env ["msiexec"; "/i"; msi_path; "/qn"];;
     note NoteInstalled;;
     mret true)
    (fun e =>
       (* [e.stderr or e]: only [CalledProcessError] has [stderr] *)
       detail ← match e with
                | CalledProcessError result =>
                    mret (if String.eqb (stderr result) ""
                          then inr (returncode result)
                          else inl (stderr result))
                | _ => throw AttributeError
                end;
       note (NoteSilentInstallFailed detail);;
       note NoteOpeningInstaller;;
       startfile sur msi_path;;
       mret false).

(** Lines 193-196: the mount point in the output of [hdiutil attach]. *)
Definition parse_mount_point (stdout : string) : option string :=
  match List.find (PyStr.contains "/Volumes/")
                  (PyStr.split (ascii_of_nat 10) (Py.strip stdout)) with
  | Some line => Some (Py.strip (PyStr.last (PyStr.split (ascii_of_nat 9) line)))
  | None => None
  end.

(** The truth value of [mount_point]: not [None] and not empty. *)
Definition truthy (mount_point : option string) : bool :=
  match mount_point with
  | Some s => negb (String.eqb s "")
  | None => false
  end.

Definition applescript (source_app_path : string) : string :=
  let q := String (ascii_of_nat 92) (String (ascii_of_nat 34) EmptyString) in
  "do shell script " +:+ String (ascii_of_nat 34) EmptyString
  +:+ "cp -R " +:+ q +:+ source_app_path +:+ q +:+ " " +:+ q +:+ "/Applications/" +:+ q
  +:+ String (ascii_of_nat 34) EmptyString +:+ " with administrator privileges".

(** [os.listdir(path)] *)
Definition os_listdir (sur : Surroundings) (path : string) : P Host (list string) :=
  fun h =>
    let h1 := add_call (CallListdir path) h in
    match listdir sur path (world h1) with
    | Ok entries => (Done entries, h1)
    | Raise e => (Thrown (Builtin e), h1)
    end.

(** [install_libreoffice_macos] (lines 187-223); the local is
    [mount_point].  First the [try] block (lines 189-215). *)
Definition install_libreoffice_macos_body (env : Env) (sur : Surroundings)
    (dmg_path : Path) : P (Host * option string) bool :=
  liftH (note (NoteMounting (name dmg_path)));;
  attach_result ← liftH (run_checked env ["hdiutil"; "attach"; str dmg_path]);
  match parse_mount_point (stdout attach_result) with
  | Some found => set_local (Some found)
  | None => mret tt
  end;;
  mount_point ← get_local;
  match mount_point with
  | Some mp =>
      ex ← liftH (liftM (path_exists mp));
      if (negb (truthy mount_point) || negb ex)%bool
      then throw (RuntimeError MountPointNotFound)
      else
        liftH (note (NoteMounted mp));;
        entries ← liftH (os_listdir sur mp);
        match List.find (fun f => Py.endswith f ".app") entries with
        | None => throw (RuntimeError AppNotFound)
        | Some app_file =>
            let source_app_path := PyStr.join mp app_file in
            liftH (note (NoteInstallingApp app_file));;
            liftH (note NotePasswordPrompt);;
            liftH (run_checked env
                     ["osascript"; "-e"; applescript source_app_path]);;
            liftH (note NoteInstalled);;
            mret true
        end
  | None => throw (RuntimeError MountPointNotFound)
  end.

(** The [finally] block (lines 219-223). *)
Definition install_libreoffice_macos_finally (env : Env)
    : P (Host * option string) unit :=
  mount_point ← get_local;
  match mount_point with
  | Some mp =>
      if truthy mount_point then
        liftH (note NoteDetaching);;
        liftH (run env ["hdiutil"; "detach"; mp]);;
        mret tt
      else mret tt
  | None => mret tt
  end.

Definition install_libreoffice_macos_try (env : Env) (sur : Surroundings)
    (dmg_path : Path) : P (Host * option string) bool :=
  attempt
    (fun e => (is_CalledProcessError e || is_RuntimeError e
               || is_FileNotFoundError e)%bool)
    (install_libreoffice_macos_body env sur dmg_path)
    (fun e => liftH (note (NoteMacInstallFailed e));; mret false).

Definition install_libreoffice_macos (env : Env) (sur : Surroundings)
    (dmg_path : Path) : P Host bool :=
  with_local (None : option string)
    (ensuring (install_libreoffice_macos_try env sur dmg_path)
              (install_libreoffice_macos_finally env)).

(** The body [check] of the thread that [check_dependencies] starts (lines
    733-743): the status label shows what [check_libreoffice] returns. *)
Definition check (env : Env) (dm : DependencyManager.t) : P Host unit :=
  installed ← check_libreoffice env dm;
  call (CallShowStatus installed).

(** [check_dependencies] (lines 732-744): the thread is started and runs
    on its own. *)
Definition check_dependencies : P Host unit := call CallStatusThread.

(** Leaving [with tempfile.TemporaryDirectory() as temp_dir]: everything
    below [temp_dir] is removed, unless the removal raises. *)
Definition cleanup (sur : Surroundings) (temp_dir : string) : P Host unit := fun h =>
  match rmtree sur temp_dir (world h) with
  | None =>
      (Done tt,
       on_world (set_fs (filter (fun kv =>
                           negb (Py.startswith (fst kv) (temp_dir +:+ "/"))))) h)
  | Some e => (Thrown (Builtin e), h)
  end.

(** [_install_libreoffice_thread] (lines 709-730).  First the body of the
    [with] block (lines 715-726). *)
Definition _install_libreoffice_thread_block (env : Env) (sur : Surroundings)
    (url temp_dir : string) : P Host unit :=
  let file_ext :=
    if String.eqb (platform_system env) "Windows" then ".msi" else ".dmg" in
  let installer_path := joinpath temp_dir "LibreOffice_installer" file_ext in
  ok ← download_file sur url installer_path;
  if negb ok then mret tt
  else if String.eqb (platform_system env) "Windows" then
    install_libreoffice_windows env sur (str installer_path);; mret tt
  else if String.eqb (platform_system env) "Darwin" then
    install_libreoffice_macos env sur installer_path;; mret tt
  else mret tt.

(** The [try] block (lines 711-726). *)
Definition _install_libreoffice_thread_try (env : Env) (sur : Surroundings)
    (dm : DependencyManager.t) : P Host unit :=
  url ← liftM (DependencyManager.get_libreoffice_download_url dm);
  match url with
  | None => mret tt
  | Some url =>
      if String.eqb url "" then mret tt
      else
        h ← (fun h => (Done h, h));
        match mkdtemp sur (world h) with
        | Ok temp_dir =>
            ensuring (_install_libreoffice_thread_block env sur url temp_dir)
                     (cleanup sur temp_dir)
        | Raise e => throw (Builtin e)
        end
  end.

Definition _install_libreoffice_thread (env : Env) (sur : Surroundings)
    (dm : DependencyManager.t) : P Host unit :=
  ensuring
    (attempt (fun _ => true)
       (_install_libreoffice_thread_try env sur dm)
       (fun e => note (NoteUnexpected e)))
    check_dependencies.

End Provisioning.

(** * The list of input files (lines 746-807)

    The methods of [OfficeToPDFGUI] that fill and empty [input_files], on the
    attributes they read and assign.  The file names are the strings the
    dialogs hand over. *)

Module FileSelection.

Inductive Notice : Type :=
| NoticeOutputDirectory (dir : string)   (* 749 *)
| NoticeAdded (added_count : Z)          (* 759 *)
| NoticeDrop                             (* 763 *)
| NoticeDropFailed (e : exn).            (* 766 *)

Inductive Warning : Type :=
| WarnNoFiles                            (* 800 *)
| WarnNoOutputDirectory.                 (* 803 *)

Record t : Type :=
  { input_files : list string;
    files_listbox : list string;
    output_directory : string;
    messages : list Notice }.

(** What the methods are told by the toolkit and the path libraries. *)
Record Toolkit : Type :=
  { (* [str(Path(p).parent)] *)
    parent_of : string -> string;
    (* [os.path.basename(p)] *)
    basename : string -> string;
    (* [str(f) for f in Path(folder).glob(pattern)] *)
    glob : string -> string -> list string;
    (* [self.root.tk.splitlist(data)] *)
    splitlist : string -> Res (list string) }.

(** The state [__init__] leaves (lines 454-455). *)
Definition initial : t :=
  {| input_files := []; files_listbox := []; output_directory := ""; messages := [] |}.

Definition log_message (n : Notice) (self : t) : t :=
  {| input_files := input_files self;
     files_listbox := files_listbox self;
     output_directory := output_directory self;
     messages := messages self ++ [n] |}.

Definition set_output_directory (dir : string) (self : t) : t :=
  {| input_files := input_files self;
     files_listbox := files_listbox self;
     output_directory := dir;
     messages := messages self |}.

(** Line 752: [file.lower().endswith(('.pptx', '.pdf', '.ppt', '.docx', '.doc'))] *)
Definition admitted (file : string) : bool :=
  existsb (Py.endswith (Py.lower file)) [".pptx"; ".pdf"; ".ppt"; ".docx"; ".doc"].

(** Lines 751-757: one turn of the loop, on [self] and [added_count]. *)
Definition add_one (tk : Toolkit) (state : t * Z) (file : string) : t * Z :=
  let (self, added_count) := state in
  if negb (admitted file) then state
  else if negb (Py.contains file (input_files self)) then
    ({| input_files := input_files self ++ [file];
        files_listbox := files_listbox self ++ [basename tk file];
        output_directory := output_directory self;
        messages := messages self |},
     added_count + 1)
  else state.

(** [_add_file_paths] (lines 746-759) *)
Definition _add_file_paths (tk : Toolkit) (file_paths : list string) (self : t) : t :=
  let self1 :=
    match file_paths with
    | first :: _ =>
        if String.eqb (output_directory self) "" then
          let self' := set_output_directory (parent_of tk first) self in
          log_message (NoticeOutputDirectory (output_directory self')) self'
        else self
    | [] => self
    end in
  let (self2, added_count) := fold_left (add_one tk) file_paths (self1, 0) in
  if 0 <? added_count then log_message (NoticeAdded added_count) self2 else self2.

(** [_handle_drop] (lines 761-766) *)
Definition _handle_drop (tk : Toolkit) (data : string) (self : t) : t :=
  let self1 := log_message NoticeDrop self in
  match splitlist tk data with
  | Ok file_paths => _add_file_paths tk file_paths self1
  | Raise e => log_message (NoticeDropFailed e) self1
  end.

(** [add_files] (lines 768-772); [files] is what the dialog returns. *)
Definition add_files (tk : Toolkit) (files : list string) (self : t) : t :=
  match files with
  | [] => self
  | _ => _add_file_paths tk files self
  end.

(** [add_folder] (lines 774-780); [folder] is what the dialog returns. *)
Definition add_folder (tk : Toolkit) (folder : string) (self : t) : t :=
  if String.eqb folder "" then self
  else
    let found :=
      flat_map (glob tk folder) ["*.pptx"; "*.ppt"; "*.pdf"; "*.doc"; "*.docx"] in
    match found with
    | [] => self
    | _ => _add_file_paths tk found self
    end.

(** [clear_files] (lines 782-783) *)
Definition clear_files (self : t) : t :=
  {| input_files := [];
     files_listbox := [];
     output_directory := output_directory self;
     messages := messages self |}.

(** [select_output_dir] (lines 785-788); [d] is what the dialog returns. *)
Definition select_output_dir (d : string) (self : t) : t :=
  if String.eqb d "" then self else set_output_directory d self.

(** [start_processing] (lines 798-807): a warning, or the processing thread
    is started. *)
Definition start_processing (self : t) : option Warning :=
  match input_files self with
  | [] => Some WarnNoFiles
  | _ =>
      if String.eqb (output_directory self) "" then Some WarnNoOutputDirectory
      else None
  end.

End FileSelection.

(** * What a new window starts with (lines 35-40, 226-274, 448-464) *)

(** ** The watermark font: [get_resource_path] and [WatermarkManager.__init__] *)

Module FontSetup.

(** What the font code is told by its surroundings. *)
Record Resources : Type :=
  { (* [sys._MEIPASS], when the attribute exists *)
    meipass : option string;
    (* [os.path.abspath('.')] *)
    abspath_dot : string;
    (* [tempfile.gettempdir()] *)
    gettempdir : string;
    (* [os.path.join(a, b)] *)
    path_join : string -> string -> string;
    (* [os.makedirs(path, exist_ok=True)]: the exception it raises, if any *)
    makedirs : string -> World -> option exn;
    (* whether [from reportlab.pdfbase import ...] works *)
    import_reportlab : bool;
    (* [pdfmetrics.registerFont(TTFont(name, path))]: the exception, if any *)
    registerFont : string -> option string -> World -> option Provisioning.Err }.

(** The attributes [__init__] assigns. *)
Record t : Type :=
  { font_path : option string;
    temp_dir : option string;
    font_name : string;
    font_registered : bool }.

Definition set_temp_dir (d : string) (self : t) : t :=
  {| font_path := font_path self; temp_dir := Some d;
     font_name := font_name self; font_registered := font_registered self |}.

Definition set_font_path (p : string) (self : t) : t :=
  {| font_path := Some p; temp_dir := temp_dir self;
     font_name := font_name self; font_registered := font_registered self |}.

Definition set_font_registered (b : bool) (self : t) : t :=
  {| font_path := font_path self; temp_dir := temp_dir self;
     font_name := font_name self; font_registered := b |}.

(** The attributes [add_watermark] reads. *)
Definition manager (self : t) : WatermarkManager.t :=
  {| WatermarkManager.font_name := font_name self;
     WatermarkManager.font_registered := font_registered self |}.

Definition update (f : t -> t) : Provisioning.P (Provisioning.Host * t) unit :=
  fun s => (Provisioning.Done tt, (fst s, f (snd s))).

(** [get_resource_path] (lines 35-40) *)
Definition get_resource_path (res : Resources) (relative_path : string) : string :=
  let base_path :=
    match meipass res with
    | Some base => base
    | None => abspath_dot res
    end in
  path_join res base_path relative_path.

(** [_get_accessible_font_path] (lines 244-260) *)
Definition _get_accessible_font_path (env : Env) (res : Resources)
    : Provisioning.P (Provisioning.Host * t) (option string) :=
  Provisioning.attempt (fun _ => true)
    (let original_font_path := get_resource_path res "SourceHanSerif.ttf" in
     ex ← Provisioning.liftH (Provisioning.liftM (path_exists original_font_path));
     if negb ex then
       Provisioning.liftH
         (Provisioning.note (Provisioning.NoteFontMissing original_font_path));;
       mret None
     else
       let base_temp_dir := gettempdir res in
       let temp := path_join res base_temp_dir "com.chandler.rabpdf" in
       update (set_temp_dir temp);;
       Provisioning.liftH
         (fun h => match makedirs res temp (Provisioning.world h) with
                   | None => (Provisioning.Done tt, h)
                   | Some e => (Provisioning.Thrown (Provisioning.Builtin e), h)
                   end);;
       let accessible_font_path := path_join res temp "SourceHanSerif.ttf" in
       Provisioning.liftH
         (Provisioning.liftM
            (OfficeToPDFGUI.copy2 env original_font_path accessible_font_path));;
       update (set_font_path accessible_font_path);;
       mret (Some accessible_font_path))
    (fun e =>
       Provisioning.liftH (Provisioning.note (Provisioning.NoteFontError e));;
       mret None).

(** [_register_font] (lines 262-274) *)
Definition _register_font (res : Resources)
    : Provisioning.P (Provisioning.Host * t) unit :=
  if negb (import_reportlab res) then
    Provisioning.liftH (Provisioning.note Provisioning.NoteNoReportLab)
  else
    Provisioning.attempt (fun _ => true)
      (self ← Provisioning.get_local;
       h ← (fun s => (Provisioning.Done (fst s), s));
       match registerFont res (font_name self) (font_path self)
               (Provisioning.world h) with
       | None => update (set_font_registered true)
       | Some e => Provisioning.throw e
       end)
      (fun e =>
         Provisioning.liftH (Provisioning.note (Provisioning.NoteRegisterFailed e))).

(** [__init__] (lines 227-236): the object that is built. *)
Definition __init__ (env : Env) (res : Resources) : Provisioning.P Provisioning.Host t :=
  fun h =>
    let self0 :=
      {| font_path := None; temp_dir := None;
         font_name := "Source Han Serif CN"; font_registered := false |} in
    let (r, s') :=
      (accessible ← _get_accessible_font_path env res;
       if Provisioning.truthy accessible then _register_font res
       else Provisioning.liftH
              (Provisioning.note Provisioning.NoteFontUnavailable)) (h, self0) in
    match r with
    | Provisioning.Done _ => (Provisioning.Done (snd s'), fst s')
    | Provisioning.Thrown e => (Provisioning.Thrown e, fst s')
    end.

End FontSetup.

(** ** The settings a new window shows (lines 448-464) *)

Module Startup.

(** The values handed to the Tk variables. *)
Record t : Type :=
  { watermark_history : pyval;
    last_text : pyval;
    opacity : pyval;
    size : pyval;
    rotation : pyval }.

(** [settings.get(key, default)]: only a dictionary has [get]. *)
Definition get {S} (settings : Json) (key : string) (default_value : pyval)
    : M S pyval :=
  match settings with
  | JObject d => mret (default default_value (d !! key))
  | JValue _ => raise AttributeError
  end.

(** Lines 452 and 459-464 of [OfficeToPDFGUI.__init__]; no handler is
    around them. *)
Definition __init__ (settings_manager : SettingsManager.t) : M World t :=
  settings ← SettingsManager.load_settings settings_manager;
  history ← get settings "watermark_history" (VList []);
  text ← get settings "last_watermark_text" (VStr "深势科技版权所有，请勿外传");
  opacity_value ← get settings "opacity" (VFloat 0.2);
  size_value ← get settings "size" (VInt 25);
  rotation_value ← get settings "rotation" (VInt 30);
  mret {| watermark_history := history;
          last_text := text;
          opacity := opacity_value;
          size := size_value;
          rotation := rotation_value |}.

End Startup.

(** * Further vocabulary *)

(** A text made of white space only (the empty text included). *)
Fixpoint all_space (s : string) : bool :=
  match s with
  | EmptyString => true
  | String ch s' => Py.isspace ch && all_space s'
  end.

(** The percentages [download_file] reports for a sequence of report-hook
    calls, given the last percentage reported so far. *)
Fixpoint reported (hooks : list (Z * Z * Z)) (last_percent : Z) : list Z :=
  match hooks with
  | [] => []
  | (block_num, block_size, total_size) :: hooks' =>
      let percent :=
        Py.int (inject_Z (block_num * block_size * 100) / inject_Z total_size) in
      if ((0 <? total_size) && (last_percent <? percent) && (percent mod 5 =? 0))%bool
      then percent :: reported hooks' percent
      else reported hooks' last_percent
  end.

(** A host with further notes. *)
Definition add_notes (ns : list Provisioning.Note) (h : Provisioning.Host)
    : Provisioning.Host :=
  {| Provisioning.world := Provisioning.world h;
     Provisioning.notes := Provisioning.notes h ++ ns;
     Provisioning.calls := Provisioning.calls h |}.

(** The mount point that [hdiutil attach] reports, when the process exits
    with status 0 and prints a [/Volumes/] line with a non-empty last field. *)
Definition mounted (env : Env) (dmg_path : Path) (w : World) : option string :=
  let attach := CmdArgs ["hdiutil"; "attach"; str dmg_path] in
  match subprocess_run env attach (add_event (EvSubprocess attach) w) with
  | Ok (r, _) =>
      if returncode r =? 0 then
        match Provisioning.parse_mount_point (stdout r) with
        | Some mp => if String.eqb mp "" then None else Some mp
        | None => None
        end
      else None
  | Raise _ => None
  end.

(** What the user does with the file list and the output directory; the
    entry of line 582 is bound to [output_directory], so the user can also
    type any text there. *)
Inductive Action : Type :=
| AddFiles (files : list string)
| AddFolder (folder : string)
| DropFiles (data : string)
| ClearFiles
| SelectOutputDir (d : string)
| TypeOutputDir (text : string).

Definition perform (tk : FileSelection.Toolkit) (self : FileSelection.t) (a : Action)
    : FileSelection.t :=
  match a with
  | AddFiles files => FileSelection.add_files tk files self
  | AddFolder folder => FileSelection.add_folder tk folder self
  | DropFiles data => FileSelection._handle_drop tk data self
  | ClearFiles => FileSelection.clear_files self
  | SelectOutputDir d => FileSelection.select_output_dir d self
  | TypeOutputDir text => FileSelection.set_output_directory text self
  end.

(** The state of the file list after a sequence of actions on a new window. *)
Definition after_actions (tk : FileSelection.Toolkit) (actions : list Action)
    : FileSelection.t :=
  fold_left (perform tk) actions FileSelection.initial.

(** The file list is well formed: no file twice, every file with one of the
    five extensions, and the list box showing the base names in step. *)
Definition well_formed (tk : FileSelection.Toolkit) (self : FileSelection.t) : Prop :=
  NoDup (FileSelection.input_files self)
  /\ Forall (fun f => FileSelection.admitted f = true) (FileSelection.input_files self)
  /\ FileSelection.files_listbox self
     = map (FileSelection.basename tk) (FileSelection.input_files self).

(** The state before the loop of [_add_file_paths]: the output directory is
    filled in when it is empty and a path is given. *)
Definition with_directory (tk : FileSelection.Toolkit) (file_paths : list string)
    (self : FileSelection.t) : FileSelection.t :=
  match file_paths with
  | first :: _ =>
      if String.eqb (FileSelection.output_directory self) "" then
        FileSelection.log_message
          (FileSelection.NoticeOutputDirectory (FileSelection.parent_of tk first))
          (FileSelection.set_output_directory (FileSelection.parent_of tk first) self)
      else self
  | [] => self
  end.

(** The actions by which the user sets the output directory. *)
Definition sets_directory (a : Action) : bool :=
  match a with SelectOutputDir _ | TypeOutputDir _ => true | _ => false end.

(** ** Further examples *)

(** The same surroundings, where no file may be written. *)
Definition read_only (env : Env) : Env :=
  {| platform_system := platform_system env;
     platform_machine := platform_machine env;
     import_pdf_libs := import_pdf_libs env;
     import_comtypes := import_comtypes env;
     stringWidth := stringWidth env;
     mkstemp := mkstemp env;
     may_write := fun _ _ => false;
     write_fault := write_fault env;
     subprocess_run := subprocess_run env;
     com_CreateObject := com_CreateObject env;
     com_Open := com_Open env;
     com_SaveAs := com_SaveAs env;
     com_Close := com_Close env;
     com_Quit := com_Quit env;
     copy2_ok := copy2_ok env |}.

(** The same surroundings, where the PDF writer breaks off on [path] (the
    disk is full, say) and leaves a file that is no PDF. *)
Definition disk_full (env : Env) (path : string) : Env :=
  {| platform_system := platform_system env;
     platform_machine := platform_machine env;
     import_pdf_libs := import_pdf_libs env;
     import_comtypes := import_comtypes env;
     stringWidth := stringWidth env;
     mkstemp := mkstemp env;
     may_write := may_write env;
     write_fault := fun p w =>
       if String.eqb p path then Some (OSError, FOther) else write_fault env p w;
     subprocess_run := subprocess_run env;
     com_CreateObject := com_CreateObject env;
     com_Open := com_Open env;
     com_SaveAs := com_SaveAs env;
     com_Close := com_Close env;
     com_Quit := com_Quit env;
     copy2_ok := copy2_ok env |}.

Definition example_settings : SettingsManager.t :=
  {| SettingsManager.config_file := "config/settings.json" |}.

(** A window whose watermark text is white space only. *)
Definition blank_gui : OfficeToPDFGUI.t :=
  {| OfficeToPDFGUI.watermark_manager := example_wm;
     OfficeToPDFGUI.converter := example_converter;
     OfficeToPDFGUI.settings_manager := example_settings;
     OfficeToPDFGUI.input_files := [];
     OfficeToPDFGUI.output_directory := "out";
     OfficeToPDFGUI.conversion_method := "auto";
     OfficeToPDFGUI.add_watermark := true;
     OfficeToPDFGUI.watermark_history := ["CONFIDENTIAL"];
     OfficeToPDFGUI.watermark_text := "   ";
     OfficeToPDFGUI.watermark_opacity := 1 # 5;
     OfficeToPDFGUI.watermark_size := 25;
     OfficeToPDFGUI.watermark_rotation := 30 |}.

Definition example_host : Provisioning.Host :=
  {| Provisioning.world := world_with [];
     Provisioning.notes := [];
     Provisioning.calls := [] |}.

(** A download that reports 0, 4, 5, 5 and 10 percent and then breaks off,
    leaving nothing at the destination. *)
Definition broken_link : Provisioning.Surroundings :=
  {| Provisioning.urlretrieve := fun _ _ _ =>
       ([(0, 8192, 1000000); (5, 8192, 1000000); (7, 8192, 1000000);
         (7, 8192, 1000000); (13, 8192, 1000000)],
        inr (OSError, None));
     Provisioning.startfile_ok := fun _ _ => true;
     Provisioning.listdir := fun _ _ => Ok [];
     Provisioning.mkdtemp := fun _ => Ok "/tmp/tmpq7w2";
     Provisioning.rmtree := fun _ _ => None |}.

(** Paths with [/] as the separator; dropped names are separated by spaces. *)
Definition example_toolkit : FileSelection.Toolkit :=
  {| FileSelection.parent_of := fun p =>
       match rev (PyStr.split "/" p) with
       | _ :: d :: _ => d
       | _ => "."
       end;
     FileSelection.basename := fun p => PyStr.last (PyStr.split "/" p);
     FileSelection.glob := fun _ _ => [];
     FileSelection.splitlist := fun data => Ok (PyStr.split " " data) |}.

(** The program run from its sources in an empty directory: no bundled
    font. *)
Definition bare_resources : FontSetup.Resources :=
  {| FontSetup.meipass := None;
     FontSetup.abspath_dot := "/home/user/rabpdf";
     FontSetup.gettempdir := "/tmp";
     FontSetup.path_join := PyStr.join;
     FontSetup.makedirs := fun _ _ => None;
     FontSetup.import_reportlab := true;
     FontSetup.registerFont := fun _ _ _ => None |}.

(** * Verified properties *)

(** ** Strings *)

Lemma endswith_refl (s : string) : Py.endswith s s = true.
Proof. destruct s; cbn [Py.endswith]; rewrite String.eqb_refl; reflexivity. Qed.

Lemma endswith_app (p suf : string) : Py.endswith (p +:+ suf) suf = true.
Proof.
  induction p as [|ch p IH].
  - apply endswith_refl.
  - change (String ch p +:+ suf) with (String ch (p +:+ suf)).
    cbn [Py.endswith].
    destruct (String.eqb (String ch (p +:+ suf)) suf); [reflexivity | exact IH].
Qed.

Lemma endswith_inv (s suf : string) :
  Py.endswith s suf = true -> exists p, s = p +:+ suf.
Proof.
  induction s as [|ch s IH]; cbn [Py.endswith].
  - destruct (String.eqb_spec "" suf) as [<-|]; [|discriminate].
    intros _. exists "". reflexivity.
  - destruct (String.eqb_spec (String ch s) suf) as [<-|Hne].
    + intros _. exists "". reflexivity.
    + intros H. destruct (IH H) as [p ->]. exists (String ch p). reflexivity.
Qed.

Lemma endswith_spec (s suf : string) :
  Py.endswith s suf = true <-> exists p, s = p +:+ suf.
Proof.
  split; [apply endswith_inv | intros [p ->]; apply endswith_app].
Qed.

(** ** C8: resolution of the installer download URL *)

(** C8.  For every (platform, architecture) pair: when the pair is mapped
    (Windows with a machine string ending in 64, macOS arm64, macOS x86_64)
    [get_libreoffice_download_url] returns a non-empty URL and logs nothing;
    when it is not mapped it returns [None] and appends exactly one message,
    the unsupported-platform one, to the log. *)
Theorem C8_download_url (self : DependencyManager.t) (w : World) :
  let res := DependencyManager.get_libreoffice_download_url self w in
  (mapped_pair (DependencyManager.system self) (DependencyManager.machine self) ->
     (exists url, fst res = Ok (Some url) /\ url <> "") /\ snd res = w)
  /\ (~ mapped_pair (DependencyManager.system self) (DependencyManager.machine self) ->
     fst res = Ok None
     /\ fs (snd res) = fs w
     /\ log (snd res) =
        (log w ++ [MsgUnsupportedPlatform (DependencyManager.system self)
                     (DependencyManager.machine self)])%list).
Proof.
  destruct self as [sys mach]; simpl.
  unfold DependencyManager.get_libreoffice_download_url, mapped_pair; simpl.
  destruct (String.eqb_spec sys "Windows") as [->|Hw].
  - destruct (Py.endswith mach "64") eqn:E.
    + split; [intros _ | intros Hn].
      * split; [eexists; split; [reflexivity | discriminate] | reflexivity].
      * exfalso. apply Hn. left. split; [reflexivity|]. apply endswith_inv, E.
    + split; [intros [[_ Hp]|[Hd _]] | intros _].
      * apply endswith_spec in Hp. congruence.
      * discriminate.
      * repeat split.
  - destruct (String.eqb_spec sys "Darwin") as [->|Hd].
    + destruct (String.eqb_spec mach "arm64") as [->|Ha].
      * split; [intros _ | intros Hn].
        -- split; [eexists; split; [reflexivity | discriminate] | reflexivity].
        -- exfalso. apply Hn. right. auto.
      * destruct (String.eqb_spec mach "x86_64") as [->|Hx].
        -- split; [intros _ | intros Hn].
           ++ split; [eexists; split; [reflexivity | discriminate] | reflexivity].
           ++ exfalso. apply Hn. right. auto.
        -- split; [intros [[Hc _]|[_ [?|?]]] | intros _]; try congruence.
           repeat split.
    + split; [intros [[? _]|[? _]] | intros _]; try congruence.
      repeat split.
Qed.

Lemma C8_download_url_witness :
  ((exists url,
      fst (DependencyManager.get_libreoffice_download_url
             {| DependencyManager.system := "Windows";
                DependencyManager.machine := "AMD64" |}
             {| fs := ∅; log := []; trace := [] |}) = Ok (Some url) /\ url <> "")
   /\ snd (DependencyManager.get_libreoffice_download_url
             {| DependencyManager.system := "Windows";
                DependencyManager.machine := "AMD64" |}
             {| fs := ∅; log := []; trace := [] |})
      = {| fs := ∅; log := []; trace := [] |})
  /\ fst (DependencyManager.get_libreoffice_download_url
            {| DependencyManager.system := "Linux";
               DependencyManager.machine := "x86_64" |}
            {| fs := ∅; log := []; trace := [] |}) = Ok None.
Proof.
  split.
  - apply (C8_download_url
             {| DependencyManager.system := "Windows";
                DependencyManager.machine := "AMD64" |}
             {| fs := ∅; log := []; trace := [] |}).
    left. split; [reflexivity | exists "AMD"; reflexivity].
  - apply (C8_download_url
             {| DependencyManager.system := "Linux";
                DependencyManager.machine := "x86_64" |}
             {| fs := ∅; log := []; trace := [] |}).
    intros [[H _]|[H _]]; discriminate H.
Defined.

(** ** The tiling loops *)

Ltac munfold := unfold mbind, mret, M_bind, M_ret in *.

Lemma add_code_nil cv : add_code [] cv = cv.
Proof. destruct cv; unfold add_code; simpl. rewrite app_nil_r. reflexivity. Qed.

Lemma add_code_app ops1 ops2 cv :
  add_code ops2 (add_code ops1 cv) = add_code (ops1 ++ ops2) cv.
Proof. unfold add_code; simpl. rewrite <- app_assoc. reflexivity. Qed.

Lemma emit_add_code op cv :
  WatermarkManager.emit op cv = (Ok tt, add_code [op] cv).
Proof. reflexivity. Qed.

Lemma inner_loop_draws (x : Z) (text : string) (ys : list Z) cv :
  for_each ys (fun y => WatermarkManager.emit (DrawString x y text)) cv
  = (Ok tt, add_code (draw_at text (map (pair x) ys)) cv).
Proof.
  revert cv. induction ys as [|y ys IH]; intros cv; simpl.
  - rewrite add_code_nil. reflexivity.
  - munfold. rewrite emit_add_code, IH, add_code_app. reflexivity.
Qed.

Lemma outer_loop_draws (text : string) (xs ys : list Z) cv :
  for_each xs (fun x =>
    ys' ← (mret ys : M WatermarkManager.Canvas (list Z));
    for_each ys' (fun y => WatermarkManager.emit (DrawString x y text))) cv
  = (Ok tt, add_code (draw_at text (list_prod xs ys)) cv).
Proof.
  revert cv. induction xs as [|x xs IH]; intros cv; simpl.
  - rewrite add_code_nil. reflexivity.
  - munfold. rewrite inner_loop_draws, IH, add_code_app.
    unfold draw_at. rewrite map_app. reflexivity.
Qed.

(** What the two loops do, case by case. *)
Lemma tile_spec (W H Tw F : Q) (text : string) cv :
  WatermarkManager.tile W H Tw F text cv =
  match x_anchors W Tw with
  | None => (Raise ValueError, cv)
  | Some [] => (Ok tt, cv)
  | Some xs =>
      match y_anchors H F with
      | None => (Raise ValueError, cv)
      | Some ys => (Ok tt, add_code (draw_at text (list_prod xs ys)) cv)
      end
  end.
Proof.
  unfold WatermarkManager.tile, x_anchors, y_anchors, py_range.
  destruct (Py.range (- Py.int (W * 2)) _ _) as [xs|]; [|reflexivity].
  destruct xs as [|x xs]; [reflexivity|].
  destruct (Py.range (- Py.int (H * 2)) _ _) as [ys|].
  - apply outer_loop_draws.
  - reflexivity.
Qed.

(** ** [int] and [range] *)

Lemma int_nonneg (q : Q) : (0 <= q)%Q -> 0 <= Py.int q.
Proof.
  unfold Qle, Py.int; simpl. intros H.
  apply Z.quot_pos; lia.
Qed.

Lemma int_le (q : Q) : (0 <= q)%Q -> (inject_Z (Py.int q) <= q)%Q.
Proof.
  unfold Qle, Py.int; simpl. intros H.
  rewrite Z.quot_div_nonneg by lia.
  pose proof (Z.mul_div_le (Qnum q) (Z.pos (Qden q)) ltac:(lia)). lia.
Qed.

Lemma range_from_length n a s : length (Py.range_from n a s) = n.
Proof. revert a; induction n as [|n IH]; intros a; simpl; [|rewrite IH]; reflexivity. Qed.

Lemma range_from_In n a s x :
  In x (Py.range_from n a s) ->
  exists k : nat, (k < n)%nat /\ x = a + Z.of_nat k * s.
Proof.
  revert a; induction n as [|n IH]; intros a; simpl; [tauto|].
  intros [<-|Hin].
  - exists O. split; lia.
  - destruct (IH _ Hin) as (k & Hk & ->). exists (S k). split; lia.
Qed.

(** For a positive stride the loop counter stays inside [start, stop) and
    the progression, continued by one more step, reaches [stop]. *)
Lemma range_positive_stride (a b s : Z) :
  0 < s ->
  exists xs,
    Py.range a b s = Some xs
    /\ xs = Py.range_from (length xs) a s
    /\ Forall (fun x => a <= x < b) xs
    /\ (a < b -> b <= a + Z.of_nat (length xs) * s).
Proof.
  intros Hs. unfold Py.range.
  destruct (Z.eqb_spec s 0) as [->|_]; [lia|].
  eexists; split; [reflexivity|].
  rewrite range_from_length.
  split; [reflexivity|].
  unfold Py.range_len.
  destruct (Z.ltb_spec 0 s) as [_|]; [|lia].
  destruct (Z.ltb_spec a b) as [Hab|Hab].
  - assert (Hn : 0 <= (b - a + s - 1) / s) by (apply Z.div_pos; lia).
    pose proof (Z.mul_div_le (b - a + s - 1) s Hs) as Hle.
    pose proof (Z.mul_succ_div_gt (b - a + s - 1) s Hs) as Hgt.
    split.
    + apply Forall_forall. intros x Hx.
      apply list_elem_of_In, range_from_In in Hx. destruct Hx as (k & Hk & ->).
      apply Nat2Z.inj_lt in Hk. rewrite Z2Nat.id in Hk by exact Hn. nia.
    + intros _. rewrite Z2Nat.id by exact Hn. nia.
  - split; [constructor | lia].
Qed.

Lemma range_from_In_iff n a s x :
  In x (Py.range_from n a s) <->
  exists k : nat, (k < n)%nat /\ x = a + Z.of_nat k * s.
Proof.
  split; [apply range_from_In|].
  revert a; induction n as [|n IH]; intros a (k & Hk & ->); [lia|].
  destruct k as [|k]; simpl.
  - left. lia.
  - right. apply IH. exists k. split; lia.
Qed.

(** With a positive stride, [range(a, b, s)] holds exactly the numbers
    [a + k * s], [k >= 0], that are below [b]: Python's [range]. *)
Lemma range_positive_stride_elements (a b s : Z) (xs : list Z) (x : Z) :
  0 < s -> Py.range a b s = Some xs ->
  In x xs <-> exists k, 0 <= k /\ x = a + k * s /\ x < b.
Proof.
  intros Hs. unfold Py.range.
  destruct (Z.eqb_spec s 0) as [->|_]; [lia|]. intros [= <-].
  rewrite range_from_In_iff. unfold Py.range_len.
  destruct (Z.ltb_spec 0 s) as [_|]; [|lia].
  destruct (Z.ltb_spec a b) as [Hab|Hab].
  - assert (Hn : 0 <= (b - a + s - 1) / s) by (apply Z.div_pos; lia).
    pose proof (Z.mul_div_le (b - a + s - 1) s Hs) as Hle.
    pose proof (Z.mul_succ_div_gt (b - a + s - 1) s Hs) as Hgt.
    split.
    + intros (k & Hk & ->). exists (Z.of_nat k).
      apply Nat2Z.inj_lt in Hk. rewrite Z2Nat.id in Hk by exact Hn.
      split; [lia|]. split; [reflexivity | nia].
    + intros (k & Hk & -> & Hlt). exists (Z.to_nat k).
      rewrite Z2Nat.id by exact Hk. split; [|reflexivity].
      apply Z2Nat.inj_lt; [exact Hk | exact Hn | nia].
  - split.
    + intros (k & Hk & _). simpl in Hk. lia.
    + intros (k & Hk & -> & Hlt). nia.
Qed.

(** ** C4: coverage of the tiling *)

Lemma count_bound (A s : Z) (n : nat) (q : Q) :
  0 <= A -> 0 < s -> (inject_Z s <= q)%Q ->
  (0 < A -> 2 * A <= Z.of_nat n * s) ->
  (inject_Z (2 * A) / q <= inject_Z (Z.of_nat n))%Q.
Proof.
  intros HA Hs Hq Hn.
  assert (Hq0 : (0 < q)%Q).
  { eapply Qlt_le_trans; [|exact Hq]. unfold Qlt; simpl. lia. }
  apply Qle_shift_div_r; [exact Hq0|].
  assert (Hz : 2 * A <= Z.of_nat n * s) by (destruct (Z.eq_dec A 0); nia).
  apply Qle_trans with (inject_Z (Z.of_nat n) * inject_Z s)%Q.
  - rewrite <- inject_Z_mult. rewrite <- Zle_Qle. exact Hz.
  - rewrite (Qmult_comm _ (inject_Z s)), (Qmult_comm _ q).
    apply Qmult_le_compat_r; [exact Hq|].
    rewrite <- (Zle_Qle 0). lia.
Qed.

(** One axis of the tiling: [P] is the page extent, [S * k] the stride
    before truncation. *)
Lemma axis_coverage (P S k : Q) :
  (0 < P)%Q -> (0 < S * k)%Q -> Py.int (S * k) <> 0 ->
  exists xs,
    Py.range (- Py.int (P * 2)) (Py.int (P * 2)) (Py.int (S * k)) = Some xs
    /\ xs = Py.range_from (length xs) (- Py.int (P * 2)) (Py.int (S * k))
    /\ Forall (fun x => - Py.int (P * 2) <= x < Py.int (P * 2)) xs
    /\ (inject_Z (2 * Py.int (P * 2)) / (S * k) <= inject_Z (Z.of_nat (length xs)))%Q
    /\ (inject_Z (Py.int (P * 2)) == P * 2 ->
        4 * P / (S * k) <= inject_Z (Z.of_nat (length xs)))%Q.
Proof.
  intros HP HS Hs.
  assert (HA : 0 <= Py.int (P * 2)).
  { apply int_nonneg. apply Qmult_le_0_compat; [apply Qlt_le_weak, HP | discriminate]. }
  assert (Hs0 : 0 < Py.int (S * k)).
  { pose proof (int_nonneg (S * k) (Qlt_le_weak _ _ HS)). lia. }
  destruct (range_positive_stride (- Py.int (P * 2)) (Py.int (P * 2)) _ Hs0)
    as (xs & Hr & Hprog & Hbounds & Hreach).
  exists xs. split; [exact Hr|]. split; [exact Hprog|]. split; [exact Hbounds|].
  assert (Hcount : (inject_Z (2 * Py.int (P * 2)) / (S * k)
                    <= inject_Z (Z.of_nat (length xs)))%Q).
  { apply count_bound with (s := Py.int (S * k)).
    - exact HA.
    - exact Hs0.
    - apply int_le, Qlt_le_weak, HS.
    - intros Hpos. specialize (Hreach ltac:(lia)). lia. }
  split; [exact Hcount|].
  intros Hint.
  assert (Heq : (4 * P == inject_Z (2 * Py.int (P * 2)))%Q).
  { rewrite inject_Z_mult, Hint. ring. }
  rewrite Heq. exact Hcount.
Qed.

(** C4 (as the code has it).  For every page width W > 0, height H > 0,
    measured text width Tw > 0 and font size F > 0 with non-zero truncated
    strides, the loops draw the text at exactly the points of the grid
    [xs] x [ys], where [xs] is the arithmetic progression that starts at the
    negative bound [-int(2W)], advances by [int(1.5 Tw)] and stays below the
    positive bound [int(2W)] (likewise [ys] with [int(2H)] and [int(5 F)]);
    the number of columns is at least [2 int(2W) / (1.5 Tw)] and the number of
    rows at least [2 int(2H) / (5 F)]; these bounds are [(4W)/(1.5 Tw)] and
    [(4H)/(5 F)] when [2W] and [2H] are whole numbers. *)
Theorem C4_tiling_coverage (W H Tw F : Q) (text : string)
    (cv : WatermarkManager.Canvas) :
  (0 < W)%Q -> (0 < H)%Q -> (0 < Tw)%Q -> (0 < F)%Q ->
  Py.int (Tw * 1.5) <> 0 -> Py.int (F * 5) <> 0 ->
  exists xs ys,
    x_anchors W Tw = Some xs /\ y_anchors H F = Some ys
    /\ WatermarkManager.tile W H Tw F text cv
       = (Ok tt, add_code (draw_at text (list_prod xs ys)) cv)
    /\ xs = Py.range_from (length xs) (- Py.int (W * 2)) (Py.int (Tw * 1.5))
    /\ ys = Py.range_from (length ys) (- Py.int (H * 2)) (Py.int (F * 5))
    /\ Forall (fun x => - Py.int (W * 2) <= x < Py.int (W * 2)) xs
    /\ Forall (fun y => - Py.int (H * 2) <= y < Py.int (H * 2)) ys
    /\ (inject_Z (2 * Py.int (W * 2)) / (Tw * 1.5)
        <= inject_Z (Z.of_nat (tile_columns W Tw)))%Q
    /\ (inject_Z (2 * Py.int (H * 2)) / (F * 5)
        <= inject_Z (Z.of_nat (tile_rows H F)))%Q
    /\ (inject_Z (Py.int (W * 2)) == W * 2 ->
        4 * W / (Tw * 1.5) <= inject_Z (Z.of_nat (tile_columns W Tw)))%Q
    /\ (inject_Z (Py.int (H * 2)) == H * 2 ->
        4 * H / (F * 5) <= inject_Z (Z.of_nat (tile_rows H F)))%Q.
Proof.
  intros HW HH HTw HF Hsx Hsy.
  assert (HTw' : (0 < Tw * 1.5)%Q).
  { apply Qmult_lt_0_compat; [exact HTw | reflexivity]. }
  assert (HF' : (0 < F * 5)%Q).
  { apply Qmult_lt_0_compat; [exact HF | reflexivity]. }
  destruct (axis_coverage W Tw 1.5 HW HTw' Hsx) as (xs & Hx & Hxp & Hxb & Hxc & Hxi).
  destruct (axis_coverage H F 5 HH HF' Hsy) as (ys & Hy & Hyp & Hyb & Hyc & Hyi).
  exists xs, ys.
  assert (Hxa : x_anchors W Tw = Some xs) by exact Hx.
  assert (Hya : y_anchors H F = Some ys) by exact Hy.
  unfold tile_columns, tile_rows. rewrite Hxa, Hya.
  split; [reflexivity|]. split; [reflexivity|].
  split.
  { rewrite tile_spec, Hxa, Hya.
    destruct xs; [|reflexivity].
    simpl. rewrite add_code_nil. reflexivity. }
  split; [exact Hxp|]. split; [exact Hyp|].
  split; [exact Hxb|]. split; [exact Hyb|].
  split; [exact Hxc|]. split; [exact Hyc|].
  split; [exact Hxi | exact Hyi].
Qed.

Lemma C4_tiling_coverage_witness :
  exists xs ys,
    x_anchors 612 200 = Some xs /\ y_anchors 792 25 = Some ys
    /\ length xs = 9%nat /\ length ys = 26%nat
    /\ (4 * 612 / (200 * 1.5) <= inject_Z (Z.of_nat (tile_columns 612 200)))%Q
    /\ (4 * 792 / (25 * 5) <= inject_Z (Z.of_nat (tile_rows 792 25)))%Q.
Proof.
  destruct (C4_tiling_coverage 612 792 200 25 "CONFIDENTIAL"
              {| WatermarkManager.filename := "overlay.pdf";
                 WatermarkManager.pagesize := (612%Q, 792%Q);
                 WatermarkManager.code := [] |})
    as (xs & ys & Hx & Hy & _ & _ & _ & _ & _ & _ & _ & Hc & Hr);
    [reflexivity | reflexivity | reflexivity | reflexivity
    | vm_compute; discriminate | vm_compute; discriminate |].
  exists xs, ys.
  split; [exact Hx|]. split; [exact Hy|].
  split; [vm_compute in Hx; injection Hx as <-; reflexivity|].
  split; [vm_compute in Hy; injection Hy as <-; reflexivity|].
  split; [apply Hc; reflexivity | apply Hr; reflexivity].
Defined.

(** C4 as stated fails when [2W] (or [2H]) is not a whole number: a page
    150.25 wide with a text 8 wide has 50 columns, fewer than
    (4 * 150.25) / (1.5 * 8) = 50.08...; a page 100.25 high with font size 20
    has 4 rows, fewer than (4 * 100.25) / (5 * 20) = 4.01. *)
Lemma C4_counterexample :
  (0 < 601 # 4)%Q /\ (0 < 401 # 4)%Q /\ (0 < 8)%Q /\ (0 < 20)%Q
  /\ Py.int (8 * 1.5) = 12 /\ Py.int (20 * 5) = 100
  /\ tile_columns (601 # 4) 8 = 50%nat
  /\ tile_rows (401 # 4) 20 = 4%nat
  /\ ~ (4 * (601 # 4) / (1.5 * 8)
        <= inject_Z (Z.of_nat (tile_columns (601 # 4) 8)))%Q
  /\ ~ (4 * (401 # 4) / (5 * 20)
        <= inject_Z (Z.of_nat (tile_rows (401 # 4) 20)))%Q.
Proof.
  repeat (split; [reflexivity|]).
  split; apply Qlt_not_le; reflexivity.
Qed.

(** ** The overlay *)

Lemma tile_points_spec (W H Tw F : Q) (text : string) cv :
  WatermarkManager.tile W H Tw F text cv =
  match tile_points W H Tw F with
  | Some pts => (Ok tt, add_code (draw_at text pts) cv)
  | None => (Raise ValueError, cv)
  end.
Proof.
  rewrite tile_spec. unfold tile_points.
  destruct (x_anchors W Tw) as [[|x xs]|]; try reflexivity.
  - simpl. rewrite add_code_nil. reflexivity.
  - destruct (y_anchors H F); reflexivity.
Qed.

(** Everything drawn on the canvas: the header, then the tiles; a zero
    stride leaves the canvas with the header only and raises. *)
Lemma draw_spec env self (W H : Q) (text : string) (o f r : Q) cv :
  WatermarkManager.draw env self W H text o f r cv =
  match tile_points W H
          (stringWidth env text (WatermarkManager.font_name self) f) f with
  | Some pts =>
      (Ok tt, add_code (overlay_header self W H o f r ++ draw_at text pts) cv)
  | None => (Raise ValueError, add_code (overlay_header self W H o f r) cv)
  end.
Proof.
  unfold WatermarkManager.draw. munfold.
  rewrite !emit_add_code, tile_points_spec, !add_code_app.
  destruct (tile_points _ _ _ _); [rewrite add_code_app|]; reflexivity.
Qed.

(** ** What [add_watermark] does on a readable, non-empty document *)

Lemma exists_after_insert (m : gmap string File) k v :
  bool_decide (is_Some (<[k := v]> m !! k)) = true.
Proof. apply bool_decide_eq_true_2. rewrite lookup_insert_eq. eauto. Qed.

Lemma exists_after_insert2 (m : gmap string File) k k' v v' :
  bool_decide (is_Some (<[k' := v']> (<[k := v]> m) !! k)) = true.
Proof.
  apply bool_decide_eq_true_2.
  destruct (decide (k' = k)) as [->|Hne].
  - rewrite lookup_insert_eq. eauto.
  - rewrite lookup_insert_ne, lookup_insert_eq by exact Hne. eauto.
Qed.

Ltac finally_step :=
  unfold WatermarkManager.add_watermark_finally, get_locals, liftW, path_exists,
    unlink, modify; munfold; simpl.

Lemma add_watermark_run env self pdf text out o f r w page0 rest :
  import_pdf_libs env = true ->
  WatermarkManager.font_registered self = true ->
  fs w !! str pdf = Some (FPdf (page0 :: rest)) ->
  let w1 := add_event (EvAddWatermark (str pdf)) w in
  let tmp := mkstemp env w1 in
  let w2 := set_fs (insert tmp FText) w1 in
  WatermarkManager.add_watermark env self pdf text out o f r w =
  match overlay_page env self (urx (mediabox page0)) (ury (mediabox page0))
          text o f r with
  | None =>
      (Ok false, set_fs (delete tmp) (add_log (MsgWatermarkError ValueError) w2))
  | Some wp =>
      if may_write env tmp w2 then
        match write_fault env tmp w2 with
        | Some (e, remains) =>
            (Ok false,
             set_fs (delete tmp)
               (add_log (MsgWatermarkError e) (set_fs (insert tmp remains) w2)))
        | None =>
            let w3 := set_fs (insert tmp (FPdf [wp])) w2 in
            if may_write env (str out) w3 then
              match write_fault env (str out) w3 with
              | Some (e, remains) =>
                  (Ok false,
                   set_fs (delete tmp)
                     (add_log (MsgWatermarkError e)
                        (set_fs (insert (str out) remains) w3)))
              | None =>
                  (Ok true,
                   set_fs (delete tmp)
                     (add_log (MsgWatermarkAdded (name out))
                        (set_fs (insert (str out)
                                   (FPdf (map (fun p => WatermarkManager.merge_page p wp)
                                            (page0 :: rest)))) w3)))
              end
            else
              (Ok false,
               set_fs (delete tmp) (add_log (MsgWatermarkError PermissionError) w3))
        end
      else
        (Ok false,
         set_fs (delete tmp) (add_log (MsgWatermarkError PermissionError) w2))
  end.
Proof.
  intros Hlibs Hfont Hsrc w1 tmp w2.
  unfold WatermarkManager.add_watermark.
  unfold record, modify. munfold.
  rewrite Hlibs, Hfont. simpl.
  unfold with_locals, try_finally, try_except, WatermarkManager.add_watermark_body.
  unfold liftW, open_read. munfold. simpl.
  rewrite Hsrc. simpl.
  unfold WatermarkManager.on_object.
  rewrite draw_spec. unfold overlay_page.
  fold w1. fold tmp. fold w2.
  destruct (tile_points _ _ _ _) as [pts|]; simpl.
  2:{ finally_step. subst w2. simpl. rewrite exists_after_insert. reflexivity. }
  unfold WatermarkManager.save, write_pdf. simpl.
  destruct (may_write env tmp w2) eqn:Htmp; simpl.
  2:{ finally_step. subst w2. simpl. rewrite exists_after_insert. reflexivity. }
  destruct (write_fault env tmp w2) as [[e remains]|] eqn:Hfault; simpl.
  { finally_step. rewrite exists_after_insert. reflexivity. }
  rewrite lookup_insert_eq. simpl.
  unfold WatermarkManager.saved_page, add_code. simpl.
  destruct (may_write env (str out) _) eqn:Hout; simpl.
  2:{ finally_step. rewrite exists_after_insert. reflexivity. }
  destruct (write_fault env (str out) _) as [[e remains]|] eqn:Hfault2; simpl.
  { finally_step. rewrite exists_after_insert2. reflexivity. }
  finally_step. rewrite exists_after_insert2. reflexivity.
Qed.

(** A successful call had both libraries and the font, and read a document
    with at least one page. *)
Lemma add_watermark_true_inv env self pdf text out o f r w w' :
  WatermarkManager.add_watermark env self pdf text out o f r w = (Ok true, w') ->
  import_pdf_libs env = true
  /\ WatermarkManager.font_registered self = true
  /\ exists page0 rest, fs w !! str pdf = Some (FPdf (page0 :: rest)).
Proof.
  unfold WatermarkManager.add_watermark.
  unfold record, modify. munfold.
  destruct (import_pdf_libs env); simpl; [|intros [=]].
  destruct (WatermarkManager.font_registered self); simpl; [|intros [=]].
  unfold with_locals, try_finally, try_except, WatermarkManager.add_watermark_body.
  unfold liftW, open_read. munfold. simpl.
  destruct (fs w !! str pdf) as [[[|page0 rest]| | | |]|]; simpl.
  - finally_step; intros [=].
  - intros _. eauto.
  - finally_step; intros [=].
  - finally_step; intros [=].
  - finally_step; intros [=].
  - finally_step; intros [=].
  - finally_step; intros [=].
Qed.

(** ** C5: the watermarked document *)

Lemma overlay_page_contents env self W H text o f r wp :
  overlay_page env self W H text o f r = Some wp ->
  exists ops, contents wp = [ops].
Proof.
  unfold overlay_page. destruct (tile_points _ _ _ _); [|discriminate].
  intros [= <-]. eexists. reflexivity.
Qed.

Lemma lookup_map {A B} (g : A -> B) (l : list A) (i : nat) (x : A) :
  l !! i = Some x -> map g l !! i = Some (g x).
Proof.
  revert i; induction l as [|y l IH]; intros [|i]; simpl; try discriminate.
  - intros [= ->]. reflexivity.
  - apply IH.
Qed.

(** C5.  Whenever [add_watermark] succeeds on a source document [pages]
    (the temporary overlay name being different from the output path), the
    file written at the output path is a PDF with exactly as many pages as
    the source, the source has at least one page, page [i] of the output is
    page [i] of the source merged with the one overlay page (same media box,
    the original content streams followed by the overlay's stream), and the
    output document differs from the source document. *)
Theorem C5_watermarked_document env self pdf text out o f r w w'
    (pages : list Page) :
  fs w !! str pdf = Some (FPdf pages) ->
  mkstemp env (add_event (EvAddWatermark (str pdf)) w) <> str out ->
  WatermarkManager.add_watermark env self pdf text out o f r w = (Ok true, w') ->
  exists (watermark_page : Page) (ops : list Operator) (output : list Page),
    fs w' !! str out = Some (FPdf output)
    /\ contents watermark_page = [ops]
    /\ length output = length pages
    /\ (1 <= length pages)%nat
    /\ (forall (i : nat) (page : Page),
          pages !! i = Some page ->
          exists merged,
            output !! i = Some merged
            /\ merged = WatermarkManager.merge_page page watermark_page
            /\ mediabox merged = mediabox page
            /\ contents merged = contents page ++ [ops])
    /\ output <> pages.
Proof.
  intros Hsrc Hfresh Hrun.
  destruct (add_watermark_true_inv _ _ _ _ _ _ _ _ _ _ Hrun)
    as (Hlibs & Hfont & page0 & rest & Hsrc').
  rewrite Hsrc in Hsrc'. injection Hsrc' as ->.
  rewrite (add_watermark_run _ _ _ _ _ _ _ _ _ _ _ Hlibs Hfont Hsrc) in Hrun.
  cbv zeta in Hrun.
  set (tmp := mkstemp env (add_event (EvAddWatermark (str pdf)) w)) in *.
  destruct (overlay_page env self _ _ text o f r) as [wp|] eqn:Hwp;
    [|discriminate Hrun].
  destruct (may_write env tmp _); [|discriminate Hrun].
  destruct (write_fault env tmp _) as [[e0 remains0]|]; [discriminate Hrun|].
  destruct (may_write env (str out) _); [|discriminate Hrun].
  destruct (write_fault env (str out) _) as [[e1 remains1]|]; [discriminate Hrun|].
  injection Hrun as <-.
  destruct (overlay_page_contents _ _ _ _ _ _ _ _ _ Hwp) as [ops Hops].
  exists wp, ops, (map (fun p => WatermarkManager.merge_page p wp) (page0 :: rest)).
  split.
  { cbn [fs set_fs add_log]. rewrite lookup_delete_ne by exact Hfresh.
    rewrite lookup_insert_eq. reflexivity. }
  split; [exact Hops|].
  split; [apply length_map|].
  split; [simpl; lia|].
  split.
  - intros i page Hi. exists (WatermarkManager.merge_page page wp). split.
    + apply (lookup_map (fun p => WatermarkManager.merge_page p wp)), Hi.
    + split; [reflexivity|]. split; [reflexivity|].
      simpl. rewrite Hops. reflexivity.
  - simpl. intros Heq. injection Heq as Hhd _.
    apply (f_equal contents) in Hhd. simpl in Hhd.
    apply (f_equal (@length _)) in Hhd. rewrite length_app, Hops in Hhd.
    simpl in Hhd. lia.
Qed.

Lemma C5_watermarked_document_witness :
  exists output,
    fs (snd (WatermarkManager.add_watermark example_env example_wm mixed_pdf
               "DRAFT" mixed_out (1 # 5) 25 30 mixed_world))
      !! str mixed_out = Some (FPdf output)
    /\ length output = 2%nat
    /\ output <> mixed_pages.
Proof.
  destruct (C5_watermarked_document example_env example_wm mixed_pdf "DRAFT"
              mixed_out (1 # 5) 25 30 mixed_world
              (snd (WatermarkManager.add_watermark example_env example_wm
                      mixed_pdf "DRAFT" mixed_out (1 # 5) 25 30 mixed_world))
              mixed_pages)
    as (wp & ops & output & Hout & _ & Hlen & _ & _ & Hne).
  - vm_compute. reflexivity.
  - vm_compute. discriminate.
  - vm_compute. reflexivity.
  - exists output. split; [exact Hout|]. split; [exact Hlen | exact Hne].
Defined.

(** ** C1: which geometry the overlay is built from *)

Lemma Qminus_0_r_eq (a : Q) : (a - 0)%Q = a.
Proof.
  destruct a as [n d]. unfold Qminus, Qplus, Qopp. cbn [Qnum Qden].
  f_equal; lia.
Qed.

(** The overlay that [overlay_page] gives for a size has that size. *)
Lemma overlay_page_size env self W H text o f r wp :
  overlay_page env self W H text o f r = Some wp ->
  width wp = W /\ height wp = H.
Proof.
  unfold overlay_page. destruct (tile_points _ _ _ _); [|discriminate].
  intros [= <-]. unfold width, height. cbn [mediabox llx lly urx ury].
  split; apply Qminus_0_r_eq.
Qed.

(** C1 (as the code has it).  Whenever [add_watermark] succeeds on a source
    document, ONE overlay page is built and that same overlay is merged onto
    every page [i] of the document.  When the media box of the first page
    has its lower-left corner at the origin, that overlay is the one for the
    width and height of the first page, and it has this width and height;
    so it has the width and height of page [i] for every page [i] that is as
    wide and as high as the first page. *)
Theorem C1_overlay_from_first_page env self pdf text out o f r w w'
    (pages : list Page) :
  fs w !! str pdf = Some (FPdf pages) ->
  mkstemp env (add_event (EvAddWatermark (str pdf)) w) <> str out ->
  WatermarkManager.add_watermark env self pdf text out o f r w = (Ok true, w') ->
  exists (page0 : Page) (rest : list Page) (watermark_page : Page)
         (output : list Page),
    pages = page0 :: rest
    /\ fs w' !! str out = Some (FPdf output)
    /\ (forall (i : nat) (page : Page),
          pages !! i = Some page ->
          output !! i = Some (WatermarkManager.merge_page page watermark_page))
    /\ (llx (mediabox page0) = 0%Q ->
        lly (mediabox page0) = 0%Q ->
        overlay_page env self (width page0) (height page0) text o f r
        = Some watermark_page
        /\ width watermark_page = width page0
        /\ height watermark_page = height page0
        /\ forall (i : nat) (page : Page),
             pages !! i = Some page ->
             (width page == width page0)%Q ->
             (height page == height page0)%Q ->
             (width watermark_page == width page)%Q
             /\ (height watermark_page == height page)%Q).
Proof.
  intros Hsrc Hfresh Hrun.
  destruct (add_watermark_true_inv _ _ _ _ _ _ _ _ _ _ Hrun)
    as (Hlibs & Hfont & page0 & rest & Hsrc').
  rewrite Hsrc in Hsrc'. injection Hsrc' as ->.
  rewrite (add_watermark_run _ _ _ _ _ _ _ _ _ _ _ Hlibs Hfont Hsrc) in Hrun.
  cbv zeta in Hrun.
  set (tmp := mkstemp env (add_event (EvAddWatermark (str pdf)) w)) in *.
  destruct (overlay_page env self _ _ text o f r) as [wp|] eqn:Hwp;
    [|discriminate Hrun].
  destruct (may_write env tmp _); [|discriminate Hrun].
  destruct (write_fault env tmp _) as [[e0 remains0]|]; [discriminate Hrun|].
  destruct (may_write env (str out) _); [|discriminate Hrun].
  destruct (write_fault env (str out) _) as [[e1 remains1]|]; [discriminate Hrun|].
  injection Hrun as <-.
  exists page0, rest, wp,
    (map (fun p => WatermarkManager.merge_page p wp) (page0 :: rest)).
  split; [reflexivity|].
  split.
  { cbn [fs set_fs add_log]. rewrite lookup_delete_ne by exact Hfresh.
    rewrite lookup_insert_eq. reflexivity. }
  split.
  - intros i page Hi.
    apply (lookup_map (fun p => WatermarkManager.merge_page p wp)), Hi.
  - intros Hx Hy.
    assert (HW : width page0 = urx (mediabox page0))
      by (unfold width; rewrite Hx; apply Qminus_0_r_eq).
    assert (HH : height page0 = ury (mediabox page0))
      by (unfold height; rewrite Hy; apply Qminus_0_r_eq).
    rewrite HW, HH.
    destruct (overlay_page_size _ _ _ _ _ _ _ _ _ Hwp) as [Hw Hh].
    split; [exact Hwp|]. split; [exact Hw|]. split; [exact Hh|].
    intros i page _ Hwi Hhi. rewrite Hw, Hh. split; symmetry; assumption.
Qed.

Lemma C1_overlay_from_first_page_witness :
  exists watermark_page output,
    overlay_page example_env example_wm (width (blank_page 100 100))
      (height (blank_page 100 100)) "DRAFT" (1 # 5) 25 30
      = Some watermark_page
    /\ width watermark_page = width (blank_page 100 100)
    /\ fs (snd (WatermarkManager.add_watermark example_env example_wm mixed_pdf
                  "DRAFT" mixed_out (1 # 5) 25 30 mixed_world))
         !! str mixed_out = Some (FPdf output)
    /\ output !! 1%nat
       = Some (WatermarkManager.merge_page (blank_page 1000 1000) watermark_page).
Proof.
  destruct (C1_overlay_from_first_page example_env example_wm mixed_pdf "DRAFT"
              mixed_out (1 # 5) 25 30 mixed_world
              (snd (WatermarkManager.add_watermark example_env example_wm
                      mixed_pdf "DRAFT" mixed_out (1 # 5) 25 30 mixed_world))
              mixed_pages)
    as (page0 & rest & wp & output & Hpages & Hout & Hall & Horigin).
  - vm_compute. reflexivity.
  - vm_compute. discriminate.
  - vm_compute. reflexivity.
  - injection Hpages as <- <-.
    destruct (Horigin eq_refl eq_refl) as (Hwp & Hw & _).
    exists wp, output. split; [exact Hwp|]. split; [exact Hw|].
    split; [exact Hout|]. apply (Hall 1%nat). reflexivity.
Defined.

(** C1 as stated fails on a document with pages of different sizes: the
    overlay merged onto the second page (1000 x 1000) of [mixed_pages] is
    not the overlay of that page's width and height; it is the one built for
    the first page (100 x 100). *)
Lemma C1_counterexample :
  exists output merged own_overlay,
    fst (WatermarkManager.add_watermark example_env example_wm mixed_pdf
           "DRAFT" mixed_out (1 # 5) 25 30 mixed_world) = Ok true
    /\ fs (snd (WatermarkManager.add_watermark example_env example_wm mixed_pdf
                  "DRAFT" mixed_out (1 # 5) 25 30 mixed_world))
         !! str mixed_out = Some (FPdf output)
    /\ mixed_pages !! 1%nat = Some (blank_page 1000 1000)
    /\ output !! 1%nat = Some merged
    /\ overlay_page example_env example_wm
         (width (blank_page 1000 1000)) (height (blank_page 1000 1000))
         "DRAFT" (1 # 5) 25 30 = Some own_overlay
    /\ merged <> WatermarkManager.merge_page (blank_page 1000 1000) own_overlay.
Proof.
  eexists _, _, _.
  split; [vm_compute; reflexivity|].
  split; [vm_compute; reflexivity|].
  split; [reflexivity|].
  split; [reflexivity|].
  split; [vm_compute; reflexivity|].
  vm_compute. discriminate.
Qed.

(** Outside the origin the overlay is not sized to the page: lines 299-300
    take the upper-right corner [mediabox[2:]] for the width and the height.
    For the one page with [/MediaBox [10 10 622 802]], which is 612 wide and
    792 high, the overlay that is merged is the one for 622 x 802. *)
Lemma offset_page_overlay :
  exists output merged corner_overlay own_overlay,
    fst (WatermarkManager.add_watermark example_env example_wm offset_pdf
           "DRAFT" offset_out (1 # 5) 25 30 offset_world) = Ok true
    /\ fs (snd (WatermarkManager.add_watermark example_env example_wm offset_pdf
                  "DRAFT" offset_out (1 # 5) 25 30 offset_world))
         !! str offset_out = Some (FPdf output)
    /\ output !! 0%nat = Some merged
    /\ (width offset_page == 612)%Q /\ (height offset_page == 792)%Q
    /\ overlay_page example_env example_wm 622 802 "DRAFT" (1 # 5) 25 30
       = Some corner_overlay
    /\ merged = WatermarkManager.merge_page offset_page corner_overlay
    /\ overlay_page example_env example_wm 612 792 "DRAFT" (1 # 5) 25 30
       = Some own_overlay
    /\ merged <> WatermarkManager.merge_page offset_page own_overlay.
Proof.
  eexists _, _, _, _.
  split; [vm_compute; reflexivity|].
  split; [vm_compute; reflexivity|].
  split; [reflexivity|].
  split; [reflexivity|].
  split; [reflexivity|].
  split; [vm_compute; reflexivity|].
  split; [vm_compute; reflexivity|].
  split; [vm_compute; reflexivity|].
  vm_compute. discriminate.
Qed.

(** ** C10: a stride truncated to zero *)

Lemma range_nonempty (A s : Z) :
  1 <= A -> 0 < s -> exists x xs, Py.range (- A) A s = Some (x :: xs).
Proof.
  intros HA Hs.
  destruct (range_positive_stride (- A) A s Hs) as (xs & Hr & _ & _ & Hreach).
  destruct xs as [|x xs].
  - simpl in Hreach. lia.
  - eauto.
Qed.

(** The loops raise when the horizontal stride is zero, and when the
    vertical stride is zero and the outer loop runs at least once. *)
Lemma zero_stride_raises (W H Tw F : Q) :
  (0 <= Tw)%Q ->
  Py.int (Tw * 1.5) = 0 \/ (Py.int (F * 5) = 0 /\ 1 <= Py.int (W * 2)) ->
  tile_points W H Tw F = None.
Proof.
  intros HTw Hzero. unfold tile_points, x_anchors, y_anchors.
  destruct (Z.eq_dec (Py.int (Tw * 1.5)) 0) as [E|NE].
  - rewrite E. reflexivity.
  - destruct Hzero as [E|[E HA]]; [contradiction|].
    assert (Hs : 0 < Py.int (Tw * 1.5)).
    { assert (0 <= Py.int (Tw * 1.5)); [|lia].
      apply int_nonneg, Qmult_le_0_compat; [exact HTw | discriminate]. }
    destruct (range_nonempty _ _ HA Hs) as (x & xs & ->).
    rewrite E. reflexivity.
Qed.

(** C10 (as the code has it).  For every source PDF with at least one page
    and every text and font size for which the horizontal stride
    [int(text_width * 1.5)] is zero, or the vertical stride
    [int(font_size * 5)] is zero while the outer loop runs
    ([int(page_width * 2) >= 1]): the call returns normally with [False].
    When the PDF libraries and the font are available the loops are reached:
    the [ValueError] of the zero-step [range] is caught and logged, and the
    temporary overlay file is deleted, the file system being the one before
    the call without the temporary name.  Otherwise the call stops before
    any temporary file is created. *)
Theorem C10_zero_stride env self pdf text out o f r w page0 rest :
  fs w !! str pdf = Some (FPdf (page0 :: rest)) ->
  (0 <= stringWidth env text (WatermarkManager.font_name self) f)%Q ->
  Py.int (stringWidth env text (WatermarkManager.font_name self) f * 1.5) = 0
  \/ (Py.int (f * 5) = 0 /\ 1 <= Py.int (urx (mediabox page0) * 2)) ->
  let res := WatermarkManager.add_watermark env self pdf text out o f r w in
  let tmp := mkstemp env (add_event (EvAddWatermark (str pdf)) w) in
  fst res = Ok false
  /\ if (import_pdf_libs env && WatermarkManager.font_registered self)%bool
     then log (snd res) = log w ++ [MsgWatermarkError ValueError]
          /\ fs (snd res) !! tmp = None
          /\ fs (snd res) = delete tmp (fs w)
     else fs (snd res) = fs w.
Proof.
  intros Hsrc HTw Hzero res tmp. subst res.
  destruct (import_pdf_libs env) eqn:Hlibs;
    [destruct (WatermarkManager.font_registered self) eqn:Hfont|]; cbn [andb].
  - rewrite (add_watermark_run _ _ _ _ _ _ _ _ _ _ _ Hlibs Hfont Hsrc).
    cbv zeta. fold tmp.
    unfold overlay_page.
    rewrite (zero_stride_raises _ _ _ _ HTw Hzero).
    cbn [fst snd fs log set_fs add_log add_event].
    split; [reflexivity|]. split; [reflexivity|].
    split; [apply lookup_delete_eq | apply delete_insert_eq].
  - unfold WatermarkManager.add_watermark, record, log_message, modify. munfold.
    rewrite Hlibs, Hfont. split; reflexivity.
  - unfold WatermarkManager.add_watermark, record, log_message, modify. munfold.
    rewrite Hlibs. split; reflexivity.
Qed.

Lemma C10_zero_stride_witness :
  fst (WatermarkManager.add_watermark example_env example_wm mixed_pdf
         "DRAFT" mixed_out (1 # 5) (1 # 10) 30 mixed_world) = Ok false
  /\ fs (snd (WatermarkManager.add_watermark example_env example_wm mixed_pdf
                "DRAFT" mixed_out (1 # 5) (1 # 10) 30 mixed_world))
       !! "/tmp/tmpk3v9.pdf" = None.
Proof.
  destruct (C10_zero_stride example_env example_wm mixed_pdf "DRAFT" mixed_out
              (1 # 5) (1 # 10) 30 mixed_world
              (blank_page 100 100) [blank_page 1000 1000])
    as (Hres & _ & Htmp & _).
  - vm_compute. reflexivity.
  - vm_compute. discriminate.
  - left. vm_compute. reflexivity.
  - split; [exact Hres | exact Htmp].
Defined.

(** C10 as stated fails when only the vertical stride is zero and the outer
    loop does not run: on a page whose media box ends at the origin the
    bound [int(page_width * 2)] is 0, [range(0, 0, 2)] is empty, the inner
    [range] with step 0 is never evaluated, nothing is raised and the call
    returns [True]. *)
Lemma C10_counterexample :
  fs corner_world !! str corner_pdf = Some (FPdf [corner_page])
  /\ (0 < 1 # 10)%Q
  /\ Py.int ((1 # 10) * 5) = 0
  /\ Py.int (stringWidth example_env "CONFIDENTIAL - DO NOT DISTRIBUTE"
               (WatermarkManager.font_name example_wm) (1 # 10) * 1.5) = 2
  /\ fst (WatermarkManager.add_watermark example_env example_wm corner_pdf
            "CONFIDENTIAL - DO NOT DISTRIBUTE" corner_out (1 # 5) (1 # 10) 30
            corner_world) = Ok true.
Proof.
  split; [vm_compute; reflexivity|].
  split; [reflexivity|].
  split; [reflexivity|].
  split; [vm_compute; reflexivity|].
  vm_compute. reflexivity.
Qed.

(** ** C3: when a backend reports success *)

Lemma find_libreoffice_path_pure self w :
  exists soffice, DependencyManager.find_libreoffice_path self w = (Ok soffice, w).
Proof.
  unfold DependencyManager.find_libreoffice_path, path_exists. munfold.
  destruct (String.eqb _ "Darwin").
  - destruct (bool_decide _); eauto.
  - destruct (String.eqb _ "Windows"); [|eauto].
    cbn [DependencyManager.windows_paths].
    repeat (destruct (bool_decide _); [eauto|]). eauto.
Qed.

(** The headless backend reports success exactly when the subprocess
    completed with exit status 0 and the expected output file exists in the
    file system it left behind; it never raises. *)
Lemma libreoffice_reports env self input output_dir w :
  let w0 := add_event (EvConvertWithLibreOffice (str input)) w in
  exists soffice,
    DependencyManager.find_libreoffice_path
      (OfficeToPDFConverter.dependency_manager self) w0 = (Ok soffice, w0)
    /\ let cmd := OfficeToPDFConverter.command_line self soffice input output_dir in
       let w1 := add_event (EvSubprocess cmd)
                   (add_log (MsgLibreOfficeConverting (name input)) w0) in
       fst (OfficeToPDFConverter.convert_with_libreoffice env self input output_dir w)
       = Ok match subprocess_run env cmd w1 with
            | Ok (result, fs') =>
                (returncode result =? 0)
                && bool_decide
                     (is_Some (fs' !! str (joinpath output_dir (stem input) ".pdf")))
            | Raise _ => false
            end.
Proof.
  intros w0.
  destruct (find_libreoffice_path_pure
              (OfficeToPDFConverter.dependency_manager self) w0) as [soffice Hfind].
  exists soffice. split; [exact Hfind|].
  intros cmd w1.
  unfold OfficeToPDFConverter.convert_with_libreoffice.
  unfold record, modify, try_except, log_message, modify, OfficeToPDFConverter.run,
    path_exists.
  munfold. fold w0. rewrite Hfind. fold cmd. cbn [add_log]. fold w1.
  destruct (subprocess_run env cmd w1) as [[result fs']|e]; cbn [fst snd fs set_fs].
  - destruct ((returncode result =? 0) && _)%bool; reflexivity.
  - reflexivity.
Qed.

(** C3 (the native backend).  With an export call that returns normally
    without writing anything, [convert_with_comtypes] reports success
    although the expected output file does not exist afterwards. *)
Theorem C3_comtypes_success_without_output :
  fst (OfficeToPDFConverter.convert_with_comtypes silent_export_env
         example_converter report_docx report_pdf report_world) = Ok true
  /\ fs (snd (OfficeToPDFConverter.convert_with_comtypes silent_export_env
                example_converter report_docx report_pdf report_world))
       !! str report_pdf = None
  /\ log (snd (OfficeToPDFConverter.convert_with_comtypes silent_export_env
                 example_converter report_docx report_pdf report_world))
     = [MsgWordConverting "report.docx"; MsgConverted "report.pdf"].
Proof.
  split; [vm_compute; reflexivity|].
  split; vm_compute; reflexivity.
Qed.

(** ** C7: release of the application on every exit path *)

(** C7 (the failing path).  When closing the document raises inside the
    [finally] block, [Quit] is never called on the application that was
    created, and the exception leaves [convert_with_comtypes]. *)
Theorem C7_close_raises_skips_quit :
  fst (OfficeToPDFConverter.convert_with_comtypes close_raises_env
         example_converter report_docx report_pdf report_world) = Raise COMError
  /\ trace (snd (OfficeToPDFConverter.convert_with_comtypes close_raises_env
                   example_converter report_docx report_pdf report_world))
     = [EvConvertWithComtypes "in/report.docx";
        EvCreateObject "Word.Application";
        EvOpen "in/report.docx";
        EvSaveAs "out/report.pdf" 17;
        EvClose "in/report.docx"]
  /\ existsb is_quit
       (trace (snd (OfficeToPDFConverter.convert_with_comtypes close_raises_env
                      example_converter report_docx report_pdf report_world)))
     = false.
Proof.
  split; [vm_compute; reflexivity|].
  split; vm_compute; reflexivity.
Qed.

(** The calls into the automation layer that one run of the shared
    [try] statement makes, in order: the four possible sequences. *)
Lemma automate_releases_trace env progid format converting failed input output w :
  exists evs,
    trace (snd (OfficeToPDFConverter.automate env progid format converting failed
                  input output w)) = trace w ++ evs
    /\ (evs = [EvCreateObject progid]
        \/ evs = [EvCreateObject progid; EvOpen (str input); EvQuit progid]
        \/ evs = [EvCreateObject progid; EvOpen (str input);
                  EvSaveAs (str output) format; EvClose (str input)]
        \/ evs = [EvCreateObject progid; EvOpen (str input);
                  EvSaveAs (str output) format;
                  EvClose (str input); EvQuit progid]).
Proof.
  unfold OfficeToPDFConverter.automate, with_locals, try_finally, try_except,
    liftW, get_locals, set_locals, log_message, modify,
    OfficeToPDFConverter.CreateObject, OfficeToPDFConverter.Open,
    OfficeToPDFConverter.SaveAs, OfficeToPDFConverter.Close,
    OfficeToPDFConverter.Quit, OfficeToPDFConverter.com_call.
  munfold. cbn [fst snd].
  destruct (com_CreateObject env progid _); cbn [fst snd].
  2:{ cbn. eexists. split; [reflexivity|]. left. reflexivity. }
  destruct (com_Open env (str input) _); cbn [fst snd].
  2:{ cbn. destruct (com_Quit env progid _); cbn;
      (eexists; split; [rewrite <- !app_assoc; reflexivity|]);
      right; left; reflexivity. }
  destruct (com_SaveAs env (str output) format _) as [[file|]|e]; cbn;
    (destruct (com_Close env (str input) _); cbn;
     [ destruct (com_Quit env progid _); cbn;
       (eexists; split; [rewrite <- !app_assoc; reflexivity|]);
       right; right; right; reflexivity
     | (eexists; split; [rewrite <- !app_assoc; reflexivity|]);
       right; right; left; reflexivity ]).
Qed.

(** On the paths where [Close] does not raise, the application that was
    created is told to quit and the document that was opened is closed,
    whatever [CreateObject], [Open] and [SaveAs] do. *)
Lemma automate_releases env progid format converting failed input output w :
  (forall file w0, com_Close env file w0 = true) ->
  let res := OfficeToPDFConverter.automate env progid format converting failed
               input output w in
  exists evs,
    trace (snd res) = trace w ++ evs
    /\ (evs = [EvCreateObject progid]
        \/ evs = [EvCreateObject progid; EvOpen (str input); EvQuit progid]
        \/ evs = [EvCreateObject progid; EvOpen (str input);
                  EvSaveAs (str output) format;
                  EvClose (str input); EvQuit progid]).
Proof.
  intros Hclose res. subst res.
  unfold OfficeToPDFConverter.automate, with_locals, try_finally, try_except,
    liftW, get_locals, set_locals, log_message, modify,
    OfficeToPDFConverter.CreateObject, OfficeToPDFConverter.Open,
    OfficeToPDFConverter.SaveAs, OfficeToPDFConverter.Close,
    OfficeToPDFConverter.Quit, OfficeToPDFConverter.com_call.
  munfold. cbn [fst snd].
  destruct (com_CreateObject env progid _); cbn [fst snd].
  2:{ cbn. eexists. split; [reflexivity|]. left. reflexivity. }
  destruct (com_Open env (str input) _); cbn [fst snd].
  2:{ cbn. destruct (com_Quit env progid _); cbn;
      (eexists; split; [rewrite <- !app_assoc; reflexivity|]);
      right; left; reflexivity. }
  destruct (com_SaveAs env (str output) format _) as [[file|]|e];
    cbn; rewrite !Hclose; cbn;
    destruct (com_Quit env progid _); cbn;
    (eexists; split; [rewrite <- !app_assoc; reflexivity|]);
    right; right; reflexivity.
Qed.

(** ** C2: which backends a conversion job invokes *)

Lemma backend_calls_app tr1 tr2 :
  backend_calls (tr1 ++ tr2) = backend_calls tr1 ++ backend_calls tr2.
Proof. apply List.filter_app. Qed.

(** One call of [convert_with_comtypes] is one invocation of the native
    backend, whatever the automation layer does. *)
Lemma comtypes_backend_calls env self input output w :
  backend_calls
    (trace (snd (OfficeToPDFConverter.convert_with_comtypes env self input output w)))
  = backend_calls (trace w) ++ [EvConvertWithComtypes (str input)].
Proof.
  unfold OfficeToPDFConverter.convert_with_comtypes, record, log_message, modify.
  munfold. cbn [fst snd].
  destruct (negb (String.eqb _ "Windows")).
  { cbn. rewrite backend_calls_app. reflexivity. }
  destruct (negb (import_comtypes env)).
  { cbn. rewrite backend_calls_app. reflexivity. }
  destruct (Py.contains _ _).
  - match goal with
    | |- context [OfficeToPDFConverter.automate ?e ?p ?f ?c ?m ?i ?o ?w0] =>
        destruct (automate_releases_trace e p f c m i o w0) as (evs & -> & Hevs)
    end.
    rewrite backend_calls_app. cbn [trace add_event].
    rewrite backend_calls_app.
    destruct Hevs as [->|[->|[->| ->]]]; cbn; rewrite app_nil_r; reflexivity.
  - match goal with
    | |- context [OfficeToPDFConverter.automate ?e ?p ?f ?c ?m ?i ?o ?w0] =>
        destruct (automate_releases_trace e p f c m i o w0) as (evs & -> & Hevs)
    end.
    rewrite backend_calls_app. cbn [trace add_event].
    rewrite backend_calls_app.
    destruct Hevs as [->|[->|[->| ->]]]; cbn; rewrite app_nil_r; reflexivity.
Qed.

(** One call of [convert_with_libreoffice] is one invocation of the
    headless backend, whatever the subprocess does. *)
Lemma libreoffice_backend_calls env self input output_dir w :
  backend_calls
    (trace (snd (OfficeToPDFConverter.convert_with_libreoffice env self input
                   output_dir w)))
  = backend_calls (trace w) ++ [EvConvertWithLibreOffice (str input)].
Proof.
  unfold OfficeToPDFConverter.convert_with_libreoffice.
  unfold record, modify, try_except, log_message, modify, OfficeToPDFConverter.run,
    path_exists.
  munfold.
  destruct (find_libreoffice_path_pure
              (OfficeToPDFConverter.dependency_manager self)
              (add_event (EvConvertWithLibreOffice (str input)) w))
    as [soffice ->].
  cbn [add_log fst snd].
  destruct (subprocess_run env _ _) as [[result fs']|e]; cbn [fst snd fs set_fs].
  - destruct ((returncode result =? 0) && _)%bool; cbn;
      rewrite !backend_calls_app; cbn; rewrite app_nil_r; reflexivity.
  - cbn. rewrite !backend_calls_app; cbn; rewrite app_nil_r; reflexivity.
Qed.

(** Evaluates the comparisons of string literals in the goal. *)
Ltac eval_eqb :=
  repeat match goal with
         | |- context [String.eqb ?a ?b] =>
             let v := eval vm_compute in (String.eqb a b) in
             change (String.eqb a b) with v
         end.

(** Which backends one conversion job invokes, for every job.  Under
    [auto] on Windows the native backend is invoked first; when it returns
    [False] the headless backend is invoked once, its verdict is the job's
    verdict, and nothing else is invoked; when it returns [True] or lets an
    exception out, it is the only backend invoked.  Under [comtypes] only
    the native backend is invoked, under [libreoffice] only the headless
    backend, each exactly once and whatever the outcome.  Under [auto]
    elsewhere than on Windows the headless backend is the only one invoked,
    once. *)
Lemma backend_selection env self input output_dir output_pdf w :
  let res := OfficeToPDFGUI.convert env self input output_dir output_pdf w in
  let native := OfficeToPDFConverter.convert_with_comtypes env
                  (OfficeToPDFGUI.converter self) input output_pdf w in
  (OfficeToPDFGUI.conversion_method self = "auto" ->
   platform_system env = "Windows" ->
   (fst native = Ok false ->
      res = OfficeToPDFConverter.convert_with_libreoffice env
              (OfficeToPDFGUI.converter self) input output_dir
              (add_log MsgTryingLibreOffice (snd native))
      /\ backend_calls (trace (snd res))
         = backend_calls (trace w)
           ++ [EvConvertWithComtypes (str input);
               EvConvertWithLibreOffice (str input)])
   /\ (fst native <> Ok false ->
         res = native
         /\ backend_calls (trace (snd res))
            = backend_calls (trace w) ++ [EvConvertWithComtypes (str input)]))
  /\ (OfficeToPDFGUI.conversion_method self = "comtypes" ->
      res = native
      /\ backend_calls (trace (snd res))
         = backend_calls (trace w) ++ [EvConvertWithComtypes (str input)])
  /\ (OfficeToPDFGUI.conversion_method self = "libreoffice" ->
      res = OfficeToPDFConverter.convert_with_libreoffice env
              (OfficeToPDFGUI.converter self) input output_dir w
      /\ backend_calls (trace (snd res))
         = backend_calls (trace w) ++ [EvConvertWithLibreOffice (str input)])
  /\ (OfficeToPDFGUI.conversion_method self = "auto" ->
      platform_system env <> "Windows" ->
      res = OfficeToPDFConverter.convert_with_libreoffice env
              (OfficeToPDFGUI.converter self) input output_dir w
      /\ backend_calls (trace (snd res))
         = backend_calls (trace w) ++ [EvConvertWithLibreOffice (str input)]).
Proof.
  intros res native. subst res.
  pose proof (comtypes_backend_calls env (OfficeToPDFGUI.converter self)
                input output_pdf w) as Hnative.
  fold native in Hnative.
  unfold OfficeToPDFGUI.convert, log_message, modify. munfold.
  split; [|split; [|split]].
  - intros -> ->. eval_eqb. cbn [orb andb]. fold native.
    destruct native as [[[|]|e] w1] eqn:Hn; cbn [fst snd negb andb] in *.
    + split; [intros [=]|]. intros _. split; [reflexivity | exact Hnative].
    + split; [|intros Hc; contradiction Hc; reflexivity].
      intros _. split; [reflexivity|].
      rewrite libreoffice_backend_calls. cbn [trace add_log].
      rewrite Hnative, <- app_assoc. reflexivity.
    + split; [intros [=]|]. intros _. split; [reflexivity | exact Hnative].
  - intros ->. eval_eqb. cbn [orb andb]. fold native.
    destruct native as [[[|]|e] w1] eqn:Hn; cbn [fst snd negb andb] in *;
      (split; [reflexivity | exact Hnative]).
  - intros ->. eval_eqb. cbn [orb andb].
    split; [reflexivity|]. apply libreoffice_backend_calls.
  - intros -> Hsys.
    destruct (String.eqb_spec (platform_system env) "Windows") as [E|_];
      [contradiction|].
    eval_eqb. cbn [orb andb].
    split; [reflexivity|]. apply libreoffice_backend_calls.
Qed.

Lemma backend_selection_example :
  backend_calls
    (trace (snd (OfficeToPDFGUI.convert batch_env example_gui broken_docx "out"
                   (joinpath "out" "broken" ".pdf") batch_world)))
  = [EvConvertWithComtypes "in/broken.docx";
     EvConvertWithLibreOffice "in/broken.docx"].
Proof.
  destruct (backend_selection batch_env example_gui broken_docx "out"
              (joinpath "out" "broken" ".pdf") batch_world) as [Hauto _].
  destruct (Hauto eq_refl eq_refl) as [Hfail _].
  destruct Hfail as [_ Hcalls].
  - vm_compute. reflexivity.
  - exact Hcalls.
Defined.

(** C2 (the failing path).  Under [auto] on Windows, with a document that
    the word processor opens but can neither export nor close: the native
    attempt fails (the export raises, the handler logs the failure and
    returns [False]), then [Close] raises inside the [finally] block, the
    exception leaves [convert_with_comtypes] and the test of line 852 is
    never reached.  The headless backend is not attempted: the native
    backend is the only one invoked and the job ends with the exception. *)
Theorem C2_fallback_skipped_when_release_raises :
  let res := OfficeToPDFGUI.convert corrupt_env example_gui broken_docx "out"
               (joinpath "out" "broken" ".pdf") batch_world in
  OfficeToPDFGUI.conversion_method example_gui = "auto"
  /\ platform_system corrupt_env = "Windows"
  /\ fst res = Raise COMError
  /\ log (snd res) = [MsgWordConverting "broken.docx"; MsgWordError COMError]
  /\ trace (snd res)
     = [EvConvertWithComtypes "in/broken.docx";
        EvCreateObject "Word.Application";
        EvOpen "in/broken.docx";
        EvSaveAs "out/broken.pdf" 17;
        EvClose "in/broken.docx"]
  /\ backend_calls (trace (snd res)) = [EvConvertWithComtypes "in/broken.docx"].
Proof.
  cbv zeta.
  split; [reflexivity|]. split; [reflexivity|].
  split; [vm_compute; reflexivity|].
  split; [vm_compute; reflexivity|].
  split; vm_compute; reflexivity.
Qed.

(** ** C6: one file's failure and the rest of the batch *)

Lemma for_each_app {S A} (l1 l2 : list A) (body : A -> M S unit) (s : S) :
  for_each (l1 ++ l2) body s =
  match for_each l1 body s with
  | (Ok _, s1) => for_each l2 body s1
  | (Raise e, s1) => (Raise e, s1)
  end.
Proof.
  revert s; induction l1 as [|x l1 IH]; intros s; simpl; [reflexivity|].
  munfold. destruct (body x s) as [[[]|e] s1]; [apply IH | reflexivity].
Qed.

(** Failures that are reported as [False].  For every list of jobs: when
    the conversion of one office document reports failure, or when the watermarking of one
    PDF reports failure, the loop logs it, leaves the success count as it
    was and goes on with the jobs that follow, which are processed exactly
    as they would be from the state the failed job left.  In particular, in
    the batch [first.docx; broken.docx; third.docx] where only the second
    file cannot be converted (the word processor cannot open it and the
    headless engine fails on it too), the first and the third file are
    converted and watermarked, and the batch ends with success count 2 of 3.
    An exception that leaves the processing of one file is not isolated: the
    loop stops there and the handler of the whole run logs it. *)
Lemma reported_failures_are_isolated :
  (forall env self output_dir total before i input after s s1 w2,
     for_each before (OfficeToPDFGUI.process_file env self output_dir total) s
       = (Ok tt, s1) ->
     Py.contains (Py.lower (suffix input)) [".pptx"; ".ppt"; ".docx"; ".doc"] = true ->
     OfficeToPDFGUI.convert env self input output_dir
       (joinpath output_dir (stem input) ".pdf")
       (add_log (MsgProcessing i total (name input)) (fst s1)) = (Ok false, w2) ->
     for_each (before ++ (i, input) :: after)
       (OfficeToPDFGUI.process_file env self output_dir total) s
     = for_each after (OfficeToPDFGUI.process_file env self output_dir total)
         (add_log (MsgConversionFailed (name input)) w2, snd s1))
  /\ (forall env self output_dir total before i input after s s1 w2,
        for_each before (OfficeToPDFGUI.process_file env self output_dir total) s
          = (Ok tt, s1) ->
        Py.lower (suffix input) = ".pdf" ->
        OfficeToPDFGUI.add_watermark self = true ->
        is_Some (fs (fst s1) !! str input) ->
        WatermarkManager.add_watermark env (OfficeToPDFGUI.watermark_manager self)
          input (OfficeToPDFGUI.watermark_text self)
          (joinpath output_dir (stem input +:+ "_watermarked") ".pdf")
          (OfficeToPDFGUI.watermark_opacity self)
          (inject_Z (OfficeToPDFGUI.watermark_size self))
          (inject_Z (OfficeToPDFGUI.watermark_rotation self))
          (add_log MsgPdfSkipConversion
             (add_log (MsgProcessing i total (name input)) (fst s1)))
          = (Ok false, w2) ->
        for_each (before ++ (i, input) :: after)
          (OfficeToPDFGUI.process_file env self output_dir total) s
        = for_each after (OfficeToPDFGUI.process_file env self output_dir total)
            (add_log (MsgWatermarkFailed (name input)) w2, snd s1))
  /\ (forall env self output_dir total before job after s s1 s2 e,
        for_each before (OfficeToPDFGUI.process_file env self output_dir total) s
          = (Ok tt, s1) ->
        OfficeToPDFGUI.process_file env self output_dir total job s1 = (Raise e, s2) ->
        for_each (before ++ job :: after)
          (OfficeToPDFGUI.process_file env self output_dir total) s
        = (Raise e, s2))
  /\ (let res := OfficeToPDFGUI._perform_processing batch_env example_gui batch_world in
      fst res = Ok tt
      /\ last_message (log (snd res)) = Some (MsgAllDone 2 3)
      /\ In (MsgConversionFailed "broken.docx") (log (snd res))
      /\ fs (snd res) !! "out/broken.pdf" = None
      /\ is_Some (fs (snd res) !! "out/first_watermarked.pdf")
      /\ is_Some (fs (snd res) !! "out/third_watermarked.pdf")
      /\ backend_calls (trace (snd res))
         = [EvConvertWithComtypes "in/first.docx";
            EvConvertWithComtypes "in/broken.docx";
            EvConvertWithLibreOffice "in/broken.docx";
            EvConvertWithComtypes "in/third.docx"]).
Proof.
  split; [|split; [|split]].
  - intros env self output_dir total before i input after s s1 w2 Hbefore Hext Hconv.
    rewrite for_each_app, Hbefore. cbn [for_each]. munfold.
    unfold OfficeToPDFGUI.process_file at 1.
    unfold liftW, log_message, modify. munfold. cbn [fst snd].
    rewrite Hext. cbn [fst snd]. rewrite Hconv. reflexivity.
  - intros env self output_dir total before i input after s s1 w2
      Hbefore Hext Hwm Hex Hmark.
    rewrite for_each_app, Hbefore. cbn [for_each]. munfold.
    unfold OfficeToPDFGUI.process_file at 1.
    unfold liftW, log_message, modify. munfold. cbn [fst snd].
    rewrite Hext. unfold Py.contains. cbn [existsb]. eval_eqb. cbn [orb].
    unfold OfficeToPDFGUI.finish_file, liftW, path_exists, log_message, modify.
    munfold. cbn [fst snd fs add_log].
    rewrite (bool_decide_eq_true_2 _ Hex), Hwm. cbn [fst snd]. rewrite Hmark. reflexivity.
  - intros env self output_dir total before job after s s1 s2 e Hbefore Hjob.
    rewrite for_each_app, Hbefore. cbn [for_each]. munfold.
    rewrite Hjob. reflexivity.
  - cbv zeta.
    split; [vm_compute; reflexivity|].
    split; [vm_compute; reflexivity|].
    split; [vm_compute; tauto|].
    split; [vm_compute; reflexivity|].
    split; [vm_compute; eauto|].
    split; [vm_compute; eauto|].
    vm_compute; reflexivity.
Qed.

Lemma reported_failures_are_isolated_example :
  let body := OfficeToPDFGUI.process_file batch_env example_gui "out" 3 in
  let s := (batch_world, {| OfficeToPDFGUI.success_count := 0 |}) in
  let s1 := snd (for_each [(1%nat, first_docx)] body s) in
  let w2 := snd (OfficeToPDFGUI.convert batch_env example_gui broken_docx "out"
                   (joinpath "out" "broken" ".pdf")
                   (add_log (MsgProcessing 2 3 "broken.docx") (fst s1))) in
  for_each ([(1%nat, first_docx)] ++ (2%nat, broken_docx) :: [(3%nat, third_docx)])
    body s
  = for_each [(3%nat, third_docx)] body
      (add_log (MsgConversionFailed "broken.docx") w2, snd s1).
Proof.
  intros body s s1 w2.
  apply (proj1 reported_failures_are_isolated batch_env example_gui "out" 3%nat
           [(1%nat, first_docx)] 2%nat broken_docx [(3%nat, third_docx)] s s1 w2).
  - vm_compute. reflexivity.
  - vm_compute. reflexivity.
  - vm_compute. reflexivity.
Defined.

(** The call of [shutil.copy2] is not guarded either: with the watermark
    switched off, an error while copying the first of two PDF files ends the
    run; the second file, which is processed without error when it is alone
    in the list, is never looked at. *)
Lemma copy_failure_ends_run :
  log (snd (OfficeToPDFGUI._perform_processing copy_fails_env
              (copy_gui [locked_pdf; plain_pdf]) copy_world))
  = [MsgProcessing 1 2 "locked.pdf"; MsgPdfSkipConversion; MsgFatal OSError]
  /\ fs (snd (OfficeToPDFGUI._perform_processing copy_fails_env
                (copy_gui [locked_pdf; plain_pdf]) copy_world))
       !! "out/plain.pdf" = None
  /\ log (snd (OfficeToPDFGUI._perform_processing copy_fails_env
                 (copy_gui [plain_pdf]) copy_world))
     = [MsgProcessing 1 1 "plain.pdf"; MsgPdfSkipConversion;
        MsgDoneWithoutWatermark; MsgAllDone 1 1]
  /\ is_Some (fs (snd (OfficeToPDFGUI._perform_processing copy_fails_env
                         (copy_gui [plain_pdf]) copy_world))
               !! "out/plain.pdf").
Proof.
  split; [vm_compute; reflexivity|].
  split; [vm_compute; reflexivity|].
  split; [vm_compute; reflexivity|].
  vm_compute. eauto.
Qed.

(** C6 (the failing path).  The batch [first.docx; broken.docx;
    third.docx] where only the second file is corrupt: the word processor
    opens it but can neither export nor close it.  The conversion of the
    second file fails, [Close] raises inside the [finally] block of
    [convert_with_comtypes], and the exception reaches the one handler of
    the run (lines 891-892).  The run ends there: the third file is never
    processed and no summary is logged, although the first file was
    converted and watermarked and the first and the third file alone give
    2 of 2. *)
Theorem C6_failed_conversion_ends_batch :
  let res := OfficeToPDFGUI._perform_processing corrupt_env example_gui batch_world in
  let others :=
    OfficeToPDFGUI._perform_processing corrupt_env
      (gui_with_files [first_docx; third_docx]) batch_world in
  OfficeToPDFGUI.input_files example_gui = [first_docx; broken_docx; third_docx]
  /\ fst res = Ok tt
  /\ log (snd res)
     = [MsgProcessing 1 3 "first.docx"; MsgWordConverting "first.docx";
        MsgConverted "first.pdf"; MsgWatermarkAdded "first_watermarked.pdf";
        MsgProcessing 2 3 "broken.docx"; MsgWordConverting "broken.docx";
        MsgWordError COMError; MsgFatal COMError]
  /\ backend_calls (trace (snd res))
     = [EvConvertWithComtypes "in/first.docx";
        EvConvertWithComtypes "in/broken.docx"]
  /\ is_Some (fs (snd res) !! "out/first_watermarked.pdf")
  /\ fs (snd res) !! "out/third.pdf" = None
  /\ fs (snd res) !! "out/third_watermarked.pdf" = None
  /\ last_message (log (snd others)) = Some (MsgAllDone 2 2)
  /\ is_Some (fs (snd others) !! "out/third_watermarked.pdf").
Proof.
  cbv zeta.
  split; [reflexivity|].
  split; [vm_compute; reflexivity|].
  split; [vm_compute; reflexivity|].
  split; [vm_compute; reflexivity|].
  split; [vm_compute; eauto|].
  split; [vm_compute; reflexivity|].
  split; [vm_compute; reflexivity|].
  split; [vm_compute; reflexivity|].
  vm_compute. eauto.
Qed.

(** ** C9: the persisted settings *)

Lemma contains_elem_of (x : string) (l : list string) :
  Py.contains x l = true <-> x ∈ l.
Proof.
  unfold Py.contains. rewrite existsb_exists, list_elem_of_In. split.
  - intros (y & Hy & Heq). apply String.eqb_eq in Heq. subst. exact Hy.
  - intros H. exists x. split; [exact H | apply String.eqb_refl].
Qed.

Lemma remove_absent (x : string) (l : list string) :
  x ∉ l -> Py.remove x l = l.
Proof.
  induction l as [|y l IH]; [reflexivity|].
  rewrite not_elem_of_cons. intros [Hne Hnin]. cbn [Py.remove].
  destruct (String.eqb_spec x y); [contradiction|].
  rewrite IH by exact Hnin. reflexivity.
Qed.

Lemma remove_sublist (x : string) (l : list string) : sublist (Py.remove x l) l.
Proof.
  induction l as [|y l IH]; cbn [Py.remove]; [constructor|].
  destruct (String.eqb x y).
  - apply sublist_cons. reflexivity.
  - apply sublist_skip, IH.
Qed.

Lemma remove_not_elem_of (x : string) (l : list string) :
  NoDup l -> x ∉ Py.remove x l.
Proof.
  induction l as [|y l IH]; cbn [Py.remove]; [intros _; apply not_elem_of_nil|].
  rewrite NoDup_cons. intros [Hy Hl].
  destruct (String.eqb_spec x y) as [->|Hne]; [exact Hy|].
  rewrite not_elem_of_cons. split; [exact Hne | apply IH, Hl].
Qed.

Lemma remove_filter (x : string) (l : list string) :
  NoDup l -> Py.remove x l = List.filter (fun y => negb (String.eqb x y)) l.
Proof.
  induction l as [|y l IH]; [reflexivity|].
  rewrite NoDup_cons. intros [Hy Hl]. cbn [Py.remove List.filter].
  destruct (String.eqb_spec x y) as [->|Hne]; cbn [negb].
  - rewrite <- IH by exact Hl. symmetry. apply remove_absent, Hy.
  - rewrite IH by exact Hl. reflexivity.
Qed.

Lemma take_remove_take (x : string) (n : nat) (l : list string) :
  take n (Py.remove x (take (S n) l)) = take n (Py.remove x l).
Proof.
  revert n; induction l as [|y l IH]; intros n; [destruct n; reflexivity|].
  cbn [take Py.remove]. destruct (String.eqb x y).
  - rewrite take_take. f_equal. lia.
  - destruct n as [|n]; [reflexivity|]. cbn [take]. rewrite IH. reflexivity.
Qed.

Lemma update_history_eq (t : string) (h : list string) :
  OfficeToPDFGUI.update_history t h = t :: take 4 (Py.remove t h).
Proof.
  unfold OfficeToPDFGUI.update_history.
  destruct (Py.contains t h) eqn:E; [reflexivity|].
  rewrite remove_absent; [reflexivity|].
  intros Hin. apply contains_elem_of in Hin. congruence.
Qed.

Lemma update_history_length (t : string) (h : list string) :
  (length (OfficeToPDFGUI.update_history t h) <= 5)%nat.
Proof. rewrite update_history_eq. cbn [length]. rewrite length_take. lia. Qed.

Lemma update_history_NoDup (t : string) (h : list string) :
  NoDup h -> NoDup (OfficeToPDFGUI.update_history t h).
Proof.
  intros Hh. rewrite update_history_eq. apply NoDup_cons. split.
  - intros Hin. apply (remove_not_elem_of t h Hh).
    eapply elem_of_sublist; [exact Hin | apply sublist_take].
  - eapply sublist_NoDup; [exact Hh|].
    etransitivity; [apply sublist_take | apply remove_sublist].
Qed.

Lemma most_recent_first_NoDup (l : list string) : NoDup (most_recent_first l).
Proof.
  induction l as [|x l IH]; cbn [most_recent_first]; [constructor|].
  apply NoDup_cons. split.
  - rewrite list_elem_of_In, filter_In. intros [_ H].
    rewrite String.eqb_refl in H. discriminate H.
  - eapply sublist_NoDup; [exact IH|].
    clear. induction (most_recent_first l) as [|y m IHm]; cbn [List.filter]; [constructor|].
    destruct (negb _); [apply sublist_skip | apply sublist_cons]; exact IHm.
Qed.

Lemma update_history_recent (t : string) (l : list string) :
  OfficeToPDFGUI.update_history t (take 5 (most_recent_first l))
  = take 5 (most_recent_first (t :: l)).
Proof.
  rewrite update_history_eq. cbn [most_recent_first take].
  rewrite take_remove_take.
  rewrite remove_filter by apply most_recent_first_NoDup. reflexivity.
Qed.

Lemma history_after_recent (ts l : list string) :
  history_after ts (take 5 (most_recent_first l))
  = take 5 (most_recent_first (rev ts ++ l)).
Proof.
  revert l; induction ts as [|t ts IH]; intros l; [reflexivity|].
  unfold history_after in *. cbn [fold_left].
  rewrite update_history_recent, IH. cbn [rev]. rewrite <- app_assoc. reflexivity.
Qed.

(** C9.  Saving the current watermark settings and loading them again
    gives back the very dictionary that was saved, provided the text is not
    blank and the settings file can be written: its text is the stripped
    current text, its opacity, size and rotation are the current ones, and
    its history list starts with the saved text.  For every save the
    persisted history has at most 5 entries, is the saved text followed by
    the earlier entries in their earlier order, and has no duplicates when
    the history before the save had none.  Starting from an empty history,
    after any sequence of saves the history is duplicate-free, has at most 5
    entries and lists the distinct saved texts from the most recent one
    backwards. *)
Theorem C9_settings_round_trip :
  (forall env gui w,
     let text := Py.strip (OfficeToPDFGUI.watermark_text gui) in
     text <> "" ->
     may_write env
       (SettingsManager.config_file (OfficeToPDFGUI.settings_manager gui)) w = true ->
     let res := OfficeToPDFGUI._save_current_settings env (w, gui) in
     let w' := fst (snd res) in
     let gui' := snd (snd res) in
     let saved := OfficeToPDFGUI.settings_dict text gui' in
     fst res = Ok tt
     /\ OfficeToPDFGUI.watermark_history gui'
        = OfficeToPDFGUI.update_history text (OfficeToPDFGUI.watermark_history gui)
     /\ fs w' !! SettingsManager.config_file (OfficeToPDFGUI.settings_manager gui)
        = Some (FJson saved)
     /\ SettingsManager.load_settings (OfficeToPDFGUI.settings_manager gui') w'
        = (Ok (JObject saved), w')
     /\ saved !! "last_watermark_text" = Some (VStr text)
     /\ saved !! "opacity" = Some (VFloat (OfficeToPDFGUI.watermark_opacity gui))
     /\ saved !! "size" = Some (VInt (OfficeToPDFGUI.watermark_size gui))
     /\ saved !! "rotation" = Some (VInt (OfficeToPDFGUI.watermark_rotation gui))
     /\ exists older,
          saved !! "watermark_history" = Some (VList (text :: older))
          /\ (length (text :: older) <= 5)%nat
          /\ older = take 4 (Py.remove text (OfficeToPDFGUI.watermark_history gui))
          /\ (NoDup (OfficeToPDFGUI.watermark_history gui) -> NoDup (text :: older)))
  /\ (forall ts : list string,
        NoDup (history_after ts [])
        /\ (length (history_after ts []) <= 5)%nat
        /\ history_after ts [] = take 5 (most_recent_first (rev ts))).
Proof.
  split.
  - intros env gui w text Hne Hwrite res w' gui' saved.
    subst res w' gui' saved.
    unfold OfficeToPDFGUI._save_current_settings, get_locals, set_locals, liftW,
      SettingsManager.save_settings, try_except_if, open_write.
    munfold. cbn [fst snd]. fold text.
    destruct (String.eqb_spec text "") as [E|_]; [contradiction|].
    cbn [fst snd OfficeToPDFGUI.settings_manager OfficeToPDFGUI.set_watermark_history
         OfficeToPDFGUI.watermark_history].
    rewrite Hwrite. cbn [fst snd fs set_fs].
    split; [reflexivity|]. split; [reflexivity|].
    split; [apply lookup_insert_eq|].
    split.
    { unfold SettingsManager.load_settings, path_exists, try_except_if, open_read,
        SettingsManager.json_load.
      munfold.
      cbn [fs set_fs fst snd OfficeToPDFGUI.settings_manager
           OfficeToPDFGUI.set_watermark_history].
      rewrite exists_after_insert.
      cbn [fs set_fs fst snd OfficeToPDFGUI.settings_manager
           OfficeToPDFGUI.set_watermark_history].
      rewrite lookup_insert_eq. reflexivity. }
    unfold OfficeToPDFGUI.settings_dict.
    cbn [OfficeToPDFGUI.watermark_opacity OfficeToPDFGUI.watermark_size
         OfficeToPDFGUI.watermark_rotation OfficeToPDFGUI.watermark_history
         OfficeToPDFGUI.set_watermark_history].
    split; [apply lookup_insert_eq|].
    split; [rewrite lookup_insert_ne by discriminate; apply lookup_insert_eq|].
    split; [rewrite !lookup_insert_ne by discriminate; apply lookup_insert_eq|].
    split; [rewrite !lookup_insert_ne by discriminate; apply lookup_insert_eq|].
    exists (take 4 (Py.remove text (OfficeToPDFGUI.watermark_history gui))).
    rewrite <- update_history_eq.
    split; [rewrite !lookup_insert_ne by discriminate; apply lookup_insert_eq|].
    split; [apply update_history_length|].
    split; [reflexivity | apply update_history_NoDup].
  - intros ts.
    pose proof (history_after_recent ts []) as H.
    rewrite app_nil_r in H. cbn [most_recent_first take] in H.
    split; [|split].
    + rewrite H. eapply sublist_NoDup; [apply most_recent_first_NoDup | apply sublist_take].
    + rewrite H, length_take. lia.
    + exact H.
Qed.

Lemma C9_settings_round_trip_witness :
  let w' := fst (snd (OfficeToPDFGUI._save_current_settings example_env
                        (world_with [], example_gui))) in
  exists saved,
    SettingsManager.load_settings
      {| SettingsManager.config_file := "config/settings.json" |} w'
    = (Ok (JObject saved), w')
    /\ saved !! "last_watermark_text" = Some (VStr "CONFIDENTIAL")
    /\ saved !! "opacity" = Some (VFloat (1 # 5))
    /\ saved !! "size" = Some (VInt 25)
    /\ saved !! "rotation" = Some (VInt 30)
    /\ saved !! "watermark_history" = Some (VList ["CONFIDENTIAL"]).
Proof.
  intros w'.
  destruct (proj1 C9_settings_round_trip example_env example_gui (world_with []))
    as (_ & _ & _ & Hload & Htext & Hopacity & Hsize & Hrotation & older & Hhist & _ & Holder & _).
  - vm_compute. discriminate.
  - reflexivity.
  - eexists. split; [exact Hload|].
    split; [exact Htext|]. split; [exact Hopacity|].
    split; [exact Hsize|]. split; [exact Hrotation|].
    rewrite Hhist, Holder. reflexivity.
Defined.

(** * Further properties of the program *)

(** ** The settings file *)

Lemma load_settings_cases (self : SettingsManager.t) (w : World) :
  SettingsManager.load_settings self w =
  match fs w !! SettingsManager.config_file self with
  | Some (FJson d) => (Ok (JObject d), w)
  | Some (FJsonValue v) => (Ok (JValue v), w)
  | Some FText =>
      (Ok (JObject ∅), add_log (MsgLoadSettingsFailed JSONDecodeError) w)
  | Some (FPdf _) | Some FOther => (Raise UnicodeDecodeError, w)
  | None => (Ok (JObject ∅), w)
  end.
Proof.
  unfold SettingsManager.load_settings, path_exists, try_except_if, open_read,
    SettingsManager.json_load, log_message, modify, raise.
  munfold.
  destruct (fs w !! SettingsManager.config_file self) as [[pages|d|v| |]|] eqn:E;
    [rewrite bool_decide_eq_true_2 by eauto; rewrite E; reflexivity ..|].
  rewrite bool_decide_eq_false_2 by (intros [? ?]; discriminate). reflexivity.
Qed.


(** X2.  [save_settings] never raises.  When the file cannot be written it
    logs one message and leaves the file system as it was, so that loading
    afterwards returns what loading before returned. *)
Theorem X2_failed_save_keeps_settings env (self : SettingsManager.t)
    (settings : gmap string pyval) (w : World) :
  may_write env (SettingsManager.config_file self) w = false ->
  let res := SettingsManager.save_settings env self settings w in
  fst res = Ok tt
  /\ fs (snd res) = fs w
  /\ log (snd res) = log w ++ [MsgSaveSettingsFailed PermissionError]
  /\ fst (SettingsManager.load_settings self (snd res))
     = fst (SettingsManager.load_settings self w).
Proof.
  intros Hw res. subst res.
  unfold SettingsManager.save_settings, try_except_if, open_write, log_message, modify.
  rewrite Hw. cbn [is_OSError fst snd fs log add_log].
  split; [reflexivity|]. split; [reflexivity|]. split; [reflexivity|].
  rewrite !load_settings_cases. cbn [fs add_log].
  destruct (fs w !! SettingsManager.config_file self) as [[| | | |]|]; reflexivity.
Qed.

Lemma X2_failed_save_keeps_settings_witness :
  may_write (read_only example_env) "config/settings.json" (world_with []) = false
  /\ fs (snd (SettingsManager.save_settings (read_only example_env) example_settings
                (OfficeToPDFGUI.settings_dict "CONFIDENTIAL" example_gui)
                (world_with [])))
     = fs (world_with []).
Proof.
  split; [reflexivity|].
  apply (X2_failed_save_keeps_settings (read_only example_env) example_settings
           (OfficeToPDFGUI.settings_dict "CONFIDENTIAL" example_gui) (world_with [])).
  reflexivity.
Defined.

Lemma lstrip_all_space (s : string) : all_space s = true -> Py.lstrip s = "".
Proof.
  induction s as [|ch s IH]; [reflexivity|]. cbn [all_space Py.lstrip].
  destruct (Py.isspace ch); [exact IH | discriminate].
Qed.

Lemma strip_all_space (s : string) : all_space s = true -> Py.strip s = "".
Proof. intros H. unfold Py.strip. rewrite (lstrip_all_space s H). reflexivity. Qed.

(** X3.  When the watermark text is blank (empty or white space only),
    [_save_current_settings] does nothing at all: the settings file, the log
    and the history are left as they were. *)
Theorem X3_blank_text_saves_nothing env (w : World) (gui : OfficeToPDFGUI.t) :
  all_space (OfficeToPDFGUI.watermark_text gui) = true ->
  OfficeToPDFGUI._save_current_settings env (w, gui) = (Ok tt, (w, gui)).
Proof.
  intros H. unfold OfficeToPDFGUI._save_current_settings, get_locals. munfold.
  cbn [snd]. rewrite (strip_all_space _ H). reflexivity.
Qed.

Lemma X3_blank_text_saves_nothing_witness :
  OfficeToPDFGUI._save_current_settings example_env (world_with [], blank_gui)
  = (Ok tt, (world_with [], blank_gui)).
Proof.
  apply (X3_blank_text_saves_nothing example_env (world_with []) blank_gui).
  reflexivity.
Defined.

(** ** [add_watermark] on every input *)

Lemma last_message_snoc (l : list LogMsg) (m : LogMsg) :
  last_message (l ++ [m]) = Some m.
Proof.
  unfold last_message. rewrite map_app. cbn [map]. apply List.last_last.
Qed.

(** The outcome of [add_watermark], case by case. *)
Lemma add_watermark_cases env self pdf text out o f r w :
  let w1 := add_event (EvAddWatermark (str pdf)) w in
  let tmp := mkstemp env w1 in
  let w2 := set_fs (insert tmp FText) w1 in
  WatermarkManager.add_watermark env self pdf text out o f r w =
  if negb (import_pdf_libs env) then (Ok false, add_log MsgMissingPdfLibs w1)
  else if negb (WatermarkManager.font_registered self)
  then (Ok false, add_log MsgFontNotRegistered w1)
  else
    match fs w !! str pdf with
    | None => (Ok false, add_log (MsgWatermarkError FileNotFoundError) w1)
    | Some (FPdf []) => (Ok false, add_log (MsgPdfEmpty (name pdf)) w1)
    | Some (FPdf (page0 :: rest)) =>
        match overlay_page env self (urx (mediabox page0)) (ury (mediabox page0))
                text o f r with
        | None =>
            (Ok false,
             set_fs (delete tmp) (add_log (MsgWatermarkError ValueError) w2))
        | Some wp =>
            if may_write env tmp w2 then
              match write_fault env tmp w2 with
              | Some (e, remains) =>
                  (Ok false,
                   set_fs (delete tmp)
                     (add_log (MsgWatermarkError e)
                        (set_fs (insert tmp remains) w2)))
              | None =>
                  let w3 := set_fs (insert tmp (FPdf [wp])) w2 in
                  if may_write env (str out) w3 then
                    match write_fault env (str out) w3 with
                    | Some (e, remains) =>
                        (Ok false,
                         set_fs (delete tmp)
                           (add_log (MsgWatermarkError e)
                              (set_fs (insert (str out) remains) w3)))
                    | None =>
                        (Ok true,
                         set_fs (delete tmp)
                           (add_log (MsgWatermarkAdded (name out))
                              (set_fs (insert (str out)
                                         (FPdf (map (fun p =>
                                                       WatermarkManager.merge_page p wp)
                                                  (page0 :: rest)))) w3)))
                    end
                  else
                    (Ok false,
                     set_fs (delete tmp)
                       (add_log (MsgWatermarkError PermissionError) w3))
              end
            else
              (Ok false,
               set_fs (delete tmp) (add_log (MsgWatermarkError PermissionError) w2))
        end
    | Some _ => (Ok false, add_log (MsgWatermarkError PdfReadError) w1)
    end.
Proof.
  intros w1 tmp w2.
  destruct (import_pdf_libs env) eqn:Hlibs; cbn [negb].
  2:{ unfold WatermarkManager.add_watermark, record, log_message, modify. munfold.
      rewrite Hlibs. reflexivity. }
  destruct (WatermarkManager.font_registered self) eqn:Hfont; cbn [negb].
  2:{ unfold WatermarkManager.add_watermark, record, log_message, modify. munfold.
      rewrite Hlibs, Hfont. reflexivity. }
  destruct (fs w !! str pdf) as [[[|page0 rest]| | | |]|] eqn:Hsrc.
  2:{ apply (add_watermark_run _ _ _ _ _ _ _ _ _ _ _ Hlibs Hfont Hsrc). }
  all: unfold WatermarkManager.add_watermark, record, log_message, modify; munfold;
    rewrite Hlibs, Hfont; cbn [negb];
    unfold with_locals, try_finally, try_except, WatermarkManager.add_watermark_body,
      liftW, open_read, PdfReader, raise, log_message, modify; munfold;
    cbn [fst snd fs add_event]; rewrite Hsrc; reflexivity.
Qed.

(** X4.  [add_watermark] never raises, and the temporary overlay file never
    outlives the call: at return either the file system is the one before
    the call (no temporary file was created) or no file exists under the
    temporary name. *)
Theorem X4_temporary_overlay_is_scoped env self pdf text out o f r w :
  let res := WatermarkManager.add_watermark env self pdf text out o f r w in
  let tmp := mkstemp env (add_event (EvAddWatermark (str pdf)) w) in
  (exists b, fst res = Ok b)
  /\ (fs (snd res) = fs w \/ fs (snd res) !! tmp = None).
Proof.
  cbv zeta. rewrite add_watermark_cases. cbv zeta.
  set (tmp := mkstemp env (add_event (EvAddWatermark (str pdf)) w)).
  destruct (negb (import_pdf_libs env)); [split; [eauto | left; reflexivity]|].
  destruct (negb (WatermarkManager.font_registered self));
    [split; [eauto | left; reflexivity]|].
  destruct (fs w !! str pdf) as [[[|page0 rest]| | | |]|];
    try (split; [eauto | left; reflexivity]).
  destruct (overlay_page env self _ _ text o f r) as [wp|].
  - destruct (may_write env tmp _);
      [destruct (write_fault env tmp _) as [[e0 remains0]|];
       [|destruct (may_write env (str out) _);
         [destruct (write_fault env (str out) _) as [[e1 remains1]|]|]]|];
      (split; [eauto | right; cbn [snd fs set_fs add_log]; apply lookup_delete_eq]).
  - split; [eauto | right; cbn [snd fs set_fs add_log]; apply lookup_delete_eq].
Qed.

(** X5.  [add_watermark] touches two paths only, the temporary name and the
    output path: every other path keeps its content, so the source document
    is never modified.  The output path changes only once its file has been
    opened for writing: a call that fails before that leaves it as it was,
    and a call whose write breaks off after the open returns [False], logs
    the exception and leaves at the output path what the broken write had
    written. *)
Theorem X5_add_watermark_frame env self pdf text out o f r w (p : string) :
  let res := WatermarkManager.add_watermark env self pdf text out o f r w in
  p <> mkstemp env (add_event (EvAddWatermark (str pdf)) w) ->
  (p <> str out -> fs (snd res) !! p = fs w !! p)
  /\ (p = str out -> fst res = Ok false ->
      fs (snd res) !! p = fs w !! p
      \/ exists e remains w3,
           may_write env (str out) w3 = true
           /\ write_fault env (str out) w3 = Some (e, remains)
           /\ fs (snd res) !! p = Some remains
           /\ last_message (log (snd res)) = Some (MsgWatermarkError e)).
Proof.
  cbv zeta. rewrite add_watermark_cases. cbv zeta.
  set (tmp := mkstemp env (add_event (EvAddWatermark (str pdf)) w)).
  intros Htmp.
  destruct (negb (import_pdf_libs env)); [split; [reflexivity | left; reflexivity]|].
  destruct (negb (WatermarkManager.font_registered self));
    [split; [reflexivity | left; reflexivity]|].
  destruct (fs w !! str pdf) as [[[|page0 rest]| | | |]|] eqn:Hsrc;
    try (split; [reflexivity | left; reflexivity]).
  destruct (overlay_page env self _ _ text o f r) as [wp|].
  2:{ cbn [fst snd fs set_fs add_log add_event].
      split; [intros _ | intros _ _; left];
        rewrite lookup_delete_ne, !lookup_insert_ne by congruence; reflexivity. }
  destruct (may_write env tmp _).
  2:{ cbn [fst snd fs set_fs add_log add_event].
      split; [intros _ | intros _ _; left];
        rewrite lookup_delete_ne, !lookup_insert_ne by congruence; reflexivity. }
  destruct (write_fault env tmp _) as [[e0 remains0]|].
  { cbn [fst snd fs set_fs add_log add_event].
    split; [intros _ | intros _ _; left];
      rewrite lookup_delete_ne, !lookup_insert_ne by congruence; reflexivity. }
  cbv zeta.
  destruct (may_write env (str out) _) eqn:Hgrant.
  2:{ cbn [fst snd fs set_fs add_log add_event].
      split; [intros _ | intros _ _; left];
        rewrite lookup_delete_ne, !lookup_insert_ne by congruence; reflexivity. }
  destruct (write_fault env (str out) _) as [[e1 remains1]|] eqn:Hfault.
  - cbn [fst snd fs set_fs add_log add_event log]. split.
    + intros Hout. rewrite lookup_delete_ne, !lookup_insert_ne by congruence.
      reflexivity.
    + intros -> _. right. eexists e1, remains1, _.
      split; [exact Hgrant|]. split; [exact Hfault|]. split.
      * rewrite lookup_delete_ne by congruence. apply lookup_insert_eq.
      * apply last_message_snoc.
  - cbn [fst snd fs set_fs add_log add_event]. split; [|discriminate].
    intros Hout. rewrite lookup_delete_ne, !lookup_insert_ne by congruence.
    reflexivity.
Qed.

Lemma X5_add_watermark_frame_witness :
  fs (snd (WatermarkManager.add_watermark example_env example_wm mixed_pdf
             "CONFIDENTIAL" mixed_out (1 # 5) 25 30 mixed_world)) !! "in/mixed.pdf"
  = fs mixed_world !! "in/mixed.pdf"
  /\ fst (WatermarkManager.add_watermark
            (disk_full example_env "out/mixed_watermarked.pdf") example_wm mixed_pdf
            "CONFIDENTIAL" mixed_out (1 # 5) 25 30 mixed_world) = Ok false
  /\ fs (snd (WatermarkManager.add_watermark
                (disk_full example_env "out/mixed_watermarked.pdf") example_wm
                mixed_pdf "CONFIDENTIAL" mixed_out (1 # 5) 25 30 mixed_world))
       !! "out/mixed_watermarked.pdf" = Some FOther
  /\ fs (snd (WatermarkManager.add_watermark
                (disk_full example_env "out/mixed_watermarked.pdf") example_wm
                mixed_pdf "CONFIDENTIAL" mixed_out (1 # 5) 25 30 mixed_world))
       !! "in/mixed.pdf" = fs mixed_world !! "in/mixed.pdf".
Proof.
  split.
  { apply (X5_add_watermark_frame example_env example_wm mixed_pdf "CONFIDENTIAL"
             mixed_out (1 # 5) 25 30 mixed_world "in/mixed.pdf").
    - vm_compute. discriminate.
    - vm_compute. discriminate. }
  split; [vm_compute; reflexivity|].
  split; [vm_compute; reflexivity|].
  apply (X5_add_watermark_frame (disk_full example_env "out/mixed_watermarked.pdf")
           example_wm mixed_pdf "CONFIDENTIAL" mixed_out (1 # 5) 25 30 mixed_world
           "in/mixed.pdf").
  - vm_compute. discriminate.
  - vm_compute. discriminate.
Defined.

(** X6.  Whenever the source is not a PDF document with at least one page
    (no such file, a file that is not a PDF, or a PDF without pages),
    [add_watermark] returns [False], logs exactly one message and leaves the
    file system untouched: no output file and no temporary file. *)
Theorem X6_unusable_source env self pdf text out o f r w :
  (forall page0 rest, fs w !! str pdf <> Some (FPdf (page0 :: rest))) ->
  let res := WatermarkManager.add_watermark env self pdf text out o f r w in
  fst res = Ok false
  /\ fs (snd res) = fs w
  /\ (exists m, log (snd res) = log w ++ [m])
  /\ (import_pdf_libs env = true ->
      WatermarkManager.font_registered self = true ->
      fs w !! str pdf = Some (FPdf []) ->
      log (snd res) = log w ++ [MsgPdfEmpty (name pdf)]).
Proof.
  intros Hsrc. cbv zeta. rewrite add_watermark_cases. cbv zeta.
  destruct (import_pdf_libs env); cbn [negb].
  2:{ repeat split; eauto; discriminate. }
  destruct (WatermarkManager.font_registered self); cbn [negb].
  2:{ repeat split; eauto; discriminate. }
  destruct (fs w !! str pdf) as [[[|page0 rest]| | | |]|] eqn:E.
  - repeat split; eauto.
  - contradiction (Hsrc page0 rest). reflexivity.
  - repeat split; eauto; discriminate.
  - repeat split; eauto; discriminate.
  - repeat split; eauto; discriminate.
  - repeat split; eauto; discriminate.
  - repeat split; eauto; discriminate.
Qed.

Lemma X6_unusable_source_witness :
  fst (WatermarkManager.add_watermark example_env example_wm mixed_pdf
         "CONFIDENTIAL" mixed_out (1 # 5) 25 30 (world_with []))
  = Ok false.
Proof.
  apply (X6_unusable_source example_env example_wm mixed_pdf "CONFIDENTIAL"
           mixed_out (1 # 5) 25 30 (world_with [])).
  intros page0 rest. vm_compute. discriminate.
Defined.

(** ** The two backends *)

(** X7.  [convert_with_libreoffice] never raises, runs exactly one
    subprocess, logs exactly two messages (the announcement and the
    verdict), and when it reports success the expected output file
    [<output_dir>/<stem>.pdf] exists at return. *)
Theorem X7_headless_backend env self input output_dir w :
  let res := OfficeToPDFConverter.convert_with_libreoffice env self input
               output_dir w in
  (exists b, fst res = Ok b)
  /\ (exists cmd,
        trace (snd res)
        = trace w ++ [EvConvertWithLibreOffice (str input); EvSubprocess cmd])
  /\ (exists verdict,
        log (snd res)
        = log w ++ [MsgLibreOfficeConverting (name input); verdict])
  /\ (fst res = Ok true ->
      is_Some (fs (snd res) !! str (joinpath output_dir (stem input) ".pdf"))).
Proof.
  cbv zeta.
  unfold OfficeToPDFConverter.convert_with_libreoffice.
  unfold record, modify, try_except, log_message, modify, OfficeToPDFConverter.run,
    path_exists.
  munfold.
  destruct (find_libreoffice_path_pure
              (OfficeToPDFConverter.dependency_manager self)
              (add_event (EvConvertWithLibreOffice (str input)) w))
    as [soffice ->].
  cbn [add_log fst snd].
  destruct (subprocess_run env _ _) as [[result fs']|e]; cbn [fst snd fs set_fs].
  - destruct (bool_decide (is_Some (fs' !! _))) eqn:Hex;
      destruct (returncode result =? 0); cbn [andb fst snd fs log trace add_log add_event set_fs];
      rewrite <- ?app_assoc; cbn [app];
      (split; [eauto|]; split; [eauto|]; split; [eauto|]); try discriminate.
    intros _. apply bool_decide_eq_true in Hex. exact Hex.
  - cbn [fst snd fs log trace add_log add_event set_fs].
    rewrite <- ?app_assoc; cbn [app].
    split; [eauto|]; split; [eauto|]; split; [eauto|]. discriminate.
Qed.

(** The outcome and the calls of the shared [try] statement when neither
    [Close] nor [Quit] raises. *)
Lemma automate_returns env progid format converting failed input output w :
  (forall file w0, com_Close env file w0 = true) ->
  (forall p w0, com_Quit env p w0 = true) ->
  let res := OfficeToPDFConverter.automate env progid format converting failed
               input output w in
  exists b evs,
    fst res = Ok b
    /\ trace (snd res) = trace w ++ evs
    /\ ((b = false /\ evs = [EvCreateObject progid])
        \/ (b = false
            /\ evs = [EvCreateObject progid; EvOpen (str input); EvQuit progid])
        \/ evs = [EvCreateObject progid; EvOpen (str input);
                  EvSaveAs (str output) format;
                  EvClose (str input); EvQuit progid]).
Proof.
  intros Hclose Hquit res. subst res.
  unfold OfficeToPDFConverter.automate, with_locals, try_finally, try_except,
    liftW, get_locals, set_locals, log_message, modify,
    OfficeToPDFConverter.CreateObject, OfficeToPDFConverter.Open,
    OfficeToPDFConverter.SaveAs, OfficeToPDFConverter.Close,
    OfficeToPDFConverter.Quit, OfficeToPDFConverter.com_call.
  munfold. cbn [fst snd].
  destruct (com_CreateObject env progid _); cbn [fst snd].
  2:{ cbn. eexists _, _. split; [reflexivity|]. split; [reflexivity|]. left. split; reflexivity. }
  destruct (com_Open env (str input) _); cbn [fst snd].
  2:{ cbn. rewrite Hquit. cbn.
      eexists _, _. split; [reflexivity|].
      split; [rewrite <- !app_assoc; reflexivity|]. right; left. split; reflexivity. }
  destruct (com_SaveAs env (str output) format _) as [[file|]|e]; cbn;
    rewrite !Hclose; cbn; rewrite !Hquit; cbn;
    (eexists _, _; split; [reflexivity|];
     split; [rewrite <- !app_assoc; reflexivity|]; right; right; reflexivity).
Qed.

(** X8.  When neither closing a document nor quitting an application
    raises, [convert_with_comtypes] never raises: every failure of the
    automation layer comes back as [False].  The calls it makes are one of:
    none (not on Windows, or comtypes missing); a failed creation; creation,
    a failed opening and [Quit]; or creation, opening, export, [Close] and
    [Quit], in this order. *)
Theorem X8_native_backend_returns env self input output w :
  (forall file w0, com_Close env file w0 = true) ->
  (forall p w0, com_Quit env p w0 = true) ->
  let res := OfficeToPDFConverter.convert_with_comtypes env self input output w in
  exists b progid format evs,
    fst res = Ok b
    /\ trace (snd res) = trace w ++ EvConvertWithComtypes (str input) :: evs
    /\ ((b = false /\ evs = [])
        \/ (b = false /\ evs = [EvCreateObject progid])
        \/ (b = false
            /\ evs = [EvCreateObject progid; EvOpen (str input); EvQuit progid])
        \/ evs = [EvCreateObject progid; EvOpen (str input);
                  EvSaveAs (str output) format;
                  EvClose (str input); EvQuit progid]).
Proof.
  intros Hclose Hquit res. subst res.
  unfold OfficeToPDFConverter.convert_with_comtypes, record, log_message, modify.
  munfold. cbn [fst snd].
  destruct (negb (String.eqb _ "Windows")).
  { exists false, "", 0, []. cbn. split; [reflexivity|]. split; [reflexivity|].
    left. split; reflexivity. }
  destruct (negb (import_comtypes env)).
  { exists false, "", 0, []. cbn. split; [reflexivity|]. split; [reflexivity|].
    left. split; reflexivity. }
  destruct (Py.contains _ _).
  - match goal with
    | |- context [OfficeToPDFConverter.automate ?e ?p ?f ?c ?m ?i ?o ?w0] =>
        destruct (automate_returns e p f c m i o w0 Hclose Hquit)
          as (b & evs & Hb & Htr & Hevs)
    end.
    exists b, "Word.Application", 17, evs.
    split; [exact Hb|]. split; [rewrite Htr; cbn; rewrite <- app_assoc; reflexivity|].
    right. exact Hevs.
  - match goal with
    | |- context [OfficeToPDFConverter.automate ?e ?p ?f ?c ?m ?i ?o ?w0] =>
        destruct (automate_returns e p f c m i o w0 Hclose Hquit)
          as (b & evs & Hb & Htr & Hevs)
    end.
    exists b, "Powerpoint.Application", 32, evs.
    split; [exact Hb|]. split; [rewrite Htr; cbn; rewrite <- app_assoc; reflexivity|].
    right. exact Hevs.
Qed.

Lemma X8_native_backend_returns_witness :
  exists b progid format evs,
    fst (OfficeToPDFConverter.convert_with_comtypes example_env example_converter
           report_docx report_pdf report_world) = Ok b
    /\ trace (snd (OfficeToPDFConverter.convert_with_comtypes example_env
                     example_converter report_docx report_pdf report_world))
       = trace report_world ++ EvConvertWithComtypes (str report_docx) :: evs
    /\ ((b = false /\ evs = [])
        \/ (b = false /\ evs = [EvCreateObject progid])
        \/ (b = false
            /\ evs = [EvCreateObject progid; EvOpen (str report_docx); EvQuit progid])
        \/ evs = [EvCreateObject progid; EvOpen (str report_docx);
                  EvSaveAs (str report_pdf) format;
                  EvClose (str report_docx); EvQuit progid]).
Proof.
  apply (X8_native_backend_returns example_env example_converter report_docx
           report_pdf report_world).
  - intros file w0. reflexivity.
  - intros p w0. reflexivity.
Defined.

(** X9.  [convert_with_comtypes] picks the application by the extension of
    the input, compared in lower case: Word with export format 17 for [.doc]
    and [.docx], PowerPoint with export format 32 for everything else; it
    creates at most one application object and exports only to the output
    path it was given. *)
Theorem X9_application_by_extension env self input output w :
  let res := OfficeToPDFConverter.convert_with_comtypes env self input output w in
  let word := Py.contains (Py.lower (suffix input)) [".doc"; ".docx"] in
  exists evs,
    trace (snd res) = trace w ++ EvConvertWithComtypes (str input) :: evs
    /\ (forall progid, In (EvCreateObject progid) evs ->
          progid = if word then "Word.Application" else "Powerpoint.Application")
    /\ (forall file format, In (EvSaveAs file format) evs ->
          file = str output /\ format = if word then 17 else 32)
    /\ (length (List.filter (fun e => match e with EvCreateObject _ => true | _ => false end)
                  evs) <= 1)%nat.
Proof.
  cbv zeta.
  unfold OfficeToPDFConverter.convert_with_comtypes, record, log_message, modify.
  munfold. cbn [fst snd].
  destruct (negb (String.eqb _ "Windows")).
  { exists []. cbn. split; [reflexivity|]. repeat split; try tauto; lia. }
  destruct (negb (import_comtypes env)).
  { exists []. cbn. split; [reflexivity|]. repeat split; try tauto; lia. }
  destruct (Py.contains _ _);
    match goal with
    | |- context [OfficeToPDFConverter.automate ?e ?p ?f ?c ?m ?i ?o ?w0] =>
        destruct (automate_releases_trace e p f c m i o w0) as (evs & -> & Hevs)
    end;
    exists evs;
    (split; [cbn; rewrite <- app_assoc; reflexivity|]);
    destruct Hevs as [->|[->|[->| ->]]]; cbn;
    (split; [intros progid H; repeat destruct H as [H|H]; try discriminate H;
             try contradiction; injection H as <-; reflexivity|]);
    (split; [intros file format H; repeat destruct H as [H|H]; try discriminate H;
             try contradiction; injection H as <- <-; split; reflexivity|]);
    lia.
Qed.

(** ** The batch loop *)

Lemma finish_file_count env self output_dir processed s r s' :
  OfficeToPDFGUI.finish_file env self output_dir processed s = (r, s') ->
  (OfficeToPDFGUI.success_count (snd s) <= OfficeToPDFGUI.success_count (snd s')
   <= S (OfficeToPDFGUI.success_count (snd s)))%nat.
Proof.
  unfold OfficeToPDFGUI.finish_file, liftW, path_exists, set_locals, log_message, modify.
  munfold. cbn [fst snd].
  destruct (bool_decide _); [|intros [= <- <-]; cbn [fst snd]; lia].
  destruct (OfficeToPDFGUI.add_watermark self).
  - destruct (WatermarkManager.add_watermark _ _ _ _ _ _ _ _ _) as [[[|]|e] w1];
      cbn [fst snd]; intros [= <- <-]; cbn; lia.
  - destruct (negb _ || _)%bool.
    + destruct (OfficeToPDFGUI.copy2 _ _ _ _) as [[[]|e] w1];
        cbn [fst snd]; intros [= <- <-]; cbn; lia.
    + cbn [fst snd]. intros [= <- <-]. cbn. lia.
Qed.

Lemma process_file_count env self output_dir total job s r s' :
  OfficeToPDFGUI.process_file env self output_dir total job s = (r, s') ->
  (OfficeToPDFGUI.success_count (snd s) <= OfficeToPDFGUI.success_count (snd s')
   <= S (OfficeToPDFGUI.success_count (snd s)))%nat.
Proof.
  destruct job as [i input].
  unfold OfficeToPDFGUI.process_file, liftW, log_message, modify.
  munfold. cbn [fst snd].
  destruct (Py.contains _ _).
  - destruct (OfficeToPDFGUI.convert _ _ _ _ _ _) as [[[|]|e] w1]; cbn [fst snd].
    + intros H. apply finish_file_count in H. exact H.
    + intros [= <- <-]. cbn. lia.
    + intros [= <- <-]. cbn. lia.
  - destruct (String.eqb _ ".pdf").
    + intros H. apply finish_file_count in H. exact H.
    + intros [= <- <-]. cbn. lia.
Qed.

Lemma for_each_count env self output_dir total jobs s r s' :
  for_each jobs (OfficeToPDFGUI.process_file env self output_dir total) s = (r, s') ->
  (OfficeToPDFGUI.success_count (snd s) <= OfficeToPDFGUI.success_count (snd s')
   <= OfficeToPDFGUI.success_count (snd s) + length jobs)%nat.
Proof.
  revert s; induction jobs as [|job jobs IH]; intros s; cbn [for_each].
  - munfold. intros [= <- <-]. cbn. lia.
  - munfold.
    destruct (OfficeToPDFGUI.process_file env self output_dir total job s)
      as [[[]|e] s1] eqn:Hjob.
    + intros H. apply IH in H. apply process_file_count in Hjob. cbn [length]. lia.
    + intros [= <- <-]. apply process_file_count in Hjob. cbn [length]. lia.
Qed.

Lemma enumerate_length {A} (k : nat) (l : list A) :
  length (OfficeToPDFGUI.enumerate k l) = length l.
Proof. revert k; induction l as [|x l IH]; intros k; simpl; [|rewrite IH]; reflexivity. Qed.

(** X10.  [_perform_processing] never raises, whatever happens to the
    files.  Its last message is either the summary "done: n / total", where
    the success count [n] is at most the number of input files, or the
    report of the exception that ended the run. *)
Theorem X10_batch_always_reports env self w :
  let res := OfficeToPDFGUI._perform_processing env self w in
  fst res = Ok tt
  /\ ((exists n,
         last_message (log (snd res))
         = Some (MsgAllDone n (length (OfficeToPDFGUI.input_files self)))
         /\ (n <= length (OfficeToPDFGUI.input_files self))%nat)
      \/ exists e, last_message (log (snd res)) = Some (MsgFatal e)).
Proof.
  cbv zeta.
  unfold OfficeToPDFGUI._perform_processing, with_locals, try_except, liftW,
    get_locals, log_message, record, modify.
  munfold.
  destruct (for_each _ _ _) as [[[]|e] [w1 l1]] eqn:Hloop; cbn [fst snd].
  - apply for_each_count in Hloop. rewrite enumerate_length in Hloop.
    cbn [snd OfficeToPDFGUI.success_count] in Hloop.
    destruct (OfficeToPDFGUI.add_watermark self && _)%bool; cbn [fst snd log add_log add_event];
      (split; [reflexivity|]; left; exists (OfficeToPDFGUI.success_count l1);
       split; [apply last_message_snoc | lia]).
  - split; [reflexivity|]. right. exists e. cbn [log add_log]. apply last_message_snoc.
Qed.

Lemma add_watermark_trace env self pdf text out o f r w :
  trace (snd (WatermarkManager.add_watermark env self pdf text out o f r w))
  = trace w ++ [EvAddWatermark (str pdf)].
Proof.
  rewrite add_watermark_cases. cbv zeta.
  destruct (negb (import_pdf_libs env)); [reflexivity|].
  destruct (negb (WatermarkManager.font_registered self)); [reflexivity|].
  destruct (fs w !! str pdf) as [[[|page0 rest]| | | |]|]; try reflexivity.
  destruct (overlay_page env self _ _ text o f r) as [wp|]; [|reflexivity].
  destruct (may_write env _ _); [|reflexivity].
  destruct (write_fault env _ _) as [[e0 remains0]|]; [reflexivity|].
  destruct (may_write env (str out) _); [|reflexivity].
  destruct (write_fault env (str out) _) as [[e1 remains1]|]; reflexivity.
Qed.

Lemma copy2_trace env src dst w :
  trace (snd (OfficeToPDFGUI.copy2 env src dst w)) = trace w ++ [EvCopy src dst].
Proof.
  unfold OfficeToPDFGUI.copy2. cbn [fs add_event].
  destruct (fs w !! src); [destruct (copy2_ok env src dst _)|]; reflexivity.
Qed.

(** X11.  Only office documents are handed to a conversion backend: for an
    input whose extension, in lower case, is none of [.pptx], [.ppt],
    [.docx], [.doc] (a PDF in particular) the loop body invokes no backend. *)
Theorem X11_only_office_documents_are_converted env self output_dir total
    (i : nat) (input : Path) (s : World * OfficeToPDFGUI.Locals) :
  Py.contains (Py.lower (suffix input)) [".pptx"; ".ppt"; ".docx"; ".doc"] = false ->
  backend_calls
    (trace (fst (snd (OfficeToPDFGUI.process_file env self output_dir total
                        (i, input) s))))
  = backend_calls (trace (fst s)).
Proof.
  intros Hext.
  unfold OfficeToPDFGUI.process_file, liftW, log_message, modify.
  munfold. cbn [fst snd]. rewrite Hext.
  destruct (String.eqb _ ".pdf"); [|reflexivity].
  unfold OfficeToPDFGUI.finish_file, liftW, path_exists, set_locals, log_message, modify.
  munfold. cbn [fst snd].
  destruct (bool_decide _); [|reflexivity].
  destruct (OfficeToPDFGUI.add_watermark self).
  - match goal with
    | |- context [WatermarkManager.add_watermark ?e ?m ?p ?t ?o ?a ?b ?c ?w0] =>
        pose proof (add_watermark_trace e m p t o a b c w0) as Htr;
        destruct (WatermarkManager.add_watermark e m p t o a b c w0) as [[[|]|ex] w1]
    end; cbn [fst snd trace add_log] in *; rewrite Htr, backend_calls_app; cbn;
      apply app_nil_r.
  - destruct (negb _ || _)%bool; [|reflexivity].
    match goal with
    | |- context [OfficeToPDFGUI.copy2 ?e ?a ?b ?w0] =>
        pose proof (copy2_trace e a b w0) as Htr;
        destruct (OfficeToPDFGUI.copy2 e a b w0) as [[[]|ex] w1]
    end; cbn [fst snd trace add_log] in *; rewrite Htr, backend_calls_app; cbn;
      apply app_nil_r.
Qed.

Lemma X11_only_office_documents_are_converted_witness :
  backend_calls
    (trace (fst (snd (OfficeToPDFGUI.process_file example_env
                        (copy_gui [plain_pdf]) "out" 1%nat (1%nat, plain_pdf)
                        (copy_world, {| OfficeToPDFGUI.success_count := 0 |})))))
  = backend_calls (trace copy_world).
Proof.
  apply (X11_only_office_documents_are_converted example_env (copy_gui [plain_pdf])
           "out" 1%nat 1%nat plain_pdf
           (copy_world, {| OfficeToPDFGUI.success_count := 0 |})).
  reflexivity.
Defined.

(** ** Downloading the installer *)

Ltac punfold :=
  unfold mbind, mret, Provisioning.P_bind, Provisioning.P_ret in *.

Lemma add_notes_nil h : add_notes [] h = h.
Proof. destruct h; unfold add_notes; simpl. rewrite app_nil_r. reflexivity. Qed.

Lemma add_notes_app ns1 ns2 h :
  add_notes ns2 (add_notes ns1 h) = add_notes (ns1 ++ ns2) h.
Proof. unfold add_notes; simpl. rewrite <- app_assoc. reflexivity. Qed.

Lemma progress_hook_step (bn bs total : Z) (h : Provisioning.Host) (last : Z) :
  Provisioning.progress_hook (bn, bs, total) (h, last) =
  let percent := Py.int (inject_Z (bn * bs * 100) / inject_Z total) in
  if ((0 <? total) && (last <? percent) && (percent mod 5 =? 0))%bool
  then (Provisioning.Done tt,
        (add_notes [Provisioning.NoteProgress percent] h, percent))
  else (Provisioning.Done tt, (h, last)).
Proof.
  unfold Provisioning.progress_hook, Provisioning.get_local, Provisioning.set_local,
    Provisioning.liftH, Provisioning.note.
  punfold. cbv zeta.
  destruct (0 <? total); cbn [andb fst snd]; [|reflexivity].
  destruct ((last <? _) && _)%bool; reflexivity.
Qed.

Lemma hooks_report (hooks : list (Z * Z * Z)) (h : Provisioning.Host) (last : Z) :
  exists last',
    Provisioning.each hooks Provisioning.progress_hook (h, last)
    = (Provisioning.Done tt,
       (add_notes (map Provisioning.NoteProgress (reported hooks last)) h, last')).
Proof.
  revert h last; induction hooks as [|[[bn bs] total] hooks IH]; intros h last.
  - exists last. cbn. rewrite add_notes_nil. reflexivity.
  - cbn [Provisioning.each reported]. punfold.
    rewrite progress_hook_step. cbv zeta.
    destruct ((0 <? total) && _ && _)%bool.
    + destruct (IH (add_notes [Provisioning.NoteProgress
                      (Py.int (inject_Z (bn * bs * 100) / inject_Z total))] h)
                   (Py.int (inject_Z (bn * bs * 100) / inject_Z total)))
        as [last' ->].
      exists last'. cbn [map]. rewrite add_notes_app. reflexivity.
    + apply IH.
Qed.

(** What is reported is strictly increasing, made of multiples of 5, and
    above the last percentage reported before. *)
Lemma reported_sorted (hooks : list (Z * Z * Z)) (last : Z) :
  StronglySorted Z.lt (reported hooks last)
  /\ Forall (fun p => last < p /\ p mod 5 = 0) (reported hooks last).
Proof.
  revert last; induction hooks as [|[[bn bs] total] hooks IH]; intros last;
    cbn [reported]; [split; constructor|].
  destruct (Z.ltb_spec 0 total) as [_|_]; cbn [andb]; [|apply IH].
  destruct (Z.ltb_spec last (Py.int (inject_Z (bn * bs * 100) / inject_Z total)))
    as [Hlt|]; cbn [andb]; [|apply IH].
  destruct (Z.eqb_spec (Py.int (inject_Z (bn * bs * 100) / inject_Z total) mod 5) 0)
    as [Hmod|]; [|apply IH].
  destruct (IH (Py.int (inject_Z (bn * bs * 100) / inject_Z total))) as [Hs Hf].
  split.
  - constructor; [exact Hs|].
    eapply Forall_impl; [exact Hf|]. intros p [Hp _]. exact Hp.
  - constructor; [split; assumption|].
    eapply Forall_impl; [exact Hf|]. intros p [Hp Hm]. split; [lia | exact Hm].
Qed.

(** The outcome of [download_file]. *)
Lemma download_file_cases sur url dest h :
  let hooks := fst (Provisioning.urlretrieve sur url (str dest) (Provisioning.world h)) in
  let h1 :=
    add_notes (Provisioning.NoteDownloading
               :: map Provisioning.NoteProgress (reported hooks (-1)))
      (Provisioning.add_call (Provisioning.CallUrlretrieve url (str dest)) h) in
  Provisioning.download_file sur url dest h =
  match snd (Provisioning.urlretrieve sur url (str dest) (Provisioning.world h)) with
  | inl file =>
      (Provisioning.Done true,
       add_notes [Provisioning.NoteDownloaded (name dest)]
         (Provisioning.on_world (set_fs (insert (str dest) file)) h1))
  | inr (e, partial) =>
      (Provisioning.Done false,
       add_notes [Provisioning.NoteDownloadFailed (Provisioning.Builtin e)]
         match partial with
         | Some file => Provisioning.on_world (set_fs (insert (str dest) file)) h1
         | None => h1
         end)
  end.
Proof.
  cbv zeta.
  unfold Provisioning.download_file, Provisioning.with_local, Provisioning.attempt,
    Provisioning.liftH, Provisioning.set_local, Provisioning.note, Provisioning.call,
    Provisioning.throw, Provisioning.liftM, modify.
  punfold. cbn [fst snd Provisioning.world Provisioning.add_note Provisioning.add_call].
  destruct (Provisioning.urlretrieve sur url (str dest) (Provisioning.world h))
    as [hooks outcome]. cbn [fst snd].
  match goal with
  | |- context [Provisioning.each hooks Provisioning.progress_hook (?h0, ?l0)] =>
      destruct (hooks_report hooks h0 l0) as [last' ->]
  end.
  destruct outcome as [file|[e [file|]]]; cbn [fst snd];
    unfold add_notes, Provisioning.on_world, Provisioning.add_note, Provisioning.add_call;
    cbn; rewrite <- ?app_assoc; reflexivity.
Qed.

Lemma int_div_quot (a b : Z) : 0 < b -> Py.int (inject_Z a / inject_Z b) = Z.quot a b.
Proof.
  intros Hb. destruct b as [|b|b]; try lia.
  unfold Py.int, Qdiv, Qinv, Qmult, inject_Z. cbn [Qnum Qden].
  rewrite Z.mul_1_r. reflexivity.
Qed.

Lemma reported_In (hooks : list (Z * Z * Z)) (last p : Z) :
  In p (reported hooks last) ->
  exists bn bs total,
    In (bn, bs, total) hooks /\ 0 < total /\ p = Z.quot (bn * bs * 100) total.
Proof.
  revert last; induction hooks as [|[[bn bs] total] hooks IH]; intros last;
    cbn [reported]; [intros []|].
  destruct (Z.ltb_spec 0 total) as [Ht|Ht]; cbn [andb].
  - destruct ((last <? _) && _)%bool.
    + intros [<-|Hin].
      * exists bn, bs, total. split; [left; reflexivity|].
        split; [exact Ht | apply int_div_quot, Ht].
      * destruct (IH _ Hin) as (a & b & c & H1 & H2). exists a, b, c.
        split; [right; exact H1 | exact H2].
    + intros Hin. destruct (IH _ Hin) as (a & b & c & H1 & H2). exists a, b, c.
      split; [right; exact H1 | exact H2].
  - intros Hin. destruct (IH _ Hin) as (a & b & c & H1 & H2). exists a, b, c.
    split; [right; exact H1 | exact H2].
Qed.

(** X12.  [download_file] never raises and starts no process.  It calls
    [urlretrieve] once and returns [True] exactly when the transfer
    completes; the destination then holds the downloaded file.  When the
    transfer fails it returns [False] and its last message is the failure.
    In both cases no other path of the file system is touched. *)
Theorem X12_download_verdict sur url dest h :
  let res := Provisioning.download_file sur url dest h in
  let outcome :=
    snd (Provisioning.urlretrieve sur url (str dest) (Provisioning.world h)) in
  (exists b, fst res = Provisioning.Done b)
  /\ (fst res = Provisioning.Done true <-> exists file, outcome = inl file)
  /\ (forall file, outcome = inl file ->
        fs (Provisioning.world (snd res))
        = <[str dest := file]> (fs (Provisioning.world h)))
  /\ (forall k, k <> str dest ->
        fs (Provisioning.world (snd res)) !! k = fs (Provisioning.world h) !! k)
  /\ (forall e partial, outcome = inr (e, partial) ->
        List.last (Provisioning.notes (snd res)) Provisioning.NoteDownloading
        = Provisioning.NoteDownloadFailed (Provisioning.Builtin e))
  /\ trace (Provisioning.world (snd res)) = trace (Provisioning.world h)
  /\ Provisioning.calls (snd res)
     = Provisioning.calls h ++ [Provisioning.CallUrlretrieve url (str dest)].
Proof.
  cbv zeta. rewrite download_file_cases. cbv zeta.
  destruct (snd (Provisioning.urlretrieve sur url (str dest) (Provisioning.world h)))
    as [file|[e partial]]; cbn [fst snd].
  - split; [eauto|]. split; [split; eauto|].
    split; [intros file' [= <-]; reflexivity|].
    split; [intros k Hk; cbn; apply lookup_insert_ne; congruence|].
    split; [discriminate|]. split; reflexivity.
  - split; [eauto|]. split; [split; [discriminate | intros [? [=]]]|].
    split; [discriminate|].
    split; [intros k Hk; destruct partial; cbn;
            [apply lookup_insert_ne; congruence | reflexivity]|].
    split; [intros e' partial' [= <- <-]; destruct partial; apply List.last_last|].
    destruct partial; split; reflexivity.
Qed.

(** X13.  The progress lines of one download are strictly increasing
    percentages, each a multiple of 5 and not negative, and each the
    truncated quotient [block_num * block_size * 100 / total_size] (taken
    exactly) of a report with a known size ([total_size > 0]); they stand
    between the opening line and the closing line of the download. *)
Theorem X13_download_progress sur url dest h :
  let res := Provisioning.download_file sur url dest h in
  let hooks :=
    fst (Provisioning.urlretrieve sur url (str dest) (Provisioning.world h)) in
  exists (ps : list Z) (final : Provisioning.Note),
    Provisioning.notes (snd res)
    = Provisioning.notes h
      ++ Provisioning.NoteDownloading :: map Provisioning.NoteProgress ps ++ [final]
    /\ StronglySorted Z.lt ps
    /\ Forall (fun p => 0 <= p /\ p mod 5 = 0) ps
    /\ Forall (fun p => exists bn bs total,
                 In (bn, bs, total) hooks /\ 0 < total
                 /\ p = Z.quot (bn * bs * 100) total) ps.
Proof.
  cbv zeta. rewrite download_file_cases. cbv zeta.
  set (hooks := fst (Provisioning.urlretrieve sur url (str dest) (Provisioning.world h))).
  destruct (reported_sorted hooks (-1)) as [Hs Hf].
  assert (Hf' : Forall (fun p => 0 <= p /\ p mod 5 = 0) (reported hooks (-1))).
  { eapply Forall_impl; [exact Hf|]. intros p [Hp Hm]. split; [lia | exact Hm]. }
  assert (Hin : Forall (fun p => exists bn bs total,
                          In (bn, bs, total) hooks /\ 0 < total
                          /\ p = Z.quot (bn * bs * 100) total) (reported hooks (-1))).
  { apply Forall_forall. intros p Hp. apply list_elem_of_In in Hp.
    apply (reported_In hooks (-1) p Hp). }
  destruct (snd (Provisioning.urlretrieve sur url (str dest) (Provisioning.world h)))
    as [file|[e [file|]]]; cbn [fst snd];
    (eexists (reported hooks (-1)), _; split;
     [cbn [add_notes Provisioning.notes Provisioning.add_call Provisioning.on_world];
      rewrite <- app_assoc; reflexivity|]);
    (split; [exact Hs|]; split; [exact Hf' | exact Hin]).
Qed.

Lemma run_checked_cases env args h :
  let cmd := CmdArgs args in
  let w1 := add_event (EvSubprocess cmd) (Provisioning.world h) in
  Provisioning.run_checked env args h =
  match subprocess_run env cmd w1 with
  | Ok (result, fs') =>
      (if returncode result =? 0 then Provisioning.Done result
       else Provisioning.Thrown (Provisioning.CalledProcessError result),
       Provisioning.on_world (fun _ => set_fs (fun _ => fs') w1) h)
  | Raise e =>
      (Provisioning.Thrown (Provisioning.Builtin e),
       Provisioning.on_world (fun _ => w1) h)
  end.
Proof.
  cbv zeta. unfold Provisioning.run_checked, Provisioning.run, Provisioning.liftM,
    OfficeToPDFConverter.run, Provisioning.throw. punfold.
  destruct (subprocess_run env _ _) as [[result fs']|e]; [|reflexivity].
  destruct (returncode result =? 0); reflexivity.
Qed.

Lemma install_libreoffice_windows_cases env sur msi h :
  let cmd := CmdArgs ["msiexec"; "/i"; msi; "/qn"] in
  let w1 := add_event (EvSubprocess cmd) (Provisioning.world h) in
  let h0 := Provisioning.add_note Provisioning.NoteSilentInstall h in
  Provisioning.install_libreoffice_windows env sur msi h =
  match subprocess_run env cmd w1 with
  | Ok (r, fs') =>
      let h1 := Provisioning.on_world (fun _ => set_fs (fun _ => fs') w1) h0 in
      if returncode r =? 0
      then (Provisioning.Done true, Provisioning.add_note Provisioning.NoteInstalled h1)
      else
        let detail := if String.eqb (stderr r) "" then inr (returncode r)
                      else inl (stderr r) in
        let h2 :=
          Provisioning.add_call (Provisioning.CallStartfile msi)
            (add_notes [Provisioning.NoteSilentInstallFailed detail;
                        Provisioning.NoteOpeningInstaller] h1) in
        (if Provisioning.startfile_ok sur msi (Provisioning.world h2)
         then Provisioning.Done false
         else Provisioning.Thrown (Provisioning.Builtin OSError), h2)
  | Raise e =>
      (Provisioning.Thrown
         (if Provisioning.is_FileNotFoundError (Provisioning.Builtin e)
          then Provisioning.AttributeError else Provisioning.Builtin e),
       Provisioning.on_world (fun _ => w1) h0)
  end.
Proof.
  cbv zeta.
  unfold Provisioning.install_libreoffice_windows, Provisioning.attempt. punfold.
  unfold Provisioning.note at 1. cbn [fst snd].
  rewrite run_checked_cases. cbv zeta.
  cbn [Provisioning.world Provisioning.add_note].
  destruct (subprocess_run env _ _) as [[r fs']|e].
  - destruct (returncode r =? 0); [reflexivity|].
    cbn [Provisioning.is_CalledProcessError orb].
    unfold Provisioning.note, Provisioning.startfile, add_notes,
      Provisioning.add_note, Provisioning.add_call, Provisioning.on_world.
    cbn [fst snd Provisioning.world Provisioning.notes Provisioning.calls].
    rewrite <- !app_assoc. cbn [app].
    match goal with
    | |- context [Provisioning.startfile_ok sur msi ?w] =>
        destruct (Provisioning.startfile_ok sur msi w)
    end; reflexivity.
  - cbn [Provisioning.is_CalledProcessError orb].
    destruct (Provisioning.is_FileNotFoundError (Provisioning.Builtin e)) eqn:Hf;
      [|reflexivity].
    destruct e; try discriminate Hf. reflexivity.
Qed.

(** X14.  [install_libreoffice_windows] runs [msiexec /i <msi> /qn] once.  It
    returns [True] exactly when that process exits with status 0.  The
    installer is handed to [os.startfile] exactly when the process ran and
    exited with another status.  When the process cannot be started nothing
    is opened and an exception leaves the function: the handler's [e.stderr]
    raises [AttributeError] on a [FileNotFoundError], every other exception
    is not caught. *)
Theorem X14_windows_installer env sur msi h :
  let res := Provisioning.install_libreoffice_windows env sur msi h in
  let cmd := CmdArgs ["msiexec"; "/i"; msi; "/qn"] in
  let launched :=
    subprocess_run env cmd (add_event (EvSubprocess cmd) (Provisioning.world h)) in
  trace (Provisioning.world (snd res))
  = trace (Provisioning.world h) ++ [EvSubprocess cmd]
  /\ (fst res = Provisioning.Done true
      <-> exists r fs', launched = Ok (r, fs') /\ returncode r = 0)
  /\ (fst res = Provisioning.Done true ->
      Provisioning.calls (snd res) = Provisioning.calls h
      /\ Provisioning.notes (snd res)
         = Provisioning.notes h
           ++ [Provisioning.NoteSilentInstall; Provisioning.NoteInstalled])
  /\ (forall r fs', launched = Ok (r, fs') -> returncode r <> 0 ->
      Provisioning.calls (snd res)
      = Provisioning.calls h ++ [Provisioning.CallStartfile msi]
      /\ (fst res = Provisioning.Done false
          \/ fst res = Provisioning.Thrown (Provisioning.Builtin OSError)))
  /\ (forall e, launched = Raise e ->
      Provisioning.calls (snd res) = Provisioning.calls h
      /\ fst res = Provisioning.Thrown
                     (if Provisioning.is_FileNotFoundError (Provisioning.Builtin e)
                      then Provisioning.AttributeError
                      else Provisioning.Builtin e)).
Proof.
  cbv zeta. rewrite install_libreoffice_windows_cases. cbv zeta.
  destruct (subprocess_run env _ _) as [[r fs']|e].
  - destruct (Z.eqb_spec (returncode r) 0) as [Hr|Hr].
    + cbn. split; [reflexivity|].
      split; [split; [intros _; eauto | reflexivity]|].
      split; [intros _; split; [reflexivity | rewrite <- app_assoc; reflexivity]|].
      split; [intros r' fs'' [= <- <-] Hn; contradiction | discriminate].
    + cbn [fst snd]. split; [reflexivity|].
      split.
      { split; [|intros (r' & fs'' & [= <- <-] & Hz); contradiction].
        destruct (Provisioning.startfile_ok _ _ _); discriminate. }
      split; [destruct (Provisioning.startfile_ok _ _ _); discriminate|].
      split; [|discriminate].
      intros r' fs'' _ _. split; [reflexivity|].
      destruct (Provisioning.startfile_ok _ _ _); [left | right]; reflexivity.
  - cbn [fst snd]. split; [reflexivity|].
    split.
    { split; [|intros (r' & fs'' & [=] & _)].
      destruct (Provisioning.is_FileNotFoundError _); discriminate. }
    split; [destruct (Provisioning.is_FileNotFoundError _); discriminate|].
    split; [discriminate|].
    intros e' [= <-]. split; reflexivity.
Qed.

Lemma macos_finally_cases env h l :
  exists r h',
    Provisioning.install_libreoffice_macos_finally env (h, l) = (r, (h', l))
    /\ trace (Provisioning.world h')
       = trace (Provisioning.world h)
         ++ match l with
            | Some mp => if String.eqb mp "" then []
                         else [EvSubprocess (CmdArgs ["hdiutil"; "detach"; mp])]
            | None => []
            end.
Proof.
  unfold Provisioning.install_libreoffice_macos_finally, Provisioning.get_local,
    Provisioning.liftH, Provisioning.note, Provisioning.run, Provisioning.liftM,
    OfficeToPDFConverter.run, Provisioning.truthy.
  punfold. cbn [fst snd].
  destruct l as [mp|]; [|do 2 eexists; split; [reflexivity | cbn; rewrite app_nil_r; reflexivity]].
  destruct (String.eqb mp ""); cbn [negb];
    [do 2 eexists; split; [reflexivity | cbn; rewrite app_nil_r; reflexivity]|].
  cbn [fst snd Provisioning.world Provisioning.add_note].
  destruct (subprocess_run env _ _) as [[r fs']|e]; cbn [fst snd];
    do 2 eexists; (split; [reflexivity|]); reflexivity.
Qed.

Lemma macos_try_cases env sur dmg h :
  let attach := CmdArgs ["hdiutil"; "attach"; str dmg] in
  exists r h' l evs,
    Provisioning.install_libreoffice_macos_try env sur dmg (h, None) = (r, (h', l))
    /\ trace (Provisioning.world h')
       = trace (Provisioning.world h) ++ EvSubprocess attach :: evs
    /\ mounted env dmg (Provisioning.world h)
       = match l with
         | Some mp => if String.eqb mp "" then None else Some mp
         | None => None
         end
    /\ (evs = []
        \/ exists mp app,
             mounted env dmg (Provisioning.world h) = Some mp
             /\ Py.endswith app ".app" = true
             /\ evs = [EvSubprocess
                         (CmdArgs ["osascript"; "-e";
                                   Provisioning.applescript (PyStr.join mp app)])])
    /\ (r = Provisioning.Done true -> evs <> []).
Proof.
  cbv zeta.
  unfold mounted, Provisioning.install_libreoffice_macos_try,
    Provisioning.install_libreoffice_macos_body, Provisioning.attempt,
    Provisioning.liftH, Provisioning.get_local, Provisioning.set_local,
    Provisioning.note, Provisioning.throw.
  punfold. cbn [fst snd].
  rewrite run_checked_cases. cbv zeta. cbn [Provisioning.world Provisioning.add_note].
  destruct (subprocess_run env _ _) as [[r fs1]|e].
  2:{ cbn [fst snd Provisioning.is_CalledProcessError Provisioning.is_RuntimeError orb].
      destruct (Provisioning.is_FileNotFoundError _);
        do 3 eexists; exists []; (split; [reflexivity|]); cbn;
        (split; [reflexivity|]); (split; [reflexivity|]);
        (split; [left; reflexivity | discriminate]). }
  destruct (returncode r =? 0).
  2:{ cbn. do 3 eexists; exists []; (split; [reflexivity|]); cbn;
        (split; [reflexivity|]); (split; [reflexivity|]);
        (split; [left; reflexivity | discriminate]). }
  cbn [fst snd]. destruct (Provisioning.parse_mount_point (stdout r)) as [mp|].
  2:{ cbn. do 3 eexists; exists []; (split; [reflexivity|]); cbn;
        (split; [reflexivity|]); (split; [reflexivity|]);
        (split; [left; reflexivity | discriminate]). }
  cbn [fst snd]. unfold Provisioning.liftM at 1, path_exists.
  cbn [fst snd Provisioning.world Provisioning.on_world Provisioning.truthy].
  destruct (String.eqb mp "") eqn:Hmp.
  { cbn. do 3 eexists; exists []; (split; [reflexivity|]); cbn.
    rewrite Hmp.
    (split; [reflexivity|]); (split; [reflexivity|]);
        (split; [left; reflexivity | discriminate]). }
  cbn [negb orb].
  destruct (bool_decide _).
  2:{ cbn. do 3 eexists; exists []; (split; [reflexivity|]); cbn.
    rewrite Hmp.
    (split; [reflexivity|]); (split; [reflexivity|]);
        (split; [left; reflexivity | discriminate]). }
  cbn [negb fst snd]. unfold Provisioning.os_listdir.
  cbn [fst snd Provisioning.world Provisioning.on_world Provisioning.add_call
       Provisioning.add_note].
  destruct (Provisioning.listdir sur mp _) as [entries|e].
  2:{ cbn [fst snd Provisioning.is_CalledProcessError Provisioning.is_RuntimeError orb].
      destruct (Provisioning.is_FileNotFoundError _);
        do 3 eexists; exists []; (split; [reflexivity|]); cbn; rewrite Hmp;
        (split; [reflexivity|]); (split; [reflexivity|]);
        (split; [left; reflexivity | discriminate]). }
  cbn [fst snd].
  destruct (find _ entries) as [app|] eqn:Hfind.
  2:{ cbn. do 3 eexists; exists []; (split; [reflexivity|]); cbn; rewrite Hmp;
        (split; [reflexivity|]); (split; [reflexivity|]);
        (split; [left; reflexivity | discriminate]). }
  apply find_some in Hfind. destruct Hfind as [_ Happ].
  cbn [fst snd]. rewrite run_checked_cases. cbv zeta.
  cbn [Provisioning.world Provisioning.add_note Provisioning.on_world].
  destruct (subprocess_run env (CmdArgs ("osascript" :: _)) _) as [[r2 fs2]|e].
  - destruct (returncode r2 =? 0);
      cbn [fst snd Provisioning.is_CalledProcessError orb];
      do 3 eexists; eexists [_]; (split; [reflexivity|]); cbn; rewrite Hmp;
      (split; [rewrite <- app_assoc; reflexivity|]); (split; [reflexivity|]);
      (split; [right; exists mp, app; split; [reflexivity|]; split; [exact Happ | reflexivity]
              | discriminate]).
  - cbn [fst snd Provisioning.is_CalledProcessError Provisioning.is_RuntimeError orb].
    destruct (Provisioning.is_FileNotFoundError _);
      do 3 eexists; eexists [_]; (split; [reflexivity|]); cbn; rewrite Hmp;
      (split; [rewrite <- app_assoc; reflexivity|]); (split; [reflexivity|]);
      (split; [right; exists mp, app; split; [reflexivity|]; split; [exact Happ | reflexivity]
              | discriminate]).
Qed.

(** X15.  [install_libreoffice_macos] first runs [hdiutil attach].  When
    that reports a mount point (exit status 0 and a [/Volumes/] line with a
    non-empty last field), the last process the function runs is
    [hdiutil detach] of that mount point, whatever happened in between
    (missing directory, no [.app] entry, a failed or refused copy, an
    exception that is not caught); between the two at most the one
    [osascript] copy of an entry ending in [.app] is run.  When no mount point
    is reported, nothing but [attach] is run and the result is not [True].
    The result is [True] only after the copy was run. *)
Theorem X15_macos_image_is_detached env sur dmg h :
  let res := Provisioning.install_libreoffice_macos env sur dmg h in
  let attach := CmdArgs ["hdiutil"; "attach"; str dmg] in
  exists evs,
    trace (Provisioning.world (snd res))
    = trace (Provisioning.world h) ++ EvSubprocess attach :: evs
    /\ match mounted env dmg (Provisioning.world h) with
       | Some mp =>
           exists mid,
             evs = mid ++ [EvSubprocess (CmdArgs ["hdiutil"; "detach"; mp])]
             /\ (mid = []
                 \/ exists app,
                      Py.endswith app ".app" = true
                      /\ mid = [EvSubprocess
                                  (CmdArgs ["osascript"; "-e";
                                            Provisioning.applescript
                                              (PyStr.join mp app)])])
       | None => evs = [] /\ fst res <> Provisioning.Done true
       end
    /\ (fst res = Provisioning.Done true -> length evs = 2%nat).
Proof.
  cbv zeta.
  destruct (macos_try_cases env sur dmg h) as (r & h1 & l & evs & Htry & Htr & Hm & Hevs & Htrue).
  destruct (macos_finally_cases env h1 l) as (r2 & h2 & Hfin & Htr2).
  unfold Provisioning.install_libreoffice_macos, Provisioning.with_local,
    Provisioning.ensuring.
  rewrite Htry, Hfin.
  assert (Hres : forall o : Provisioning.Outcome bool,
             (let (r0, s') :=
                match r2 with
                | Provisioning.Done _ => (o, (h2, l))
                | Provisioning.Thrown e => (Provisioning.Thrown e, (h2, l))
                end in (r0, fst s'))
             = (match r2 with
                | Provisioning.Done _ => o
                | Provisioning.Thrown e => Provisioning.Thrown e
                end, h2)) by (intros o; destruct r2; reflexivity).
  rewrite Hres. cbn [fst snd]. rewrite Htr2, Htr, Hm.
  destruct l as [mp|].
  - destruct (String.eqb mp "") eqn:Hmp.
    + destruct Hevs as [->|(mp' & app & Hc & _)]; [|rewrite Hm in Hc; discriminate Hc].
      exists []. rewrite app_nil_r.
      split; [reflexivity|]. split.
      * split; [reflexivity|]. intros Hd. destruct r2; [|discriminate Hd].
        apply Htrue in Hd. contradiction.
      * intros Hd. destruct r2; [|discriminate Hd]. apply Htrue in Hd. contradiction.
    + eexists. split; [rewrite <- app_assoc; reflexivity|].
      split.
      * exists evs. split; [reflexivity|].
        destruct Hevs as [->|(mp' & app & Hc & Happ & ->)]; [left; reflexivity|].
        rewrite Hm in Hc. injection Hc as <-. right. exists app. split; [exact Happ | reflexivity].
      * intros Hd. destruct r2; [|discriminate Hd]. apply Htrue in Hd.
        destruct Hevs as [->|(mp' & app & _ & _ & ->)]; [contradiction | reflexivity].
  - destruct Hevs as [->|(mp' & app & Hc & _)]; [|rewrite Hm in Hc; discriminate Hc].
    exists []. rewrite app_nil_r.
    split; [reflexivity|]. split.
    + split; [reflexivity|]. intros Hd. destruct r2; [|discriminate Hd].
      apply Htrue in Hd. contradiction.
    + intros Hd. destruct r2; [|discriminate Hd]. apply Htrue in Hd. contradiction.
Qed.

Lemma thread_wrap env sur dm h :
  Provisioning._install_libreoffice_thread env sur dm h =
  (Provisioning.Done tt,
   Provisioning.add_call Provisioning.CallStatusThread
     match Provisioning._install_libreoffice_thread_try env sur dm h with
     | (Provisioning.Done _, h1) => h1
     | (Provisioning.Thrown e, h1) =>
         Provisioning.add_note (Provisioning.NoteUnexpected e) h1
     end).
Proof.
  unfold Provisioning._install_libreoffice_thread, Provisioning.ensuring,
    Provisioning.attempt, Provisioning.check_dependencies, Provisioning.call,
    Provisioning.note.
  destruct (Provisioning._install_libreoffice_thread_try env sur dm h) as [[[]|e] h1];
    reflexivity.
Qed.

Lemma thread_try_unsupported env sur dm h :
  ~ mapped_pair (DependencyManager.system dm) (DependencyManager.machine dm) ->
  Provisioning._install_libreoffice_thread_try env sur dm h =
  (Provisioning.Done tt,
   Provisioning.on_world
     (add_log (MsgUnsupportedPlatform (DependencyManager.system dm)
                 (DependencyManager.machine dm))) h).
Proof.
  intros Hn. destruct dm as [sys mach]. cbn [DependencyManager.system DependencyManager.machine] in *.
  unfold Provisioning._install_libreoffice_thread_try, Provisioning.liftM,
    DependencyManager.get_libreoffice_download_url, mapped_pair, log_message, modify in *.
  punfold. munfold. cbn [DependencyManager.system DependencyManager.machine].
  destruct (String.eqb_spec sys "Windows") as [->|Hw].
  - destruct (Py.endswith mach "64") eqn:E.
    + exfalso. apply Hn. left. split; [reflexivity|]. apply endswith_inv, E.
    + destruct h; reflexivity.
  - destruct (String.eqb_spec sys "Darwin") as [->|Hd].
    + destruct (String.eqb_spec mach "arm64") as [->|Ha]; [exfalso; apply Hn; right; auto|].
      destruct (String.eqb_spec mach "x86_64") as [->|Hx]; [exfalso; apply Hn; right; auto|].
      destruct h; reflexivity.
    + destruct h; reflexivity.
Qed.

Lemma thread_try_supported env sur dm h dir :
  mapped_pair (DependencyManager.system dm) (DependencyManager.machine dm) ->
  Provisioning.mkdtemp sur (Provisioning.world h) = Ok dir ->
  exists url,
    DependencyManager.get_libreoffice_download_url dm (Provisioning.world h)
    = (Ok (Some url), Provisioning.world h)
    /\ Provisioning._install_libreoffice_thread_try env sur dm h =
       Provisioning.ensuring
         (Provisioning._install_libreoffice_thread_block env sur url dir)
         (Provisioning.cleanup sur dir) h.
Proof.
  intros Hm Hdir. destruct dm as [sys mach].
  cbn [DependencyManager.system DependencyManager.machine] in *.
  unfold Provisioning._install_libreoffice_thread_try, Provisioning.liftM,
    DependencyManager.get_libreoffice_download_url, mapped_pair in *.
  punfold. munfold. cbn [DependencyManager.system DependencyManager.machine].
  destruct Hm as [[-> [p ->]]|[-> [->| ->]]].
  - cbn [String.eqb Ascii.eqb Bool.eqb]. rewrite endswith_app.
    eexists. split; [reflexivity|]. destruct h as [w ns cs].
    cbn [Provisioning.world Provisioning.on_world] in *. cbn. rewrite Hdir. reflexivity.
  - eexists. split; [reflexivity|]. destruct h as [w ns cs].
    cbn [Provisioning.world Provisioning.on_world] in *. cbn. rewrite Hdir. reflexivity.
  - eexists. split; [reflexivity|]. destruct h as [w ns cs].
    cbn [Provisioning.world Provisioning.on_world] in *. cbn. rewrite Hdir. reflexivity.
Qed.

Lemma ensuring_cleanup {A} sur (m : Provisioning.P Provisioning.Host A) dir h :
  let res := Provisioning.ensuring m (Provisioning.cleanup sur dir) h in
  Provisioning.notes (snd res) = Provisioning.notes (snd (m h))
  /\ Provisioning.calls (snd res) = Provisioning.calls (snd (m h))
  /\ trace (Provisioning.world (snd res)) = trace (Provisioning.world (snd (m h)))
  /\ (Provisioning.rmtree sur dir (Provisioning.world (snd (m h))) = None ->
      fst res = fst (m h)
      /\ forall k,
           fs (Provisioning.world (snd res)) !! k
           = if Py.startswith k (dir +:+ "/") then None
             else fs (Provisioning.world (snd (m h))) !! k).
Proof.
  cbv zeta. unfold Provisioning.ensuring, Provisioning.cleanup.
  destruct (m h) as [r h1]. cbn [fst snd].
  destruct (Provisioning.rmtree sur dir (Provisioning.world h1)) as [e|];
    cbn [fst snd Provisioning.world Provisioning.on_world
         Provisioning.notes Provisioning.calls set_fs fs trace].
  - do 3 (split; [reflexivity|]). discriminate.
  - do 3 (split; [reflexivity|]). intros _. split; [reflexivity|].
    intros k. destruct (Py.startswith k (dir +:+ "/")) eqn:E.
    + apply map_lookup_filter_None. right. intros x _. cbn [fst]. rewrite E. cbn. tauto.
    + destruct (fs (Provisioning.world h1) !! k) as [x|] eqn:Hk.
      * apply map_lookup_filter_Some. split; [exact Hk|]. cbn [fst]. rewrite E. exact I.
      * apply map_lookup_filter_None. left. exact Hk.
Qed.

(** X16.  [_install_libreoffice_thread] never lets an exception out, and the
    last thing it does is start the status check of [check_dependencies],
    whatever the download and the installer did.  On a platform without an
    installer it does nothing else than log the unsupported-platform
    message: no download, no process, no change of the file system. *)
Theorem X16_install_thread_always_rechecks env sur dm h :
  let res := Provisioning._install_libreoffice_thread env sur dm h in
  fst res = Provisioning.Done tt
  /\ (exists cs,
        Provisioning.calls (snd res) = cs ++ [Provisioning.CallStatusThread])
  /\ (~ mapped_pair (DependencyManager.system dm) (DependencyManager.machine dm) ->
      snd res
      = Provisioning.add_call Provisioning.CallStatusThread
          (Provisioning.on_world
             (add_log (MsgUnsupportedPlatform (DependencyManager.system dm)
                         (DependencyManager.machine dm))) h)).
Proof.
  cbv zeta. rewrite thread_wrap. cbn [fst snd].
  split; [reflexivity|]. split.
  - eexists. unfold Provisioning.add_call. cbn [Provisioning.calls]. reflexivity.
  - intros Hn. rewrite (thread_try_unsupported env sur dm h Hn). reflexivity.
Qed.

Lemma thread_block_download_fails env sur url dir h e partial :
  let dest :=
    joinpath dir "LibreOffice_installer"
      (if String.eqb (platform_system env) "Windows" then ".msi" else ".dmg") in
  snd (Provisioning.urlretrieve sur url (str dest) (Provisioning.world h))
  = inr (e, partial) ->
  let res := Provisioning._install_libreoffice_thread_block env sur url dir h in
  fst res = Provisioning.Done tt
  /\ trace (Provisioning.world (snd res)) = trace (Provisioning.world h)
  /\ Provisioning.calls (snd res)
     = Provisioning.calls h ++ [Provisioning.CallUrlretrieve url (str dest)].
Proof.
  cbv zeta. intros He.
  unfold Provisioning._install_libreoffice_thread_block. punfold.
  rewrite download_file_cases. cbv zeta. rewrite He. destruct partial; cbn; auto.
Qed.

(** X17.  On a platform with an installer, the installer is downloaded to
    [<temp_dir>/LibreOffice_installer.msi] on Windows and to
    [<temp_dir>/LibreOffice_installer.dmg] elsewhere.  When the download
    fails no process is started: the only calls are [urlretrieve] and the
    status check.  When the temporary directory can be removed, nothing is
    left below it at the end, whether the download and the installation
    succeeded, failed or raised, and whatever a broken download left
    behind. *)
Theorem X17_temporary_directory_is_removed env sur dm h temp_dir :
  mapped_pair (DependencyManager.system dm) (DependencyManager.machine dm) ->
  Provisioning.mkdtemp sur (Provisioning.world h) = Ok temp_dir ->
  let res := Provisioning._install_libreoffice_thread env sur dm h in
  let dest :=
    joinpath temp_dir "LibreOffice_installer"
      (if String.eqb (platform_system env) "Windows" then ".msi" else ".dmg") in
  ((forall w, Provisioning.rmtree sur temp_dir w = None) ->
   forall k, Py.startswith k (temp_dir +:+ "/") = true ->
     fs (Provisioning.world (snd res)) !! k = None)
  /\ exists url,
       DependencyManager.get_libreoffice_download_url dm (Provisioning.world h)
       = (Ok (Some url), Provisioning.world h)
       /\ forall e partial,
            snd (Provisioning.urlretrieve sur url (str dest) (Provisioning.world h))
            = inr (e, partial) ->
            trace (Provisioning.world (snd res)) = trace (Provisioning.world h)
            /\ Provisioning.calls (snd res)
               = Provisioning.calls h
                 ++ [Provisioning.CallUrlretrieve url (str dest);
                     Provisioning.CallStatusThread].
Proof.
  intros Hm Hdir. cbv zeta. rewrite thread_wrap. cbn [fst snd].
  destruct (thread_try_supported env sur dm h temp_dir Hm Hdir) as (url & Hurl & ->).
  set (block := Provisioning._install_libreoffice_thread_block env sur url temp_dir).
  destruct (ensuring_cleanup sur block temp_dir h) as (Hnotes & Hcalls & Htrace & Hfs).
  destruct (Provisioning.ensuring block (Provisioning.cleanup sur temp_dir) h) as [r h1].
  cbn [fst snd] in *.
  assert (Hw : Provisioning.world
                 (Provisioning.add_call Provisioning.CallStatusThread
                    match r with
                    | Provisioning.Done _ => h1
                    | Provisioning.Thrown e1 =>
                        Provisioning.add_note (Provisioning.NoteUnexpected e1) h1
                    end) = Provisioning.world h1) by (destruct r; reflexivity).
  assert (Hc : Provisioning.calls
                 (Provisioning.add_call Provisioning.CallStatusThread
                    match r with
                    | Provisioning.Done _ => h1
                    | Provisioning.Thrown e1 =>
                        Provisioning.add_note (Provisioning.NoteUnexpected e1) h1
                    end) = Provisioning.calls h1 ++ [Provisioning.CallStatusThread])
    by (destruct r; reflexivity).
  rewrite Hw, Hc. split.
  - intros Hrm k Hk. destruct (Hfs (Hrm _)) as [_ Hlook]. rewrite Hlook, Hk. reflexivity.
  - exists url. split; [exact Hurl|]. intros e partial He.
    destruct (thread_block_download_fails env sur url temp_dir h e partial He)
      as (_ & Hwb & Hcb).
    fold block in Hwb, Hcb.
    rewrite Htrace, Hcalls, Hwb, Hcb. split; [reflexivity|].
    rewrite <- app_assoc. reflexivity.
Qed.

Lemma X17_temporary_directory_is_removed_witness :
  trace (Provisioning.world
           (snd (Provisioning._install_libreoffice_thread example_env broken_link
                   (DependencyManager.init example_env) example_host)))
  = trace (Provisioning.world example_host)
  /\ fs (Provisioning.world
           (snd (Provisioning._install_libreoffice_thread example_env broken_link
                   (DependencyManager.init example_env) example_host)))
     !! "/tmp/tmpq7w2/LibreOffice_installer.msi" = None.
Proof.
  destruct (X17_temporary_directory_is_removed example_env broken_link
              (DependencyManager.init example_env) example_host "/tmp/tmpq7w2")
    as (Hclean & url & _ & Hfail).
  - left. split; [reflexivity | exists "AMD"; reflexivity].
  - reflexivity.
  - split.
    + apply (Hfail OSError None). reflexivity.
    + apply Hclean; [intros w; reflexivity | reflexivity].
Defined.

(** X18.  On Windows the status check and the converter agree: the status
    thread shows LibreOffice as installed exactly when
    [find_libreoffice_path] finds an executable (returns a quoted path and
    not the bare command [libreoffice]), which is when one of the two
    [soffice.exe] paths exists.  The check changes nothing and never
    raises. *)
Theorem X18_windows_status_agrees_with_converter env dm h :
  DependencyManager.system dm = "Windows" ->
  exists installed : bool,
    Provisioning.check env dm h
    = (Provisioning.Done tt,
       Provisioning.add_call (Provisioning.CallShowStatus installed) h)
    /\ (installed = true
        <-> fst (DependencyManager.find_libreoffice_path dm (Provisioning.world h))
            <> Ok "libreoffice")
    /\ (installed = true
        <-> exists path, In path DependencyManager.windows_paths
                         /\ is_Some (fs (Provisioning.world h) !! path)).
Proof.
  intros Hsys.
  unfold Provisioning.check, Provisioning.check_libreoffice, Provisioning.liftM,
    Provisioning.call, DependencyManager.find_libreoffice_path, path_exists.
  rewrite Hsys. cbn [String.eqb Ascii.eqb Bool.eqb DependencyManager.windows_paths].
  punfold. munfold. cbn [fst snd].
  destruct h as [w ns cs]. cbn [Provisioning.world].
  destruct (bool_decide
              (is_Some (fs w !! "C:\Program Files\LibreOffice\program\soffice.exe")))
    eqn:E1.
  - exists true. split; [reflexivity|].
    split; [split; [intros _; cbn; discriminate | reflexivity]|].
    split; [intros _ | reflexivity].
    eexists. split; [left; reflexivity|]. apply bool_decide_eq_true in E1. exact E1.
  - destruct (bool_decide
                (is_Some
                   (fs w !! "C:\Program Files (x86)\LibreOffice\program\soffice.exe")))
      eqn:E2.
    + exists true. split; [reflexivity|].
      split; [split; [intros _; cbn; discriminate | reflexivity]|].
      split; [intros _ | reflexivity].
      eexists. split; [right; left; reflexivity|].
      apply bool_decide_eq_true in E2. exact E2.
    + exists false. split; [reflexivity|].
      split; [split; [discriminate | intros Hn; exfalso; apply Hn; reflexivity]|].
      split; [discriminate|].
      apply bool_decide_eq_false in E1. apply bool_decide_eq_false in E2.
      intros (path & [<-|[<-|[]]] & Hp); contradiction.
Qed.

Lemma X18_windows_status_agrees_with_converter_witness :
  exists installed : bool,
    Provisioning.check example_env (DependencyManager.init example_env) example_host
    = (Provisioning.Done tt,
       Provisioning.add_call (Provisioning.CallShowStatus installed) example_host)
    /\ (installed = true
        <-> fst (DependencyManager.find_libreoffice_path
                   (DependencyManager.init example_env)
                   (Provisioning.world example_host))
            <> Ok "libreoffice")
    /\ (installed = true
        <-> exists path, In path DependencyManager.windows_paths
                         /\ is_Some (fs (Provisioning.world example_host) !! path)).
Proof.
  apply (X18_windows_status_agrees_with_converter example_env
           (DependencyManager.init example_env) example_host).
  reflexivity.
Defined.

(** ** The list of input files *)

Lemma add_one_fold tk paths self n :
  exists added,
    fold_left (FileSelection.add_one tk) paths (self, n)
    = ({| FileSelection.input_files := FileSelection.input_files self ++ added;
          FileSelection.files_listbox :=
            FileSelection.files_listbox self ++ map (FileSelection.basename tk) added;
          FileSelection.output_directory := FileSelection.output_directory self;
          FileSelection.messages := FileSelection.messages self |},
       n + Z.of_nat (length added))
    /\ sublist added paths
    /\ NoDup added
    /\ forall f, f ∈ added
         <-> f ∈ paths /\ FileSelection.admitted f = true
             /\ f ∉ FileSelection.input_files self.
Proof.
  revert self n. induction paths as [|p paths IH]; intros self n.
  - exists []. cbn. rewrite !app_nil_r, Z.add_0_r. destruct self.
    split; [reflexivity|]. split; [constructor|]. split; [constructor|].
    intros f. split; [intros H; inversion H | intros [H _]; inversion H].
  - cbn [fold_left]. unfold FileSelection.add_one at 2.
    destruct (FileSelection.admitted p) eqn:Hadm; cbn [negb].
    + destruct (Py.contains p (FileSelection.input_files self)) eqn:Hc; cbn [negb].
      * destruct (IH self n) as (added & Heq & Hsub & Hnd & Hmem).
        exists added. split; [exact Heq|]. split; [apply sublist_cons, Hsub|].
        split; [exact Hnd|]. intros f. rewrite Hmem. rewrite elem_of_cons.
        split; [intros (H1 & H2 & H3); auto|].
        intros ([->|H1] & H2 & H3); [|auto].
        apply contains_elem_of in Hc. contradiction.
      * match goal with
        | |- context [fold_left _ paths (?s, _)] =>
            destruct (IH s (n + 1)) as (added & Heq & Hsub & Hnd & Hmem)
        end.
        cbn [FileSelection.input_files FileSelection.files_listbox
             FileSelection.output_directory FileSelection.messages] in *.
        assert (Hp : p ∉ FileSelection.input_files self).
        { intros Hin. apply contains_elem_of in Hin. congruence. }
        exists (p :: added). split.
        { rewrite Heq. cbn [length map]. rewrite <- !app_assoc. cbn [app].
          f_equal. lia. }
        split; [apply sublist_skip, Hsub|].
        split.
        { apply NoDup_cons. split; [|exact Hnd].
          intros Hin. apply Hmem in Hin. destruct Hin as (_ & _ & Hn).
          apply Hn. apply elem_of_app. right. apply list_elem_of_singleton. reflexivity. }
        intros f. rewrite !elem_of_cons, Hmem. split.
        -- intros [->|(H1 & H2 & H3)]; [auto|].
           split; [auto|]. split; [exact H2|].
           intros Hin. apply H3. apply elem_of_app. left. exact Hin.
        -- intros ([->|H1] & H2 & H3); [left; reflexivity|].
           destruct (decide (f = p)) as [->|Hne]; [left; reflexivity|].
           right. split; [exact H1|]. split; [exact H2|].
           intros Hin. apply elem_of_app in Hin. destruct Hin as [Hin|Hin]; [auto|].
           apply list_elem_of_singleton in Hin. auto.
    + destruct (IH self n) as (added & Heq & Hsub & Hnd & Hmem).
      exists added. split; [exact Heq|]. split; [apply sublist_cons, Hsub|].
      split; [exact Hnd|]. intros f. rewrite Hmem. rewrite elem_of_cons.
      split; [intros (H1 & H2 & H3); auto|].
      intros ([->|H1] & H2 & H3); [congruence | auto].
Qed.

Lemma add_file_paths_cases tk paths self :
  let self1 := with_directory tk paths self in
  exists added,
    FileSelection._add_file_paths tk paths self
    = {| FileSelection.input_files := FileSelection.input_files self ++ added;
         FileSelection.files_listbox :=
           FileSelection.files_listbox self ++ map (FileSelection.basename tk) added;
         FileSelection.output_directory := FileSelection.output_directory self1;
         FileSelection.messages :=
           FileSelection.messages self1
           ++ match added with
              | [] => []
              | _ => [FileSelection.NoticeAdded (Z.of_nat (length added))]
              end |}
    /\ sublist added paths
    /\ NoDup added
    /\ forall f, f ∈ added
         <-> f ∈ paths /\ FileSelection.admitted f = true
             /\ f ∉ FileSelection.input_files self.
Proof.
  cbv zeta. unfold FileSelection._add_file_paths.
  change (match paths with
          | [] => self
          | first :: _ =>
              if String.eqb (FileSelection.output_directory self) "" then
                FileSelection.log_message
                  (FileSelection.NoticeOutputDirectory
                     (FileSelection.output_directory
                        (FileSelection.set_output_directory
                           (FileSelection.parent_of tk first) self)))
                  (FileSelection.set_output_directory
                     (FileSelection.parent_of tk first) self)
              else self
          end) with (with_directory tk paths self).
  destruct (add_one_fold tk paths (with_directory tk paths self) 0)
    as (added & Heq & Hsub & Hnd & Hmem).
  assert (Hin : FileSelection.input_files (with_directory tk paths self)
                = FileSelection.input_files self).
  { unfold with_directory. destruct paths; [reflexivity|].
    destruct (String.eqb _ _); reflexivity. }
  assert (Hlb : FileSelection.files_listbox (with_directory tk paths self)
                = FileSelection.files_listbox self).
  { unfold with_directory. destruct paths; [reflexivity|].
    destruct (String.eqb _ _); reflexivity. }
  rewrite Heq. rewrite Hin, Hlb in *. exists added.
  split; [|split; [exact Hsub | split; [exact Hnd | exact Hmem]]].
  destruct added as [|a added].
  - cbn. rewrite !app_nil_r. reflexivity.
  - replace (0 <? 0 + Z.of_nat (length (a :: added))) with true
      by (symmetry; apply Z.ltb_lt; cbn [length]; lia).
    reflexivity.
Qed.

(** X19.  One call of [_add_file_paths] appends to [input_files] the given
    paths that have one of the five extensions (whatever the case of the
    letters) and are not yet listed, each once and in the order given; the
    earlier entries stay where they are, the list box gets the base names of
    the new entries, and the count of new entries is logged when it is not
    zero. *)
Theorem X19_add_file_paths_appends tk paths self :
  let self' := FileSelection._add_file_paths tk paths self in
  exists added,
    FileSelection.input_files self' = FileSelection.input_files self ++ added
    /\ FileSelection.files_listbox self'
       = FileSelection.files_listbox self ++ map (FileSelection.basename tk) added
    /\ sublist added paths
    /\ NoDup added
    /\ (forall f, f ∈ added
          <-> f ∈ paths /\ FileSelection.admitted f = true
              /\ f ∉ FileSelection.input_files self)
    /\ FileSelection.messages self'
       = FileSelection.messages (with_directory tk paths self)
         ++ match added with
            | [] => []
            | _ => [FileSelection.NoticeAdded (Z.of_nat (length added))]
            end.
Proof.
  cbv zeta.
  destruct (add_file_paths_cases tk paths self) as (added & -> & Hsub & Hnd & Hmem).
  exists added. cbn. auto 10.
Qed.

Lemma add_file_paths_well_formed tk paths self :
  well_formed tk self -> well_formed tk (FileSelection._add_file_paths tk paths self).
Proof.
  intros (Hnd & Hadm & Hlb).
  destruct (add_file_paths_cases tk paths self) as (added & -> & _ & Hnda & Hmem).
  unfold well_formed.
  cbn [FileSelection.input_files FileSelection.files_listbox].
  split; [|split].
  - apply NoDup_app. split; [exact Hnd|]. split; [|exact Hnda].
    intros f Hf Hfa. apply Hmem in Hfa. destruct Hfa as (_ & _ & Hn). contradiction.
  - apply Forall_app. split; [exact Hadm|].
    apply Forall_forall. intros f Hf. apply Hmem in Hf. tauto.
  - rewrite Hlb, map_app. reflexivity.
Qed.

Lemma log_message_well_formed tk n self :
  well_formed tk self -> well_formed tk (FileSelection.log_message n self).
Proof. intros H. exact H. Qed.

Lemma perform_well_formed tk self a :
  well_formed tk self -> well_formed tk (perform tk self a).
Proof.
  intros Hw. destruct a as [files|folder|data| |d|text]; cbn [perform].
  - unfold FileSelection.add_files. destruct files; [exact Hw|].
    apply add_file_paths_well_formed, Hw.
  - unfold FileSelection.add_folder. destruct (String.eqb folder ""); [exact Hw|].
    destruct (flat_map _ _); [exact Hw|]. apply add_file_paths_well_formed, Hw.
  - unfold FileSelection._handle_drop.
    destruct (FileSelection.splitlist tk data).
    + apply add_file_paths_well_formed, log_message_well_formed, Hw.
    + exact Hw.
  - repeat split; constructor.
  - unfold FileSelection.select_output_dir. destruct (String.eqb d ""); exact Hw.
  - exact Hw.
Qed.

Lemma fold_perform_well_formed tk actions self :
  well_formed tk self -> well_formed tk (fold_left (perform tk) actions self).
Proof.
  revert self. induction actions as [|a actions IH]; intros self Hw; [exact Hw|].
  cbn [fold_left]. apply IH, perform_well_formed, Hw.
Qed.

(** X20.  Whatever the user does with a new window (adding files or a
    folder, dropping files, emptying the list, choosing or typing an output
    directory), the file list stays well formed: no file is listed twice,
    every listed file has one of the five extensions, and the list box shows
    the base names of the listed files in the same order.  Whenever
    [start_processing] starts a run, there is at least one file and the
    output directory is not empty. *)
Theorem X20_file_list_is_well_formed tk (actions : list Action) :
  let self := after_actions tk actions in
  well_formed tk self
  /\ (FileSelection.start_processing self = None ->
      FileSelection.input_files self <> []
      /\ FileSelection.output_directory self <> "").
Proof.
  cbv zeta. split.
  - apply fold_perform_well_formed. repeat split; constructor.
  - unfold FileSelection.start_processing.
    destruct (FileSelection.input_files _); [discriminate|].
    destruct (String.eqb_spec (FileSelection.output_directory (after_actions tk actions)) "");
      [discriminate|].
    intros _. split; [discriminate | assumption].
Qed.

Lemma add_one_fold_present tk paths self n :
  (forall f, f ∈ paths -> FileSelection.admitted f = true ->
             f ∈ FileSelection.input_files self) ->
  fold_left (FileSelection.add_one tk) paths (self, n) = (self, n).
Proof.
  induction paths as [|p paths IH]; intros Hall; [reflexivity|].
  cbn [fold_left]. unfold FileSelection.add_one at 2.
  destruct (FileSelection.admitted p) eqn:Hadm; cbn [negb].
  - assert (Hc : Py.contains p (FileSelection.input_files self) = true).
    { apply contains_elem_of, Hall; [left | exact Hadm]. }
    rewrite Hc. cbn [negb]. apply IH. intros f Hf. apply Hall. right. exact Hf.
  - apply IH. intros f Hf. apply Hall. right. exact Hf.
Qed.

(** X21.  Offering the same paths a second time adds nothing: the file list
    and the list box are the same after the second call as after the first,
    and when the output directory is set after the first call the second
    call changes nothing at all and logs nothing. *)
Theorem X21_add_file_paths_idempotent tk paths self :
  let once := FileSelection._add_file_paths tk paths self in
  let twice := FileSelection._add_file_paths tk paths once in
  FileSelection.input_files twice = FileSelection.input_files once
  /\ FileSelection.files_listbox twice = FileSelection.files_listbox once
  /\ (FileSelection.output_directory once <> "" -> twice = once).
Proof.
  cbv zeta.
  destruct (add_file_paths_cases tk paths self) as (added & Honce & _ & _ & Hmem).
  set (once := FileSelection._add_file_paths tk paths self) in *.
  assert (Hall : forall s, FileSelection.input_files s = FileSelection.input_files once ->
                   forall f, f ∈ paths -> FileSelection.admitted f = true ->
                             f ∈ FileSelection.input_files s).
  { intros s Hs f Hf Hadm. rewrite Hs, Honce. cbn [FileSelection.input_files].
    apply elem_of_app.
    destruct (decide (f ∈ FileSelection.input_files self)) as [Hin|Hn]; [left; exact Hin|].
    right. apply Hmem. auto. }
  assert (Hd : FileSelection.input_files (with_directory tk paths once)
               = FileSelection.input_files once
               /\ FileSelection.files_listbox (with_directory tk paths once)
                  = FileSelection.files_listbox once).
  { unfold with_directory. destruct paths; [split; reflexivity|].
    destruct (String.eqb _ _); split; reflexivity. }
  assert (Htwice : FileSelection._add_file_paths tk paths once
                   = with_directory tk paths once).
  { unfold FileSelection._add_file_paths.
    change (match paths with
            | [] => once
            | first :: _ =>
                if String.eqb (FileSelection.output_directory once) "" then
                  FileSelection.log_message
                    (FileSelection.NoticeOutputDirectory
                       (FileSelection.output_directory
                          (FileSelection.set_output_directory
                             (FileSelection.parent_of tk first) once)))
                    (FileSelection.set_output_directory
                       (FileSelection.parent_of tk first) once)
                else once
            end) with (with_directory tk paths once).
    rewrite add_one_fold_present; [reflexivity|].
    apply Hall. apply Hd. }
  rewrite Htwice. destruct Hd as [Hd1 Hd2].
  split; [exact Hd1|]. split; [exact Hd2|].
  intros Hne. unfold with_directory. destruct paths; [reflexivity|].
  destruct (String.eqb_spec (FileSelection.output_directory once) ""); [contradiction|].
  reflexivity.
Qed.

Lemma add_file_paths_keeps_directory tk paths self :
  FileSelection.output_directory self <> "" ->
  FileSelection.output_directory (FileSelection._add_file_paths tk paths self)
  = FileSelection.output_directory self.
Proof.
  intros Hne.
  destruct (add_file_paths_cases tk paths self) as (added & -> & _).
  cbn [FileSelection.output_directory]. unfold with_directory.
  destruct paths; [reflexivity|].
  destruct (String.eqb_spec (FileSelection.output_directory self) ""); [contradiction|].
  reflexivity.
Qed.

Lemma perform_keeps_directory tk self a :
  sets_directory a = false ->
  FileSelection.output_directory self <> "" ->
  FileSelection.output_directory (perform tk self a)
  = FileSelection.output_directory self.
Proof.
  intros Ha Hne. destruct a as [files|folder|data| |d|text]; cbn [perform];
    try discriminate Ha.
  - unfold FileSelection.add_files. destruct files; [reflexivity|].
    apply add_file_paths_keeps_directory, Hne.
  - unfold FileSelection.add_folder. destruct (String.eqb folder ""); [reflexivity|].
    destruct (flat_map _ _); [reflexivity|]. apply add_file_paths_keeps_directory, Hne.
  - unfold FileSelection._handle_drop.
    destruct (FileSelection.splitlist tk data); [|reflexivity].
    rewrite add_file_paths_keeps_directory; [reflexivity | exact Hne].
  - reflexivity.
Qed.

(** X22.  An output directory that is set is never changed by the file
    list: once [output_directory] is not empty, no adding of files or of a
    folder, no drop and no emptying of the list changes it, whatever the
    paths are; it is filled in from the first path offered only while it is
    empty. *)
Theorem X22_output_directory_is_kept tk (before later : list Action) :
  FileSelection.output_directory (after_actions tk before) <> "" ->
  forallb (fun a => negb (sets_directory a)) later = true ->
  FileSelection.output_directory (after_actions tk (before ++ later))
  = FileSelection.output_directory (after_actions tk before).
Proof.
  intros Hd Hlater. unfold after_actions in *. rewrite fold_left_app.
  revert Hd. generalize (fold_left (perform tk) before FileSelection.initial).
  induction later as [|a later IH]; intros s Hs; [reflexivity|].
  cbn [forallb] in Hlater. apply andb_true_iff in Hlater. destruct Hlater as [Ha Hl].
  assert (Hk : FileSelection.output_directory (perform tk s a)
               = FileSelection.output_directory s).
  { apply perform_keeps_directory; [|exact Hs].
    destruct (sets_directory a); [discriminate Ha | reflexivity]. }
  cbn [fold_left]. rewrite (IH Hl (perform tk s a)); [exact Hk|].
  rewrite Hk. exact Hs.
Qed.

Lemma X22_output_directory_is_kept_witness :
  FileSelection.output_directory
    (after_actions example_toolkit
       ([AddFiles ["in/a.pdf"]] ++ [ClearFiles; AddFiles ["other/b.docx"]]))
  = "in".
Proof.
  rewrite (X22_output_directory_is_kept example_toolkit [AddFiles ["in/a.pdf"]]
             [ClearFiles; AddFiles ["other/b.docx"]]).
  - reflexivity.
  - vm_compute. discriminate.
  - reflexivity.
Defined.

(** ** What a new window starts with *)

Ltac font_unfold :=
  unfold FontSetup.__init__, FontSetup._get_accessible_font_path,
    FontSetup._register_font, FontSetup.update, Provisioning.attempt,
    Provisioning.liftH, Provisioning.liftM, Provisioning.note, Provisioning.throw,
    Provisioning.get_local, path_exists, OfficeToPDFGUI.copy2;
  punfold; cbn [fst snd Provisioning.world Provisioning.on_world add_event fs].

Lemma font_setup_cases env res h :
  let original := FontSetup.get_resource_path res "SourceHanSerif.ttf" in
  let temp := FontSetup.path_join res (FontSetup.gettempdir res) "com.chandler.rabpdf" in
  let accessible := FontSetup.path_join res temp "SourceHanSerif.ttf" in
  exists self h',
    FontSetup.__init__ env res h = (Provisioning.Done self, h')
    /\ FontSetup.font_name self = "Source Han Serif CN"
    /\ trace (Provisioning.world h')
       = trace (Provisioning.world h)
         ++ match fs (Provisioning.world h) !! original,
                  FontSetup.makedirs res temp (Provisioning.world h) with
            | Some _, None => [EvCopy original accessible]
            | _, _ => []
            end
    /\ (FontSetup.font_registered self = true ->
        exists f,
          fs (Provisioning.world h) !! original = Some f
          /\ fs (Provisioning.world h') = <[accessible := f]> (fs (Provisioning.world h))
          /\ FontSetup.font_path self = Some accessible
          /\ FontSetup.temp_dir self = Some temp
          /\ FontSetup.import_reportlab res = true
          /\ Provisioning.notes h' = Provisioning.notes h)
    /\ (FontSetup.font_registered self = false ->
        exists n ns, Provisioning.notes h' = Provisioning.notes h ++ n :: ns)
    /\ (fs (Provisioning.world h) !! original = None \/ FontSetup.import_reportlab res = false ->
        FontSetup.font_registered self = false)
    /\ (fs (Provisioning.world h) !! original = None ->
        fs (Provisioning.world h') = fs (Provisioning.world h)).
Proof.
  cbv zeta. font_unfold.
  set (original := FontSetup.get_resource_path res "SourceHanSerif.ttf").
  set (temp := FontSetup.path_join res (FontSetup.gettempdir res) "com.chandler.rabpdf").
  set (accessible := FontSetup.path_join res temp "SourceHanSerif.ttf").
  destruct (fs (Provisioning.world h) !! original) as [f|] eqn:Hsrc.
  2:{ rewrite bool_decide_eq_false_2 by (intros [? ?]; discriminate).
      cbn. do 2 eexists. split; [reflexivity|]. cbn.
      split; [reflexivity|]. split; [rewrite app_nil_r; reflexivity|].
      split; [discriminate|].
      split; [intros _; do 2 eexists; rewrite <- app_assoc; reflexivity|].
      split; reflexivity. }
  rewrite bool_decide_eq_true_2 by eauto.
  cbn [negb fst snd Provisioning.world Provisioning.on_world].
  destruct (FontSetup.makedirs res temp (Provisioning.world h)) as [e|].
  { cbn. do 2 eexists. split; [reflexivity|]. cbn.
    split; [reflexivity|]. split; [rewrite app_nil_r; reflexivity|].
    split; [discriminate|].
    split; [intros _; do 2 eexists; rewrite <- app_assoc; reflexivity|].
    split; [reflexivity | discriminate]. }
  cbn [fst snd Provisioning.world Provisioning.on_world fs add_event]. rewrite Hsrc.
  destruct (copy2_ok env original accessible _).
  2:{ cbn. do 2 eexists. split; [reflexivity|]. cbn.
      split; [reflexivity|]. split; [reflexivity|].
      split; [discriminate|].
      split; [intros _; do 2 eexists; rewrite <- app_assoc; reflexivity|].
      split; [reflexivity | discriminate]. }
  cbn [fst snd Provisioning.truthy Provisioning.world Provisioning.on_world].
  destruct (String.eqb accessible "").
  { cbn. do 2 eexists. split; [reflexivity|]. cbn.
    split; [reflexivity|]. split; [reflexivity|].
    split; [discriminate|].
    split; [intros _; do 2 eexists; reflexivity|].
    split; [reflexivity | discriminate]. }
  cbn [negb]. destruct (FontSetup.import_reportlab res) eqn:Himp; cbn [negb].
  2:{ cbn. do 2 eexists. split; [reflexivity|]. cbn.
      split; [reflexivity|]. split; [reflexivity|].
      split; [discriminate|].
      split; [intros _; do 2 eexists; reflexivity|].
      split; [reflexivity | discriminate]. }
  cbn [fst snd FontSetup.font_name FontSetup.font_path FontSetup.set_font_path
       FontSetup.set_temp_dir Provisioning.world].
  destruct (FontSetup.registerFont res _ _ _) as [e|].
  - cbn. do 2 eexists. split; [reflexivity|]. cbn.
    split; [reflexivity|]. split; [reflexivity|].
    split; [discriminate|].
    split; [intros _; do 2 eexists; reflexivity|].
    split; [intros [?|?]; discriminate | discriminate].
  - cbn. do 2 eexists. split; [reflexivity|]. cbn.
    split; [reflexivity|]. split; [reflexivity|].
    split; [intros _; exists f; auto 10|].
    split; [discriminate|].
    split; [intros [?|?]; discriminate | discriminate].
Qed.

(** X23.  Building a [WatermarkManager] never raises.  When it leaves
    [font_registered] set, the bundled font was found, its copy is at
    [<tempdir>/com.chandler.rabpdf/SourceHanSerif.ttf] with the contents of
    the bundled file, [font_path] and [temp_dir] point there, and nothing was
    logged.  When it leaves [font_registered] unset, at least one message
    says so.  The only outside call is the one copy, made when the bundled
    font exists and the directory could be made. *)
Theorem X23_font_setup env res h :
  let original := FontSetup.get_resource_path res "SourceHanSerif.ttf" in
  let temp := FontSetup.path_join res (FontSetup.gettempdir res) "com.chandler.rabpdf" in
  let accessible := FontSetup.path_join res temp "SourceHanSerif.ttf" in
  exists self h',
    FontSetup.__init__ env res h = (Provisioning.Done self, h')
    /\ FontSetup.font_name self = "Source Han Serif CN"
    /\ trace (Provisioning.world h')
       = trace (Provisioning.world h)
         ++ match fs (Provisioning.world h) !! original,
                  FontSetup.makedirs res temp (Provisioning.world h) with
            | Some _, None => [EvCopy original accessible]
            | _, _ => []
            end
    /\ (FontSetup.font_registered self = true ->
        exists f,
          fs (Provisioning.world h) !! original = Some f
          /\ fs (Provisioning.world h') = <[accessible := f]> (fs (Provisioning.world h))
          /\ FontSetup.font_path self = Some accessible
          /\ FontSetup.temp_dir self = Some temp
          /\ FontSetup.import_reportlab res = true
          /\ Provisioning.notes h' = Provisioning.notes h)
    /\ (FontSetup.font_registered self = false ->
        exists n ns, Provisioning.notes h' = Provisioning.notes h ++ n :: ns).
Proof.
  cbv zeta.
  destruct (font_setup_cases env res h) as (self & h' & H1 & H2 & H3 & H4 & H5 & _).
  exists self, h'. auto.
Qed.

(** X24.  Without the bundled font, or without ReportLab, no PDF is ever
    watermarked: the manager that [__init__] builds refuses every
    [add_watermark], which returns [False] and leaves the file system as it
    is. *)
Theorem X24_no_font_no_watermark env res h :
  fs (Provisioning.world h) !! FontSetup.get_resource_path res "SourceHanSerif.ttf" = None
  \/ FontSetup.import_reportlab res = false ->
  exists self h',
    FontSetup.__init__ env res h = (Provisioning.Done self, h')
    /\ forall pdf text out o f r (w : World),
         let result :=
           WatermarkManager.add_watermark env (FontSetup.manager self)
             pdf text out o f r w in
         fst result = Ok false /\ fs (snd result) = fs w.
Proof.
  intros Hcause.
  destruct (font_setup_cases env res h) as (self & h' & H1 & _ & _ & _ & _ & Hreg & _).
  exists self, h'. split; [exact H1|].
  intros pdf text out o f r w. cbv zeta. rewrite add_watermark_cases. cbv zeta.
  assert (Hm : WatermarkManager.font_registered (FontSetup.manager self) = false)
    by (exact (Hreg Hcause)).
  rewrite Hm. cbn [negb].
  destruct (negb (import_pdf_libs env)); split; reflexivity.
Qed.

Lemma X24_no_font_no_watermark_witness :
  exists self h',
    FontSetup.__init__ example_env bare_resources example_host
    = (Provisioning.Done self, h')
    /\ forall pdf text out o f r (w : World),
         let result :=
           WatermarkManager.add_watermark example_env (FontSetup.manager self)
             pdf text out o f r w in
         fst result = Ok false /\ fs (snd result) = fs w.
Proof.
  apply (X24_no_font_no_watermark example_env bare_resources example_host).
  left. reflexivity.
Defined.

